(** * grblHAL: status report generator, settings catalogue enumerator
      and the odometer plugin's hook chain

    A shallow embedding of
    - [report_realtime_status], [report_init_message] and the settings-details
      enumeration ([sort_settings_details], [print_settings_details],
      [report_settings_details]) of report.c;
    - the settings listing ([report_grbl_settings], [report_grbl_setting]),
      the setting-group reports ([report_setting_group_details],
      [report_group_settings]) and [is_g92_active] of report.c;
    - the entry-point chaining and the accounting of
      plugins/odometer/odometer.c.

    Stream output is modelled as the ordered trace of the calls made by the
    code: every [hal.stream.write_all (s)] is one [Write s] event, a call
    through a function pointer owned by other code is an event of its own. *)

From Stdlib Require Import ZArith List String Ascii Bool Lia DecimalString.
From Stdlib Require Import Permutation Sorted DecimalN.
Import ListNotations.
Open Scope string_scope.
Open Scope list_scope.
Open Scope Z_scope.

(** ** Helpers shared by the three parts *)

(** Modelled from the spec: [uitoa] lives in nuts_bolts.c, which is not part
    of the sources at hand; the scenarios of the spec ([Hold:1], [$30], ...)
    fix it as the unsigned decimal rendering of a [uint32_t]. The cast to
    [uint32_t] that precedes every call is folded in as the reduction modulo
    2^32. *)
Definition uitoa (v : Z) : string :=
  NilEmpty.string_of_uint (N.to_uint (Z.to_N (v mod 2 ^ 32))).

(** [appendbuf (argc, ...)] concatenates its string arguments in the static
    buffer and returns the buffer. *)
Definition appendbuf (args : list string) : string := String.concat "" args.

(** Modelled from the spec: [ASCII_EOL] is a macro of a header that is not
    among the sources; the protocol's line terminator, carriage return then
    line feed. *)
Definition ASCII_EOL : string :=
  String (ascii_of_nat 13) (String (ascii_of_nat 10) EmptyString).

(** A C truth value read from an integer. *)
Definition nonzero (v : Z) : bool := negb (v =? 0).

Definition uint8 (v : Z) : Z := v mod 256.

(** The status codes the modelled functions return. *)
Inductive status_code_t : Set :=
| Status_OK
| Status_Unhandled
| Status_SettingDisabled
| Status_Other (code : Z).

Module Report.

(** *** Machine state *)

(** The discrete machine states ([sys_state_t] as returned by [state_get]). *)
Inductive sys_state_t : Set :=
| STATE_IDLE
| STATE_ALARM
| STATE_CHECK_MODE
| STATE_HOMING
| STATE_CYCLE
| STATE_HOLD
| STATE_JOG
| STATE_SAFETY_DOOR
| STATE_SLEEP
| STATE_ESTOP
| STATE_TOOL_CHANGE.

(** Modelled from the spec: the [STATE_*] macros are defined in system.h,
    which is not among the sources. Idle is zero, every other state is one
    bit of its own, so that the set test
    [state & (STATE_HOMING|STATE_CYCLE|...)] of the source can be written as
    it stands. *)
Definition state_bits (s : sys_state_t) : Z :=
  match s with
  | STATE_IDLE => 0
  | STATE_ALARM => 1
  | STATE_CHECK_MODE => 2
  | STATE_HOMING => 4
  | STATE_CYCLE => 8
  | STATE_HOLD => 16
  | STATE_JOG => 32
  | STATE_SAFETY_DOOR => 64
  | STATE_SLEEP => 128
  | STATE_ESTOP => 256
  | STATE_TOOL_CHANGE => 512
  end.

Definition state_eqb (a b : sys_state_t) : bool := state_bits a =? state_bits b.

(** [state_get() & (STATE_HOMING|STATE_CYCLE|STATE_HOLD|STATE_JOG|STATE_SAFETY_DOOR)] *)
Definition busy_state (s : sys_state_t) : bool :=
  nonzero (Z.land (state_bits s)
             (Z.lor (state_bits STATE_HOMING)
                (Z.lor (state_bits STATE_CYCLE)
                   (Z.lor (state_bits STATE_HOLD)
                      (Z.lor (state_bits STATE_JOG) (state_bits STATE_SAFETY_DOOR)))))).

(** *** Signals and flags *)

Record probe_state_t : Set := {
  connected : bool;
  triggered : bool
}.

Record spindle_state_t : Set := {
  sp_on : bool;
  sp_ccw : bool;
  sp_encoder_error : bool
}.

(** [cl_unnamed]: the bits of the union report.c never reads by name. *)
Record coolant_state_t : Set := {
  flood : bool;
  mist : bool;
  cl_unnamed : bool
}.

(** [hal.coolant.get_state().value != 0] *)
Definition coolant_value (c : coolant_state_t) : bool :=
  flood c || mist c || cl_unnamed c.

(** [control_signals_t]: a union of a [value] and one bit per signal;
    [ctrl_unnamed] stands for the bits report.c never reads by name. *)
Record control_signals_t : Set := {
  reset : bool;
  feed_hold : bool;
  cycle_start : bool;
  safety_door_ajar : bool;
  block_delete : bool;
  stop_disable : bool;
  e_stop : bool;
  motor_fault : bool;
  motor_warning : bool;
  limits_override : bool;
  ctrl_unnamed : bool
}.

(** [ctrl_pin_state.value] used as a condition. *)
Definition ctrl_value (c : control_signals_t) : bool :=
  reset c || feed_hold c || cycle_start c || safety_door_ajar c
  || block_delete c || stop_disable c || e_stop c || motor_fault c
  || motor_warning c || limits_override c || ctrl_unnamed c.

(** [report_tracking_flags_t] ([sys.report]): the dirty flags, a union of a
    [value] and one bit per flag; the flags report.c reads by name. *)
Record report_tracking_flags_t : Set := {
  r_mpg_mode : bool;
  r_scaling : bool;
  r_homed : bool;
  r_xmode : bool;
  r_spindle : bool;
  r_coolant : bool;
  r_overrides : bool;
  r_tool : bool;
  r_wco : bool;
  r_gwco : bool;
  r_tool_offset : bool;
  r_tlo_reference : bool;
  r_all : bool
}.

(** [sys.report.value] used as a condition. *)
Definition report_value (r : report_tracking_flags_t) : bool :=
  r_mpg_mode r || r_scaling r || r_homed r || r_xmode r || r_spindle r
  || r_coolant r || r_overrides r || r_tool r || r_wco r || r_gwco r
  || r_tool_offset r || r_tlo_reference r || r_all r.

(** [sys.report.value = 0] *)
Definition report_clear : report_tracking_flags_t :=
  {| r_mpg_mode := false; r_scaling := false; r_homed := false;
     r_xmode := false; r_spindle := false; r_coolant := false;
     r_overrides := false; r_tool := false; r_wco := false; r_gwco := false;
     r_tool_offset := false; r_tlo_reference := false; r_all := false |}.

Definition set_wco (r : report_tracking_flags_t) (b : bool) :=
  {| r_mpg_mode := r_mpg_mode r; r_scaling := r_scaling r; r_homed := r_homed r;
     r_xmode := r_xmode r; r_spindle := r_spindle r; r_coolant := r_coolant r;
     r_overrides := r_overrides r; r_tool := r_tool r; r_wco := b;
     r_gwco := r_gwco r; r_tool_offset := r_tool_offset r;
     r_tlo_reference := r_tlo_reference r; r_all := r_all r |}.

Definition set_overrides (r : report_tracking_flags_t) (ov sp cl : bool) :=
  {| r_mpg_mode := r_mpg_mode r; r_scaling := r_scaling r; r_homed := r_homed r;
     r_xmode := r_xmode r; r_spindle := sp; r_coolant := cl;
     r_overrides := ov; r_tool := r_tool r; r_wco := r_wco r;
     r_gwco := r_gwco r; r_tool_offset := r_tool_offset r;
     r_tlo_reference := r_tlo_reference r; r_all := r_all r |}.

(** [settings.status_report], the capabilities of the HAL and the other
    settings the report reads. *)
Record config_t : Set := {
  machine_position : bool;
  buffer_state : bool;
  line_numbers : bool;
  feed_speed : bool;
  pin_state : bool;
  work_coord_offset : bool;
  overrides : bool;
  parser_state : bool;
  run_substate : bool;
  alarm_substate : bool;
  cap_variable_spindle : bool;      (* hal.driver_cap.variable_spindle *)
  cap_spindle_sync : bool;          (* hal.driver_cap.spindle_sync *)
  cap_mpg_mode : bool;              (* hal.driver_cap.mpg_mode *)
  cap_safety_door_ajar : bool;      (* hal.signals_cap.safety_door_ajar *)
  cap_stop_disable : bool;          (* hal.signals_cap.stop_disable *)
  homing_single_axis_commands : bool;
  homing_manual : bool;
  mode_lathe : bool;                (* settings.mode == Mode_Lathe *)
  report_inches : bool;             (* settings.flags.report_inches *)
  on_realtime_report : bool         (* grbl.on_realtime_report != NULL *)
}.

(** Flags of the real-time executor that the report may raise. *)
Inductive exec_flag : Set := EXEC_GCODE_REPORT | EXEC_TLO_REPORT.

(** One observable action of the report generator. *)
Inductive event : Set :=
| Write (s : string)
| OnRealtimeReport (r : report_tracking_flags_t)
| SetExecStateFlag (f : exec_flag).

(** The text the generator itself puts on the stream. *)
Definition written (e : event) : string :=
  match e with
  | Write s => s
  | _ => EmptyString
  end.

Definition line_of (tr : list event) : string :=
  String.concat "" (map written tr).


(** *** What the report takes from other modules *)

(** The firmware around report.c, as far as the status report depends on it.
    Single-precision values are kept abstract: the report only subtracts,
    compares, scales, rounds and prints them. [ftoa] is the conversion of
    nuts_bolts.c (value and number of decimals), [fdouble] is [* 2.0f],
    [to_inches] is [* INCH_PER_MM], [to_uint32] is the cast [(uint32_t)];
    [modal_differs] is [memcmp] over [gc_modal_t]; the fields in capitals
    are build-time defines. *)
Class Platform : Type := {
  float : Set;
  fsub : float -> float -> float;
  fneq : float -> float -> bool;                (* a != b *)
  lroundf : float -> Z;
  fdouble : float -> float;
  to_inches : float -> float;
  to_uint32 : float -> Z;
  ftoa : float -> Z -> string;
  N_DECIMAL_COORDVALUE_MM : Z;
  N_DECIMAL_COORDVALUE_INCH : Z;
  gc_modal_t : Set;
  modal_differs : gc_modal_t -> gc_modal_t -> bool;
  N_AXIS : nat;
  COMPATIBILITY_LEVEL : Z;
  GRBL_VERSION : string;
  REPORT_OVERRIDE_REFRESH_BUSY_COUNT : Z;
  REPORT_OVERRIDE_REFRESH_IDLE_COUNT : Z;
  REPORT_WCO_REFRESH_BUSY_COUNT : Z;
  REPORT_WCO_REFRESH_IDLE_COUNT : Z
}.

Section StatusReport.

Context {P : Platform}.

(** The compile-time sanity check of the defines: the build stops with
    [#error] unless this holds. *)
Definition refresh_counts_accepted : bool :=
  negb (REPORT_WCO_REFRESH_BUSY_COUNT <? REPORT_WCO_REFRESH_IDLE_COUNT)
  && negb (REPORT_OVERRIDE_REFRESH_BUSY_COUNT <? REPORT_OVERRIDE_REFRESH_IDLE_COUNT)
  && negb (REPORT_WCO_REFRESH_IDLE_COUNT <? 2)
  && negb (REPORT_OVERRIDE_REFRESH_IDLE_COUNT <? 1).

(** The range the comments next to the defines ask for, [(1-255)]: the
    counters are [uint8_t]. *)
Definition refresh_counts_in_range : bool :=
  (REPORT_WCO_REFRESH_BUSY_COUNT <=? 255)
  && (REPORT_OVERRIDE_REFRESH_BUSY_COUNT <=? 255).

(** Everything [report_realtime_status] reads from the rest of the
    firmware during one call. *)
Record snapshot : Type := {
  state_get : sys_state_t;
  tool_change : bool;                    (* gc_state.tool_change *)
  position : nat -> float;               (* system_convert_array_steps_to_mpos *)
  gc_get_offset : nat -> float;
  stack_wco : nat -> float;              (* wco[] while not assigned *)
  probe_get_state : option probe_state_t;   (* None: hal.probe.get_state == NULL *)
  probing_active : bool;                 (* sys.probing_state == Probing_Active *)
  feed_hold_pending : bool;              (* sys.flags.feed_hold_pending *)
  block_delete_enabled : bool;           (* sys.flags.block_delete_enabled *)
  optional_stop_disable : bool;          (* sys.flags.optional_stop_disable *)
  holding_state : Z;
  parking_state : Z;
  alarm : Z;
  block_buffer_available : Z;            (* plan_get_block_buffer_available () *)
  rx_buffer_available : Z;               (* hal.stream.get_rx_buffer_available () *)
  cur_block_line_number : option Z;      (* None: plan_get_current_block () == NULL *)
  spindle_get_state : spindle_state_t;
  coolant_get_state : coolant_state_t;
  spindle_rpm : float;                   (* sys.spindle_rpm *)
  realtime_rate : float;                 (* st_get_realtime_rate () *)
  spindle_get_data : option float;       (* None: hal.spindle.get_data == NULL *)
  limits_get_state : Z;                  (* axes_signals_t, one bit per axis *)
  control_get_state : control_signals_t;
  override_feed_rate : Z;
  override_rapid_rate : Z;
  override_spindle_rpm : Z;
  g51_state : Z;                         (* gc_get_g51_state () *)
  mpg_mode : bool;
  homing_mask : Z;                       (* sys.homing.mask *)
  homed_mask : Z;                        (* sys.homed.mask *)
  coord_system_id : Z;                   (* gc_state.modal.coord_system.id *)
  diameter_mode : bool;
  tool : Z;                              (* gc_state.tool->tool *)
  tlo_reference_set : Z;                 (* sys.tlo_reference_set.mask *)
  gc_feed_rate : float;
  gc_spindle_rpm : float;
  gc_modal : gc_modal_t;
  is_g92_active : bool
}.

(** The variables that outlive a call: the two file-scope counters, the
    function's [static] locals and the process-wide dirty flags. *)
Record rstate : Type := {
  probing : bool;
  override_counter : Z;
  wco_counter : Z;
  report : report_tracking_flags_t;      (* sys.report *)
  ps_tool : Z;
  ps_feed_rate : float;
  ps_spindle_rpm : float;
  ps_last_state : gc_modal_t;
  ps_g92_active : bool
}.

(** *** report_init_message *)

(** The welcome message: both counters are set to zero, nothing else of
    the state is touched, and the greeting is written. *)
Definition report_init_message (st : rstate) : list event * rstate :=
  ([Write (if COMPATIBILITY_LEVEL =? 0
           then appendbuf [ASCII_EOL; "GrblHAL "; GRBL_VERSION;
                           " ['$' or '$HELP' for help]"; ASCII_EOL]
           else appendbuf [ASCII_EOL; "Grbl "; GRBL_VERSION;
                           " ['$' for help]"; ASCII_EOL])],
   {| probing := probing st;
      override_counter := 0;
      wco_counter := 0;
      report := report st;
      ps_tool := ps_tool st; ps_feed_rate := ps_feed_rate st;
      ps_spindle_rpm := ps_spindle_rpm st; ps_last_state := ps_last_state st;
      ps_g92_active := ps_g92_active st |}).

(** The variables of report.c once the welcome message is out. *)
Definition initialised (st : rstate) : rstate := snd (report_init_message st).

(** *** The formatters of report.c *)

Definition X_AXIS : nat := 0.

(** The loop shared by [get_axis_values_mm] and [get_axis_values_inches]:
    the values converted one by one, each with its index, with commas in
    between. *)
Definition axis_values_with (conv : nat -> float -> string)
  (axis_values : list float) : string :=
  String.concat ","
    (map (fun iv => conv (fst iv) (snd iv))
       (combine (seq 0 (List.length axis_values)) axis_values)).

Definition get_axis_values_mm (s : snapshot) (axis_values : list float)
  : string :=
  axis_values_with
    (fun idx v =>
       if (idx =? X_AXIS)%nat && diameter_mode s
       then ftoa (fdouble v) N_DECIMAL_COORDVALUE_MM
       else ftoa v N_DECIMAL_COORDVALUE_MM) axis_values.

Definition get_axis_values_inches (s : snapshot) (axis_values : list float)
  : string :=
  axis_values_with
    (fun idx v =>
       if (idx =? X_AXIS)%nat && diameter_mode s
       then ftoa (fdouble (to_inches v)) N_DECIMAL_COORDVALUE_INCH
       else ftoa (to_inches v) N_DECIMAL_COORDVALUE_INCH) axis_values.

Definition get_rate_value_mm (value : float) : string :=
  uitoa (to_uint32 value).

Definition get_rate_value_inch (value : float) : string :=
  uitoa (to_uint32 (to_inches value)).

(** The function pointers as [report_init] sets them. *)
Definition get_axis_values (cfg : config_t) : snapshot -> list float -> string :=
  if report_inches cfg then get_axis_values_inches else get_axis_values_mm.

Definition get_rate_value (cfg : config_t) : float -> string :=
  if report_inches cfg then get_rate_value_inch else get_rate_value_mm.

Definition letter_if (b : bool) (l : string) : string :=
  if b then l else EmptyString.

(** [axis_signals_tostring]: one letter per set axis bit; the letters of the
    4th to 6th axis are compiled in only when the axis exists. *)
Definition axis_signals_tostring (signals : Z) : string :=
  appendbuf
    [ letter_if (Z.testbit signals 0) "X";
      letter_if (Z.testbit signals 1) "Y";
      letter_if (Z.testbit signals 2) "Z";
      letter_if ((3 <? N_AXIS)%nat && Z.testbit signals 3) "A";
      letter_if ((4 <? N_AXIS)%nat && Z.testbit signals 4) "B";
      letter_if ((5 <? N_AXIS)%nat && Z.testbit signals 5) "C" ].

Definition map_coord_system (id : Z) : string :=
  let g5x := uint8 (id + 54) in
  appendbuf
    [ uitoa (if 59 <? g5x then 59 else g5x);
      if 59 <? g5x then appendbuf ["."; uitoa (g5x - 59)] else EmptyString ].

(** [AXES_BITMASK] *)
Definition AXES_BITMASK : Z := 2 ^ Z.of_nat N_AXIS - 1.


(** *** report_realtime_status, block by block *)

Definition axes : list nat := seq 0 N_AXIS.

(** [probe_state], preset to connected and not triggered, replaced by the
    driver's answer when the driver has a probe. *)
Definition probe_state_of (s : snapshot) : probe_state_t :=
  match probe_get_state s with
  | Some p => p
  | None => {| connected := true; triggered := false |}
  end.

(** The selector of the [switch]. *)
Definition shown_state (s : snapshot) : sys_state_t :=
  if tool_change s && state_eqb (state_get s) STATE_CYCLE
  then STATE_TOOL_CHANGE
  else state_get s.

(** The [static bool probing] after the two assignments of the
    [STATE_CYCLE] case. *)
Definition probing_next (cfg : config_t) (s : snapshot) (p : bool) : bool :=
  if probing_active s && run_substate cfg then true
  else if p then triggered (probe_state_of s)
  else p.

(** The [switch]: the writes of the state and sub-state, and [probing]. *)
Definition report_state (cfg : config_t) (s : snapshot) (st : rstate)
  : list event * bool :=
  match shown_state s with
  | STATE_IDLE => ([Write "Idle"], probing st)
  | STATE_CYCLE =>
      let p := probing_next cfg s (probing st) in
      (Write "Run" ::
         (if feed_hold_pending s then [Write ":1"]
          else if p then [Write ":2"]
          else []), p)
  | STATE_HOLD =>
      ([Write (appendbuf ["Hold:"; uitoa (holding_state s - 1)])], probing st)
  | STATE_JOG => ([Write "Jog"], probing st)
  | STATE_HOMING => ([Write "Home"], probing st)
  | STATE_ESTOP | STATE_ALARM =>
      (if (r_all (report st) || alarm_substate cfg) && nonzero (alarm s)
       then [Write (appendbuf ["Alarm:"; uitoa (alarm s)])]
       else [Write "Alarm"], probing st)
  | STATE_CHECK_MODE => ([Write "Check"], probing st)
  | STATE_SAFETY_DOOR =>
      ([Write (appendbuf ["Door:"; uitoa (parking_state s)])], probing st)
  | STATE_SLEEP => ([Write "Sleep"], probing st)
  | STATE_TOOL_CHANGE => ([Write "Tool"], probing st)
  end.

(** [wco[]]: assigned from [gc_get_offset] under the guard, left as found
    on the stack otherwise. *)
Definition wco_array (cfg : config_t) (s : snapshot)
  (rep : report_tracking_flags_t) : list float :=
  map (fun idx =>
         if negb (machine_position cfg) || r_wco rep
         then gc_get_offset s idx
         else stack_wco s idx) axes.

Definition print_position (cfg : config_t) (s : snapshot) : list float :=
  map (fun idx =>
         if machine_position cfg then position s idx
         else fsub (position s idx) (gc_get_offset s idx)) axes.

Definition report_position (cfg : config_t) (s : snapshot) : list event :=
  [ Write (if machine_position cfg then "|MPos:" else "|WPos:");
    Write (get_axis_values cfg s (print_position cfg s)) ].

(** What the position field is to show, axis by axis: the machine position,
    less the work coordinate offset when work positions are reported,
    converted to inches when the reports are in inches, and doubled on the
    X axis in diameter mode. *)
Definition position_value (cfg : config_t) (s : snapshot) (idx : nat)
  : float :=
  let shown :=
    if machine_position cfg then position s idx
    else fsub (position s idx) (gc_get_offset s idx) in
  let scaled := if report_inches cfg then to_inches shown else shown in
  if (idx =? X_AXIS)%nat && diameter_mode s then fdouble scaled else scaled.

(** The text of these values: one number for every axis of the build, in
    the order of the axes, with commas in between. *)
Definition position_text (cfg : config_t) (s : snapshot) : string :=
  String.concat ","
    (map (fun idx =>
            ftoa (position_value cfg s idx)
              (if report_inches cfg then N_DECIMAL_COORDVALUE_INCH
               else N_DECIMAL_COORDVALUE_MM))
       (seq 0 N_AXIS)).

Definition report_buffer_state (cfg : config_t) (s : snapshot) : list event :=
  if buffer_state cfg then
    [ Write "|Bf:"; Write (uitoa (block_buffer_available s));
      Write ","; Write (uitoa (rx_buffer_available s)) ]
  else [].

Definition report_line_number (cfg : config_t) (s : snapshot) : list event :=
  if line_numbers cfg then
    match cur_block_line_number s with
    | Some ln => if 0 <? ln then [Write (appendbuf ["|Ln:"; uitoa ln])] else []
    | None => []
    end
  else [].

Definition report_feed_speed (cfg : config_t) (s : snapshot) : list event :=
  if feed_speed cfg then
    if cap_variable_spindle cfg then
      Write (appendbuf ["|FS:"; get_rate_value cfg (realtime_rate s)])
      :: Write (appendbuf
                  [","; uitoa (if sp_on (spindle_get_state s)
                               then lroundf (spindle_rpm s) else 0)])
      :: match spindle_get_data s with
         | Some rpm => [Write (appendbuf [","; uitoa (lroundf rpm)])]
         | None => []
         end
    else [Write (appendbuf ["|F:"; get_rate_value cfg (realtime_rate s)])]
  else [].

(** The letters appended for the control signals. *)
Definition control_letters (cfg : config_t) (s : snapshot)
  (c : control_signals_t) : string :=
  appendbuf
    [ letter_if (safety_door_ajar c && cap_safety_door_ajar cfg) "D";
      letter_if (reset c) "R";
      letter_if (feed_hold c) "H";
      letter_if (cycle_start c) "S";
      letter_if (e_stop c) "E";
      letter_if (block_delete c && block_delete_enabled s) "L";
      letter_if (if cap_stop_disable cfg then stop_disable c
                 else optional_stop_disable s) "T";
      letter_if (motor_warning c) "W";
      letter_if (motor_fault c) "M" ].

(** Everything that follows ["|Pn:"] in the buffer. *)
Definition pin_letters (cfg : config_t) (s : snapshot) : string :=
  let lim_pin_state := limits_get_state s in
  let ctrl_pin_state := control_get_state s in
  let probe_state := probe_state_of s in
  appendbuf
    [ letter_if (triggered probe_state) "P";
      letter_if (negb (connected probe_state)) "O";
      if nonzero lim_pin_state && negb (limits_override (control_get_state s))
      then axis_signals_tostring lim_pin_state else EmptyString;
      if ctrl_value ctrl_pin_state
      then control_letters cfg s ctrl_pin_state else EmptyString ].

Definition report_pin_state (cfg : config_t) (s : snapshot) : list event :=
  if pin_state cfg then
    if nonzero (limits_get_state s) || ctrl_value (control_get_state s)
       || triggered (probe_state_of s) || negb (connected (probe_state_of s))
       || block_delete_enabled s
    then [Write (appendbuf ["|Pn:"; pin_letters cfg s])]
    else []
  else [].

(** The value a counter is reloaded with. *)
Definition refresh_reload (busy idle : Z) (s : snapshot) : Z :=
  uint8 ((if busy_state (state_get s) then busy else idle) - 1).

(** The [work_coord_offset] block: the new [wco_counter] and [sys.report]. *)
Definition advance_wco (cfg : config_t) (s : snapshot) (c : Z)
  (rep : report_tracking_flags_t) : Z * report_tracking_flags_t :=
  if work_coord_offset cfg then
    (if (0 <? c) && negb (r_wco rep)
     then uint8 (c - 1)
     else refresh_reload REPORT_WCO_REFRESH_BUSY_COUNT
            REPORT_WCO_REFRESH_IDLE_COUNT s, rep)
  else (c, set_wco rep false).

(** The [overrides] block: the new [override_counter] and [sys.report]. *)
Definition advance_overrides (cfg : config_t) (s : snapshot) (c : Z)
  (rep : report_tracking_flags_t) : Z * report_tracking_flags_t :=
  if overrides cfg then
    if (0 <? c) && negb (r_overrides rep)
    then (uint8 (c - 1), rep)
    else (refresh_reload REPORT_OVERRIDE_REFRESH_BUSY_COUNT
            REPORT_OVERRIDE_REFRESH_IDLE_COUNT s,
          set_overrides rep true
            (r_spindle rep || sp_on (spindle_get_state s))
            (r_coolant rep || coolant_value (coolant_get_state s)))
  else (c, set_overrides rep false (r_spindle rep) (r_coolant rep)).


(** The accessory-state field ["|A:"]. *)
Definition accessory_letters (cfg : config_t) (s : snapshot)
  (rep : report_tracking_flags_t) : string :=
  let sp_state := spindle_get_state s in
  let cl_state := coolant_get_state s in
  appendbuf
    [ if sp_on sp_state then (if sp_ccw sp_state then "C" else "S")
      else EmptyString;
      letter_if ((COMPATIBILITY_LEVEL =? 0)
                 && (sp_encoder_error sp_state && cap_spindle_sync cfg)) "E";
      letter_if (flood cl_state) "F";
      letter_if (mist cl_state) "M";
      letter_if (tool_change s && negb (r_tool rep)) "T" ].

Definition report_homed (cfg : config_t) (s : snapshot) : list event :=
  let homing := if nonzero (homing_mask s) then homing_mask s else AXES_BITMASK in
  Write (appendbuf ["|H:"; if Z.land homing (homed_mask s) =? homing
                           then "1" else "0"])
  :: (if homing_single_axis_commands cfg
      then [Write (appendbuf [","; uitoa (homed_mask s)])] else []).

(** The block guarded by [sys.report.value || gc_state.tool_change]. *)
Definition report_changed (cfg : config_t) (s : snapshot)
  (rep : report_tracking_flags_t) (wco : list float) : list event :=
  if report_value rep || tool_change s then
    (if r_wco rep
     then [Write "|WCO:"; Write (get_axis_values cfg s wco)] else [])
    ++ (if r_gwco rep
        then [Write "|WCS:G"; Write (map_coord_system (coord_system_id s))]
        else [])
    ++ (if r_overrides rep
        then [ Write (appendbuf ["|Ov:"; uitoa (override_feed_rate s)]);
               Write (appendbuf [","; uitoa (override_rapid_rate s)]);
               Write (appendbuf [","; uitoa (override_spindle_rpm s)]) ]
        else [])
    ++ (if r_spindle rep || r_coolant rep || r_tool rep || tool_change s
        then [Write (appendbuf ["|A:"; accessory_letters cfg s rep])]
        else [])
    ++ (if r_scaling rep
        then [Write "|Sc:"; Write (axis_signals_tostring (g51_state s))]
        else [])
    ++ (if r_mpg_mode rep && cap_mpg_mode cfg
        then [Write (if mpg_mode s then "|MPG:1" else "|MPG:0")] else [])
    ++ (if r_homed rep
           && (nonzero (homing_mask s) || homing_single_axis_commands cfg
               || homing_manual cfg)
        then report_homed cfg s else [])
    ++ (if r_xmode rep && mode_lathe cfg
        then [Write (if diameter_mode s then "|D:1" else "|D:0")] else [])
    ++ (if r_tool rep
        then [Write (appendbuf ["|T:"; uitoa (tool s)])] else [])
    ++ (if r_tlo_reference rep
        then [Write (appendbuf
                       ["|TLR:";
                        uitoa (if nonzero (tlo_reference_set s) then 1 else 0)])]
        else [])
  else [].

Definition report_plugin (cfg : config_t) (rep : report_tracking_flags_t)
  : list event :=
  if on_realtime_report cfg then [OnRealtimeReport rep] else [].

(** The five [static] locals of the parser-state block. *)
Definition parser_statics : Type := (Z * float * float * gc_modal_t * bool)%type.

Definition statics_of (st : rstate) : parser_statics :=
  (ps_tool st, ps_feed_rate st, ps_spindle_rpm st, ps_last_state st,
   ps_g92_active st).

(** The parser-state block: it writes nothing, it asks the executor for a
    parser-state or tool-offset report. *)
Definition check_parser_state (s : snapshot) (rep : report_tracking_flags_t)
  (ps : parser_statics) : list event * parser_statics :=
  let '(tool0, feed_rate0, spindle_rpm0, last_state0, g92_active0) := ps in
  let changed3 :=
    fneq feed_rate0 (gc_feed_rate s) || fneq spindle_rpm0 (gc_spindle_rpm s)
    || negb (tool0 =? tool s) in
  let '(is_changed, ps') :=
    if changed3 then
      (true, (tool s, gc_feed_rate s, gc_spindle_rpm s, last_state0, g92_active0))
    else if negb (Bool.eqb g92_active0 (is_g92_active s)) then
      (true, (tool0, feed_rate0, spindle_rpm0, last_state0, negb g92_active0))
    else if modal_differs last_state0 (gc_modal s) then
      (true, (tool0, feed_rate0, spindle_rpm0, gc_modal s, g92_active0))
    else (false, ps) in
  ((if is_changed then [SetExecStateFlag EXEC_GCODE_REPORT] else [])
   ++ (if r_tool_offset rep then [SetExecStateFlag EXEC_TLO_REPORT] else []),
   ps').

(** What stands between the plugin callback and the closing [">"]. *)
Definition report_tail (cfg : config_t) (s : snapshot)
  (rep : report_tracking_flags_t) (ps : parser_statics)
  : list event * parser_statics :=
  if (COMPATIBILITY_LEVEL <=? 1) && r_all rep then ([Write "|FW:grblHAL"], ps)
  else if parser_state cfg then check_parser_state s rep ps
  else ([], ps).

(** *** report_realtime_status *)

Definition report_realtime_status (cfg : config_t) (s : snapshot) (st : rstate)
  : list event * rstate :=
  let '(ev_state, probing') := report_state cfg s st in
  let wco := wco_array cfg s (report st) in
  let '(wco_counter', rep1) := advance_wco cfg s (wco_counter st) (report st) in
  let '(override_counter', rep2) :=
    advance_overrides cfg s (override_counter st) rep1 in
  let '(ev_tail, ps') := report_tail cfg s rep2 (statics_of st) in
  let '(tool', feed_rate', spindle_rpm', last_state', g92_active') := ps' in
  (Write "<" :: ev_state
     ++ report_position cfg s
     ++ report_buffer_state cfg s
     ++ report_line_number cfg s
     ++ report_feed_speed cfg s
     ++ report_pin_state cfg s
     ++ report_changed cfg s rep2 wco
     ++ report_plugin cfg rep2
     ++ ev_tail
     ++ [Write (appendbuf [">"; ASCII_EOL])],
   {| probing := probing';
      override_counter := override_counter';
      wco_counter := wco_counter';
      report := set_wco report_clear
                  (work_coord_offset cfg && (wco_counter' =? 0));
      ps_tool := tool'; ps_feed_rate := feed_rate';
      ps_spindle_rpm := spindle_rpm'; ps_last_state := last_state';
      ps_g92_active := g92_active' |}).

(** The trace of one call and the state it leaves. *)
Definition trace_of (cfg : config_t) (s : snapshot) (st : rstate) : list event :=
  fst (report_realtime_status cfg s st).

Definition state_after (cfg : config_t) (s : snapshot) (st : rstate) : rstate :=
  snd (report_realtime_status cfg s st).


(** Consecutive calls with nothing else touching the counters or the dirty
    flags in between: the state one call leaves is the state the next call
    finds. The result lists the trace of every call. *)
Fixpoint run_reports (cfg : config_t) (snaps : list snapshot) (st : rstate)
  : list (list event) * rstate :=
  match snaps with
  | [] => ([], st)
  | s :: rest =>
      let '(tr, st1) := report_realtime_status cfg s st in
      let '(trs, st2) := run_reports cfg rest st1 in
      (tr :: trs, st2)
  end.

(** [sys.report] as it stands after the two counter blocks, which is what
    the rest of the call works with. *)
Definition flags_reported (cfg : config_t) (s : snapshot) (st : rstate)
  : report_tracking_flags_t :=
  snd (advance_overrides cfg s (override_counter st)
         (snd (advance_wco cfg s (wco_counter st) (report st)))).

(** The optional fields of one call, from the buffer state to whatever
    precedes the closing [">"]. *)
Definition optional_fields (cfg : config_t) (s : snapshot) (st : rstate)
  : list event :=
  report_buffer_state cfg s
  ++ report_line_number cfg s
  ++ report_feed_speed cfg s
  ++ report_pin_state cfg s
  ++ report_changed cfg s (flags_reported cfg s st)
       (wco_array cfg s (report st))
  ++ report_plugin cfg (flags_reported cfg s st)
  ++ fst (report_tail cfg s (flags_reported cfg s st) (statics_of st)).

(** The refresh interval that applies while the machine is ([busy = true])
    or is not in one of the states Homing, Run, Hold, Jog and Door. *)
Definition wco_interval (busy : bool) : Z :=
  if busy then REPORT_WCO_REFRESH_BUSY_COUNT else REPORT_WCO_REFRESH_IDLE_COUNT.

Definition override_interval (busy : bool) : Z :=
  if busy then REPORT_OVERRIDE_REFRESH_BUSY_COUNT
  else REPORT_OVERRIDE_REFRESH_IDLE_COUNT.

(** The WCO counter is within the interval and, when it stands at zero, the
    WCO flag is up. Every call made with WCO reporting on leaves the flag
    so; the counter is within the interval from the first reload on. *)
Definition wco_in_step (busy : bool) (st : rstate) : Prop :=
  0 <= wco_counter st <= wco_interval busy - 1
  /\ (wco_counter st = 0 -> r_wco (report st) = true).

Definition override_in_step (busy : bool) (st : rstate) : Prop :=
  0 <= override_counter st <= override_interval busy - 1.

(** The machine stays in one class of states over the calls. *)
Definition held (busy : bool) (snaps : list snapshot) : Prop :=
  Forall (fun s => busy_state (state_get s) = busy) snaps.

End StatusReport.

(** *** Reading a trace *)

Fixpoint all_chars (p : ascii -> bool) (s : string) : bool :=
  match s with
  | EmptyString => true
  | String c r => p c && all_chars p r
  end.

Definition is_digit (c : ascii) : bool :=
  let n := nat_of_ascii c in (48 <=? n)%nat && (n <=? 57)%nat.

(** Characters that can stand inside a field value: anything but the field
    separator and the two characters of the line terminator. *)
Definition value_char (c : ascii) : bool :=
  negb (Ascii.eqb c "|") && negb (Ascii.eqb c (ascii_of_nat 13))
  && negb (Ascii.eqb c (ascii_of_nat 10)).

(** Characters of everything a line holds before its terminator. *)
Definition line_char (c : ascii) : bool :=
  negb (Ascii.eqb c (ascii_of_nat 13)) && negb (Ascii.eqb c (ascii_of_nat 10)).

(** A field is present when the generator issues a write that starts with
    the header of the field. *)
Definition has_field (hdr : string) (tr : list event) : bool :=
  existsb (fun e => prefix hdr (written e)) tr.

(** In how many of the given calls the field is present. *)
Definition count_field (hdr : string) (trs : list (list event)) : nat :=
  List.length (filter (has_field hdr) trs).

(** The calls number [from], [from + 1], ... [from + len - 1] of a run. *)
Definition window {A : Type} (from len : nat) (l : list A) : list A :=
  firstn len (skipn from l).

(** The state names of the [switch]. *)
Definition state_tokens : list string :=
  ["Idle"; "Run"; "Hold"; "Jog"; "Home"; "Alarm"; "Check"; "Door"; "Sleep";
   "Tool"].

(** *** A build to evaluate reports on *)

(** [n] zeros. *)
Fixpoint zeros (n : nat) : string :=
  match n with
  | O => EmptyString
  | S m => String "0" (zeros m)
  end.

(** A value given in thousandths, printed with [decimals] digits after the
    point (cut, not rounded). *)
Definition ftoa_milli (v decimals : Z) : string :=
  let a := Z.abs v * 10 ^ decimals / 1000 in
  let f := uitoa (a mod 10 ^ decimals) in
  appendbuf
    [ if v <? 0 then "-" else EmptyString; uitoa (a / 10 ^ decimals); ".";
      zeros (Z.to_nat decimals - String.length f); f ].

(** Three axes, the refresh counts report.c defaults to, compatibility
    level 0; lengths and rates are held in thousandths of a millimetre. *)
Definition default_build : Platform :=
  {| float := Z;
     fsub := Z.sub;
     fneq := fun a b => negb (a =? b);
     lroundf := fun v => (v + 500) / 1000;
     fdouble := fun v => 2 * v;
     to_inches := fun v => v * 10000 / 254000;
     to_uint32 := fun v => v / 1000;
     ftoa := ftoa_milli;
     N_DECIMAL_COORDVALUE_MM := 3;
     N_DECIMAL_COORDVALUE_INCH := 4;
     gc_modal_t := Z;
     modal_differs := fun a b => negb (a =? b);
     N_AXIS := 3;
     COMPATIBILITY_LEVEL := 0;
     GRBL_VERSION := "1.1f";
     REPORT_OVERRIDE_REFRESH_BUSY_COUNT := 20;
     REPORT_OVERRIDE_REFRESH_IDLE_COUNT := 10;
     REPORT_WCO_REFRESH_BUSY_COUNT := 30;
     REPORT_WCO_REFRESH_IDLE_COUNT := 10 |}.

Section DefaultBuild.

#[local] Existing Instance default_build.

Definition no_signals : control_signals_t :=
  {| reset := false; feed_hold := false; cycle_start := false;
     safety_door_ajar := false; block_delete := false; stop_disable := false;
     e_stop := false; motor_fault := false; motor_warning := false;
     limits_override := false; ctrl_unnamed := false |}.

(** Machine coordinates, no capability of the driver, and of the optional
    fields only those asked for. *)
Definition config_with (pins wco ovr run_sub alarm_sub : bool) : config_t :=
  {| machine_position := true; buffer_state := false; line_numbers := false;
     feed_speed := false; pin_state := pins; work_coord_offset := wco;
     overrides := ovr; parser_state := false; run_substate := run_sub;
     alarm_substate := alarm_sub; cap_variable_spindle := false;
     cap_spindle_sync := false; cap_mpg_mode := false;
     cap_safety_door_ajar := false; cap_stop_disable := false;
     homing_single_axis_commands := false; homing_manual := false;
     mode_lathe := false; report_inches := false;
     on_realtime_report := false |}.

(** Every optional field off. *)
Definition plain_config : config_t := config_with false false false false false.

(** A machine at the origin in the given state, [substate] standing in the
    holding state, the parking state and the alarm code alike; no signal
    asserted, spindle and coolant off, overrides at 100 %. *)
Definition machine_in (state : sys_state_t) (substate : Z)
  (probing_cycle hold_pending : bool) (probe : option probe_state_t)
  (block_delete_on : bool) : snapshot :=
  {| state_get := state; tool_change := false;
     position := fun _ => 0; gc_get_offset := fun _ => 0;
     stack_wco := fun _ => 0;
     probe_get_state := probe; probing_active := probing_cycle;
     feed_hold_pending := hold_pending;
     block_delete_enabled := block_delete_on;
     optional_stop_disable := false;
     holding_state := substate; parking_state := substate; alarm := substate;
     block_buffer_available := 35; rx_buffer_available := 1024;
     cur_block_line_number := None;
     spindle_get_state := {| sp_on := false; sp_ccw := false;
                             sp_encoder_error := false |};
     coolant_get_state := {| flood := false; mist := false;
                             cl_unnamed := false |};
     spindle_rpm := 0; realtime_rate := 0; spindle_get_data := None;
     limits_get_state := 0; control_get_state := no_signals;
     override_feed_rate := 100; override_rapid_rate := 100;
     override_spindle_rpm := 100;
     g51_state := 0; mpg_mode := false; homing_mask := 0; homed_mask := 0;
     coord_system_id := 0; diameter_mode := false; tool := 0;
     tlo_reference_set := 0;
     gc_feed_rate := 0; gc_spindle_rpm := 0; gc_modal := 0;
     is_g92_active := false |}.

Definition at_rest (state : sys_state_t) : snapshot :=
  machine_in state 0 false false None false.

(** WCO and override reporting on, every other optional field off. *)
Definition both_on : config_t := config_with false true true false false.

(** The variables of report.c as the C start-up code leaves them (all
    zero), with no dirty flag raised. *)
Definition power_on : rstate :=
  {| probing := false; override_counter := 0; wco_counter := 0;
     report := report_clear;
     ps_tool := 0; ps_feed_rate := 0; ps_spindle_rpm := 0;
     ps_last_state := 0; ps_g92_active := false |}.

(** Work positions reported, every optional field off. *)
Definition work_config : config_t :=
  {| machine_position := false; buffer_state := false; line_numbers := false;
     feed_speed := false; pin_state := false; work_coord_offset := false;
     overrides := false; parser_state := false; run_substate := false;
     alarm_substate := false; cap_variable_spindle := false;
     cap_spindle_sync := false; cap_mpg_mode := false;
     cap_safety_door_ajar := false; cap_stop_disable := false;
     homing_single_axis_commands := false; homing_manual := false;
     mode_lathe := false; report_inches := false;
     on_realtime_report := false |}.

(** An idle machine at X10 Y20 Z-5 (machine coordinates) with work
    coordinate offsets of 2.5 on X and 1 on Z. *)
Definition machine_away : snapshot :=
  {| state_get := STATE_IDLE; tool_change := false;
     position := fun idx => nth idx [10000; 20000; -5000] 0;
     gc_get_offset := fun idx => nth idx [2500; 0; 1000] 0;
     stack_wco := fun _ => 0;
     probe_get_state := None; probing_active := false;
     feed_hold_pending := false;
     block_delete_enabled := false;
     optional_stop_disable := false;
     holding_state := 0; parking_state := 0; alarm := 0;
     block_buffer_available := 35; rx_buffer_available := 1024;
     cur_block_line_number := None;
     spindle_get_state := {| sp_on := false; sp_ccw := false;
                             sp_encoder_error := false |};
     coolant_get_state := {| flood := false; mist := false;
                             cl_unnamed := false |};
     spindle_rpm := 0; realtime_rate := 0; spindle_get_data := None;
     limits_get_state := 0; control_get_state := no_signals;
     override_feed_rate := 100; override_rapid_rate := 100;
     override_spindle_rpm := 100;
     g51_state := 0; mpg_mode := false; homing_mask := 0; homed_mask := 0;
     coord_system_id := 0; diameter_mode := false; tool := 0;
     tlo_reference_set := 0;
     gc_feed_rate := 0; gc_spindle_rpm := 0; gc_modal := 0;
     is_g92_active := false |}.

End DefaultBuild.

End Report.

(** ** The settings catalogue (report.c, settings details) *)

Module Catalog.

(** [setting_detail_t], the members the enumeration reads. [is_available] is
    [None] for a NULL predicate and otherwise the predicate's answer for
    this descriptor, which no step of an enumeration changes. *)
Record setting_detail_t : Set := {
  id : Z;
  group : Z;
  name : string;
  is_available : option bool
}.

(** [setting_details_t]: the descriptors of one registry and the link to the
    next registry of the chain ([on_get_settings], NULL at the end).
    [n_settings] is the length of [settings]; it is summed in a [uint16_t],
    which the embedding takes as the natural number it stands for (a chain
    has far fewer than 2^16 descriptors). *)
Inductive setting_details_t : Set :=
| Details_last (settings : list setting_detail_t)
| Details_link (settings : list setting_detail_t)
               (on_get_settings : setting_details_t).

(** What the enumeration takes from settings.c and settings.h, which are not
    among the sources. *)
Class Settings : Type := {
  Group_All : Z;
  Setting_SettingsAll : Z;
  settings_normalize_group : Z -> Z;
  (** the offsets at which [settings_iterator] calls back for a descriptor *)
  iterator_offsets : setting_detail_t -> list Z;
  setting_get_details : setting_details_t -> Z -> option setting_detail_t
}.

(** [report_args_t] *)
Record report_args_t : Set := {
  human_readable : bool;
  args_group : Z;
  args_offset : Z
}.

(** One call of [report_settings_detail (human_readable, setting, offset)]:
    one rendered row. *)
Inductive event : Set :=
| Detail (human_readable : bool) (setting : setting_detail_t) (offset : Z).

Section Enumeration.

Context {S : Settings}.

(** [setting_output_ptr]: the result and the rows written meanwhile. *)
Definition setting_output_ptr : Type :=
  setting_detail_t -> Z -> report_args_t -> bool * list event.

(** Modelled from the spec: [settings_iterator] is defined in settings.c,
    which is not among the sources. It calls back once for every offset the
    descriptor is repeated at (once with offset 0 for a scalar, once per
    axis for an axis setting), in order, and answers true when a call
    did. *)
Definition settings_iterator (setting : setting_detail_t)
  (callback : setting_output_ptr) (args : report_args_t) : bool * list event :=
  let calls := map (fun offset => callback setting offset args)
                 (iterator_offsets setting) in
  (existsb fst calls, flat_map snd calls).

(** [setting->is_available == NULL || setting->is_available (setting)] *)
Definition available (setting : setting_detail_t) : bool :=
  match is_available setting with
  | None => true
  | Some b => b
  end.

(** [args->group == setting->group && args->offset != offset] *)
Definition other_axis (args : report_args_t) (setting : setting_detail_t)
  (offset : Z) : bool :=
  (args_group args =? group setting) && negb (args_offset args =? offset).

Definition print_sorted : setting_output_ptr :=
  fun setting offset args =>
    (true,
     if negb (other_axis args setting offset)
     then [Detail (human_readable args) setting offset] else []).

Definition print_unsorted : setting_output_ptr :=
  fun setting offset args =>
    (true,
     if negb (other_axis args setting offset) && available setting
     then [Detail (human_readable args) setting offset] else []).

(** [cmp_settings] *)
Definition cmp_settings (a b : setting_detail_t) : Z := id a - id b.

(** [qsort] with [cmp_settings]: the C library leaves the order among equal
    keys open; the embedding keeps them in the order they were inserted. *)
Fixpoint qsort_insert (x : setting_detail_t) (l : list setting_detail_t)
  : list setting_detail_t :=
  match l with
  | [] => [x]
  | y :: r => if cmp_settings x y <=? 0 then x :: l else y :: qsort_insert x r
  end.

Definition qsort (l : list setting_detail_t) : list setting_detail_t :=
  fold_right qsort_insert [] l.

(** The first walk of the chain: the sum of [n_settings]. *)
Fixpoint total_settings (details : setting_details_t) : nat :=
  match details with
  | Details_last settings => List.length settings
  | Details_link settings next =>
      (List.length settings + total_settings next)%nat
  end.

(** [group == Group_All || setting->group == args.group] *)
Definition in_scope (grp : Z) (args : report_args_t)
  (setting : setting_detail_t) : bool :=
  (grp =? Group_All) || (group setting =? args_group args).

(** The second walk: the table of pointers, registry after registry. *)
Fixpoint collect_settings (grp : Z) (args : report_args_t)
  (details : setting_details_t) : list setting_detail_t :=
  let wanted setting := in_scope grp args setting && available setting in
  match details with
  | Details_last settings => filter wanted settings
  | Details_link settings next =>
      filter wanted settings ++ collect_settings grp args next
  end.

(** [for (...) if (settings_iterator (..., callback, &args)) reported = true;] *)
Fixpoint iterate_settings (callback : setting_output_ptr)
  (args : report_args_t) (l : list setting_detail_t) (reported : bool)
  : bool * list event :=
  match l with
  | [] => (reported, [])
  | setting :: rest =>
      let '(ok, rows) := settings_iterator setting callback args in
      let '(reported', rows') :=
        iterate_settings callback args rest (if ok then true else reported) in
      (reported', rows ++ rows')
  end.

(** Every descriptor of the chain, registry after registry. *)
Fixpoint chain_settings (details : setting_details_t) : list setting_detail_t :=
  match details with
  | Details_last settings => settings
  | Details_link settings next => settings ++ chain_settings next
  end.

(** The rows a callback writes for one descriptor. *)
Definition rows_of (callback : setting_output_ptr) (args : report_args_t)
  (setting : setting_detail_t) : list event :=
  snd (settings_iterator setting callback args).

Definition make_args (human : bool) (grp : Z) : report_args_t :=
  {| human_readable := human;
     args_group := settings_normalize_group grp;
     args_offset := grp - settings_normalize_group grp |}.

(** [calloc n] tells whether the table of [n] pointers can be had. *)
Definition sort_settings_details (calloc : nat -> bool) (human : bool)
  (grp : Z) (details : setting_details_t) : status_code_t * list event :=
  let reported := grp =? Group_All in
  let args := make_args human grp in
  let n_settings := total_settings details in
  if calloc n_settings then
    let all_settings := qsort (collect_settings grp args details) in
    let '(reported', rows) :=
      iterate_settings print_sorted args all_settings reported in
    (if reported' then Status_OK else Status_SettingDisabled, rows)
  else (Status_Unhandled, []).

(** The [do ... while] of [print_settings_details]. *)
Fixpoint walk_unsorted (grp : Z) (args : report_args_t)
  (details : setting_details_t) (reported : bool) : bool * list event :=
  let registry settings :=
    iterate_settings print_unsorted args
      (filter (in_scope grp args) settings) reported in
  match details with
  | Details_last settings => registry settings
  | Details_link settings next =>
      let '(reported1, rows1) := registry settings in
      let '(reported2, rows2) := walk_unsorted grp args next reported1 in
      (reported2, rows1 ++ rows2)
  end.

Definition print_settings_details (calloc : nat -> bool) (human : bool)
  (grp : Z) (details : setting_details_t) : status_code_t * list event :=
  match sort_settings_details calloc human grp details with
  | (Status_Unhandled, _) =>
      let '(reported, rows) :=
        walk_unsorted grp (make_args human grp) details (grp =? Group_All) in
      (if reported then Status_OK else Status_SettingDisabled, rows)
  | answer => answer
  end.

Definition report_settings_details (calloc : nat -> bool) (human : bool)
  (setting_id : Z) (grp : Z) (details : setting_details_t)
  : status_code_t * list event :=
  if negb (setting_id =? Setting_SettingsAll) then
    match setting_get_details details setting_id with
    | Some setting => (Status_OK, [Detail human setting (setting_id - id setting)])
    | None => (Status_SettingDisabled, [])
    end
  else print_settings_details calloc human grp details.

(** *** What an enumeration is to show *)

(** A descriptor matches a request when the request is for all groups or
    for the group of the descriptor (the group of one axis standing for
    the axis group), and the descriptor is available. *)
Definition matching (grp : Z) (setting : setting_detail_t) : bool :=
  ((grp =? Group_All) || (group setting =? settings_normalize_group grp))
  && match is_available setting with
     | Some answer => answer
     | None => true
     end.

(** Of a descriptor of the axis group only the row of the axis asked for
    is wanted, of any other descriptor every row. *)
Definition wanted_offset (grp : Z) (setting : setting_detail_t) (offset : Z)
  : bool :=
  negb ((settings_normalize_group grp =? group setting)
        && negb (grp - settings_normalize_group grp =? offset)).

(** The rows of a request: for every matching descriptor of the chain, in
    the order of the chain, its wanted rows among the offsets the iterator
    visits. *)
Definition matching_rows (human : bool) (grp : Z)
  (details : setting_details_t) : list event :=
  flat_map
    (fun setting =>
       map (Detail human setting)
         (filter (wanted_offset grp setting) (iterator_offsets setting)))
    (filter (matching grp) (chain_settings details)).

End Enumeration.

(** *** A catalogue to evaluate the enumeration on *)

(** Group numbers for the examples: 0 stands for [Group_All], 43 for
    [Group_Axis0], three axes. An axis descriptor is repeated at offsets 0, 1
    and 2, any other descriptor stands at offset 0 only. *)
Definition example_lookup : setting_details_t -> Z -> option setting_detail_t :=
  fix look (details : setting_details_t) (i : Z) : option setting_detail_t :=
    let here settings :=
      find (fun s => (id s <=? i)
                     && (i <? id s + (if group s =? 43 then 3 else 1)))
        settings in
    match details with
    | Details_last settings => here settings
    | Details_link settings next =>
        match here settings with
        | Some s => Some s
        | None => look next i
        end
    end.

Definition example_settings : Settings :=
  {| Group_All := 0;
     Setting_SettingsAll := 65535;
     settings_normalize_group :=
       fun g => if (43 <? g) && (g <? 43 + 3) then 43 else g;
     iterator_offsets := fun s => if group s =? 43 then [0; 1; 2] else [0];
     setting_get_details := example_lookup |}.

(** An axis setting (three rows: 100, 101, 102), a scalar setting and a
    setting of group 7 that is not available. *)
Definition axis_setting : setting_detail_t :=
  {| id := 100; group := 43; name := "-axis travel resolution";
     is_available := None |}.

Definition scalar_setting : setting_detail_t :=
  {| id := 30; group := 5; name := "Maximum spindle speed";
     is_available := None |}.

Definition absent_setting : setting_detail_t :=
  {| id := 340; group := 7; name := "Spindle at speed tolerance";
     is_available := Some false |}.

(** The core registry followed by the registry of one plugin. *)
Definition example_chain : setting_details_t :=
  Details_link [axis_setting; scalar_setting] (Details_last [absent_setting]).

End Catalog.

(** ** The odometer plugin (plugins/odometer/odometer.c) *)

Module Odometer.

(** A function pointer: NULL, an entry point of the core, of the driver or
    of another plugin ([Foreign]), or the address of one of the plugin's own
    functions ([fn_onStateChanged] is the pointer, [onStateChanged] further
    down is what the function does). *)
Inductive handler : Set :=
| NULL
| Foreign (n : nat)
| fn_stepperPulseStart
| fn_onStateChanged
| fn_onSpindleSetState
| fn_onSettingsChanged
| fn_commandExecute
| fn_onReportOptions.

Definition handler_eqb (a b : handler) : bool :=
  match a, b with
  | NULL, NULL => true
  | Foreign n, Foreign m => (n =? m)%nat
  | fn_stepperPulseStart, fn_stepperPulseStart => true
  | fn_onStateChanged, fn_onStateChanged => true
  | fn_onSpindleSetState, fn_onSpindleSetState => true
  | fn_onSettingsChanged, fn_onSettingsChanged => true
  | fn_commandExecute, fn_commandExecute => true
  | fn_onReportOptions, fn_onReportOptions => true
  | _, _ => false
  end.

(** The six entry points of [grbl] and [hal] the plugin hooks into. *)
Record entry_points : Set := {
  grbl_on_unknown_sys_command : handler;
  grbl_on_state_change : handler;
  grbl_on_report_options : handler;
  hal_settings_changed : handler;
  hal_spindle_set_state : handler;
  hal_stepper_pulse_start : handler
}.

(** The plugin's six [static] pointers to the handlers it replaced. *)
Record saved_t : Set := {
  stepper_pulse_start : handler;
  on_unknown_sys_command : handler;
  on_state_change : handler;
  spindle_set_state_ : handler;
  settings_changed : handler;
  on_report_options : handler
}.

(** What the plugin takes from the rest of the firmware. Distances are
    single-precision values and kept abstract; [add_distance idx d n] is
    [d + (float)n / settings.axis[idx].steps_per_mm]. [foreign_effect h ep]
    is the table of entry points after the foreign handler [h] ran on [ep]:
    a settings-changed handler of the driver may re-install its own
    spindle and stepper functions. *)
Class Firmware : Type := {
  N_AXIS : nat;
  NVS_SIZE : Z;
  sizeof_odometer_data_t : Z;
  distance_t : Set;
  distance_zero : distance_t;
  add_distance : nat -> distance_t -> Z -> distance_t;
  foreign_effect : handler -> entry_points -> entry_points
}.

Section Plugin.

Context {F : Firmware}.

(** [odometer_data_t] *)
Record odometer_data_t : Type := {
  motors : Z;
  spindle : Z;
  distance : list distance_t
}.

(** The plugin's other [static] variables; [state_ms] and [spindle_ms] are
    the [static uint32_t ms] of [onStateChanged] and [onSpindleSetState]. *)
Record data_t : Type := {
  steps : list Z;
  odometer_changed : bool;
  odometers_address : Z;
  odometers_address_prv : Z;
  odometers : odometer_data_t;
  odometers_prv : odometer_data_t;
  state_ms : Z;
  spindle_ms : Z
}.

Inductive rt_command : Set :=
| odometer_warning1
| odometer_warning2
| odometers_write.

(** What a function of the plugin does to the outside. [Invoke h] is a call
    through a pointer to code that is not the plugin's. *)
Inductive event : Type :=
| Invoke (h : handler)
| MemcpyToNvs (address : Z) (data : odometer_data_t)
| EnqueueRtCommand (c : rt_command)
| OdometersReport (data : odometer_data_t)
| ReportMessage (text : string)
| StreamWrite (text : string).

(** A call through a function pointer: calling NULL ends the program. *)
Definition call (h : handler) : option (list event) :=
  match h with
  | NULL => None
  | _ => Some [Invoke h]
  end.

Definition uint32 (v : Z) : Z := v mod 2 ^ 32.
Definition uint64 (v : Z) : Z := v mod 2 ^ 64.

(** [steps[idx]++] when the step bit is set. *)
Fixpoint bump (idx : nat) (l : list Z) : list Z :=
  match l, idx with
  | [], _ => []
  | v :: r, O => uint32 (v + 1) :: r
  | v :: r, S i => v :: bump i r
  end.

Definition bump_if (b : bool) (idx : nat) (l : list Z) : list Z :=
  if b then bump idx l else l.

Definition with_steps (d : data_t) (changed : bool) (st : list Z) : data_t :=
  {| steps := st; odometer_changed := changed;
     odometers_address := odometers_address d;
     odometers_address_prv := odometers_address_prv d;
     odometers := odometers d; odometers_prv := odometers_prv d;
     state_ms := state_ms d; spindle_ms := spindle_ms d |}.

(** [stepperPulseStart]; [step_outbits] has one bit per axis. The counter of
    the sixth axis is advanced on the step bit of the fifth, as the source
    has it. *)
Definition stepperPulseStart (step_outbits : Z) (sv : saved_t) (d : data_t)
  : option (list event * data_t) :=
  let s0 := steps d in
  let s1 := bump_if (Z.testbit step_outbits 0) 0 s0 in
  let s2 := bump_if (Z.testbit step_outbits 1) 1 s1 in
  let s3 := bump_if (Z.testbit step_outbits 2) 2 s2 in
  let s4 := bump_if ((3 <? N_AXIS)%nat && Z.testbit step_outbits 3) 3 s3 in
  let s5 := bump_if ((4 <? N_AXIS)%nat && Z.testbit step_outbits 4) 4 s4 in
  let s6 := bump_if ((5 <? N_AXIS)%nat && Z.testbit step_outbits 4) 5 s5 in
  match call (stepper_pulse_start sv) with
  | Some evs => Some (evs, with_steps d true s6)
  | None => None
  end.

(** The [do ... while (idx)] of [onStateChanged], from [idx] down to 0: the
    steps counted on an axis go to its odometer. *)
Fixpoint flush_steps (idx : nat) (st : list Z) (dist : list distance_t)
  : list Z * list distance_t :=
  match idx with
  | O => (st, dist)
  | S i =>
      let n := nth i st 0 in
      let '(st', dist') :=
        if nonzero n
        then (firstn i st ++ 0 :: skipn (S i) st,
              firstn i dist
              ++ add_distance i (nth i dist distance_zero) n
              :: skipn (S i) dist)
        else (st, dist) in
      flush_steps i st' dist'
  end.

(** [state & (STATE_CYCLE|STATE_JOG|STATE_HOMING)] *)
Definition moving (state : Report.sys_state_t) : bool :=
  nonzero (Z.land (Report.state_bits state)
             (Z.lor (Report.state_bits Report.STATE_CYCLE)
                (Z.lor (Report.state_bits Report.STATE_JOG)
                   (Report.state_bits Report.STATE_HOMING)))).

(** [onStateChanged]; [ticks] is what [hal.get_elapsed_ticks ()] answers. *)
Definition onStateChanged (state : Report.sys_state_t) (ticks : Z)
  (sv : saved_t) (d : data_t) : list event * data_t :=
  let '(evs, d') :=
    if moving state then
      ([], {| steps := steps d; odometer_changed := odometer_changed d;
              odometers_address := odometers_address d;
              odometers_address_prv := odometers_address_prv d;
              odometers := odometers d; odometers_prv := odometers_prv d;
              state_ms := uint32 ticks; spindle_ms := spindle_ms d |})
    else if odometer_changed d then
      let '(st, dist) := flush_steps N_AXIS (steps d) (distance (odometers d)) in
      let od := {| motors := uint64 (motors (odometers d)
                                     + uint32 (ticks - state_ms d));
                   spindle := spindle (odometers d);
                   distance := dist |} in
      ([MemcpyToNvs (odometers_address d) od],
       {| steps := st; odometer_changed := false;
          odometers_address := odometers_address d;
          odometers_address_prv := odometers_address_prv d;
          odometers := od; odometers_prv := odometers_prv d;
          state_ms := state_ms d; spindle_ms := spindle_ms d |})
    else ([], d) in
  (evs ++ (if negb (handler_eqb (on_state_change sv) NULL)
           then [Invoke (on_state_change sv)] else []), d').


(** [onSpindleSetState]; [on] is [state.on]. *)
Definition onSpindleSetState (on : bool) (ticks : Z)
  (sv : saved_t) (d : data_t) : option (list event * data_t) :=
  match call (spindle_set_state_ sv) with
  | None => None
  | Some evs =>
      let with_spindle od ms :=
        {| steps := steps d; odometer_changed := odometer_changed d;
           odometers_address := odometers_address d;
           odometers_address_prv := odometers_address_prv d;
           odometers := od; odometers_prv := odometers_prv d;
           state_ms := state_ms d; spindle_ms := ms |} in
      if on then Some (evs, with_spindle (odometers d) (uint32 ticks))
      else if nonzero (spindle_ms d) then
        Some (evs ++ [EnqueueRtCommand odometers_write],
              with_spindle
                {| motors := motors (odometers d);
                   spindle := uint64 (spindle (odometers d)
                                      + uint32 (ticks - spindle_ms d));
                   distance := distance (odometers d) |} 0)
      else Some (evs, d)
  end.

(** [onSettingsChanged]: the handler it replaced runs first, then the two
    entry points that handler may have overwritten are taken back. *)
Definition onSettingsChanged (ep : entry_points) (sv : saved_t)
  : option (list event * entry_points * saved_t) :=
  match call (settings_changed sv) with
  | None => None
  | Some evs =>
      let ep1 := foreign_effect (settings_changed sv) ep in
      let reclaim_spindle :=
        negb (handler_eqb (hal_spindle_set_state ep1) fn_onSpindleSetState) in
      let reclaim_stepper :=
        negb (handler_eqb (hal_stepper_pulse_start ep1) fn_stepperPulseStart) in
      Some (evs,
            {| grbl_on_unknown_sys_command := grbl_on_unknown_sys_command ep1;
               grbl_on_state_change := grbl_on_state_change ep1;
               grbl_on_report_options := grbl_on_report_options ep1;
               hal_settings_changed := hal_settings_changed ep1;
               hal_spindle_set_state :=
                 if reclaim_spindle then fn_onSpindleSetState
                 else hal_spindle_set_state ep1;
               hal_stepper_pulse_start :=
                 if reclaim_stepper then fn_stepperPulseStart
                 else hal_stepper_pulse_start ep1 |},
            {| stepper_pulse_start :=
                 if reclaim_stepper then hal_stepper_pulse_start ep1
                 else stepper_pulse_start sv;
               on_unknown_sys_command := on_unknown_sys_command sv;
               on_state_change := on_state_change sv;
               spindle_set_state_ :=
                 if reclaim_spindle then hal_spindle_set_state ep1
                 else spindle_set_state_ sv;
               settings_changed := settings_changed sv;
               on_report_options := on_report_options sv |})
  end.

Definition odometers_cleared : odometer_data_t :=
  {| motors := 0; spindle := 0; distance := repeat distance_zero N_AXIS |}.

(** [odometer_data_reset] *)
Definition odometer_data_reset (backup : bool) (d : data_t)
  : list event * data_t :=
  ((if backup then [MemcpyToNvs (odometers_address_prv d) (odometers d)]
    else [])
   ++ [MemcpyToNvs (odometers_address d) odometers_cleared],
   {| steps := steps d; odometer_changed := odometer_changed d;
      odometers_address := odometers_address d;
      odometers_address_prv := odometers_address_prv d;
      odometers := odometers_cleared;
      odometers_prv := if backup then odometers d else odometers_prv d;
      state_ms := state_ms d; spindle_ms := spindle_ms d |}).

(** [&line[1]] *)
Definition from_1 (line : string) : string :=
  match line with
  | EmptyString => EmptyString
  | String _ r => r
  end.

(** The part of [commandExecute] before its [return]: [retval] and what was
    done. [nvs_prv] is what reading the previous odometers from NVS gives,
    [None] unless the transfer is [NVS_TransferResult_OK]. *)
Definition own_command (line : string) (nvs_prv : option odometer_data_t)
  (d : data_t) : status_code_t * list event * data_t :=
  match String.get 1 line with
  | None => (Status_Unhandled, [], d)
  | Some c =>
    if negb (Ascii.eqb c "O") then (Status_Unhandled, [], d) else
      let r1 :=
        if String.eqb (from_1 line) "ODOMETERS"
        then (Status_OK, [OdometersReport (odometers d)], d)
        else (Status_Unhandled, [], d) in
      let r2 :=
        let '(retval, evs, d1) := r1 in
        if String.eqb (from_1 line) "ODOMETERS=PREV" then
          match nvs_prv with
          | Some prv =>
              (Status_OK, evs ++ [OdometersReport prv],
               {| steps := steps d1; odometer_changed := odometer_changed d1;
                  odometers_address := odometers_address d1;
                  odometers_address_prv := odometers_address_prv d1;
                  odometers := odometers d1; odometers_prv := prv;
                  state_ms := state_ms d1; spindle_ms := spindle_ms d1 |})
          | None =>
              (Status_OK,
               evs ++ [ReportMessage "Previous odometer values not available"],
               d1)
          end
        else r1 in
      let '(retval, evs, d2) := r2 in
      if String.eqb (from_1 line) "ODOMETERS=RST" then
        let '(evs', d3) := odometer_data_reset true d2 in
        (Status_OK, evs ++ evs', d3)
      else r2
  end.

(** [commandExecute]; [foreign_answer] is what the handler it replaced
    returns when called. *)
Definition commandExecute (line : string)
  (nvs_prv : option odometer_data_t) (foreign_answer : status_code_t)
  (sv : saved_t) (d : data_t) : status_code_t * list event * data_t :=
  let '(retval, evs, d') := own_command line nvs_prv d in
  match retval with
  | Status_Unhandled =>
      if negb (handler_eqb (on_unknown_sys_command sv) NULL)
      then (foreign_answer, evs ++ [Invoke (on_unknown_sys_command sv)], d')
      else (retval, evs, d')
  | _ => (retval, evs, d')
  end.

(** [onReportOptions] *)
Definition onReportOptions (sv : saved_t) : option (list event) :=
  match call (on_report_options sv) with
  | None => None
  | Some evs =>
      Some (evs ++ [StreamWrite (appendbuf ["[PLUGIN:ODOMETERS v0.01]"; ASCII_EOL])])
  end.

(** [odometer_init]. [nvs_is_eeprom_or_fram] and [nvs_has_room] are the two
    tests on the non-volatile storage; [nvs_now] is what reading the stored
    odometers gives, [None] unless the transfer succeeds. *)
Definition odometer_init (nvs_is_eeprom_or_fram nvs_has_room : bool)
  (nvs_now : option odometer_data_t)
  (ep : entry_points) (sv : saved_t) (d : data_t)
  : list event * entry_points * saved_t * data_t :=
  if negb nvs_is_eeprom_or_fram then
    ([EnqueueRtCommand odometer_warning1], ep, sv, d)
  else if negb nvs_has_room then
    ([EnqueueRtCommand odometer_warning2], ep, sv, d)
  else
    let address := NVS_SIZE - (sizeof_odometer_data_t + 1) in
    let address_prv := address - (sizeof_odometer_data_t + 1) in
    let d0 := {| steps := steps d; odometer_changed := odometer_changed d;
                 odometers_address := address;
                 odometers_address_prv := address_prv;
                 odometers := match nvs_now with
                              | Some od => od
                              | None => odometers d
                              end;
                 odometers_prv := odometers_prv d;
                 state_ms := state_ms d; spindle_ms := spindle_ms d |} in
    let '(evs, d1) :=
      match nvs_now with
      | Some _ => ([], d0)
      | None => odometer_data_reset false d0
      end in
    (evs,
     {| grbl_on_unknown_sys_command := fn_commandExecute;
        grbl_on_state_change := fn_onStateChanged;
        grbl_on_report_options := fn_onReportOptions;
        hal_settings_changed := fn_onSettingsChanged;
        hal_spindle_set_state := fn_onSpindleSetState;
        hal_stepper_pulse_start := fn_stepperPulseStart |},
     {| stepper_pulse_start := hal_stepper_pulse_start ep;
        on_unknown_sys_command := grbl_on_unknown_sys_command ep;
        on_state_change := grbl_on_state_change ep;
        spindle_set_state_ := hal_spindle_set_state ep;
        settings_changed := hal_settings_changed ep;
        on_report_options := grbl_on_report_options ep |},
     d1).

(** What [commandExecute] has done before it decides whether to pass the
    command on. *)
Definition own_events (line : string) (nvs_prv : option odometer_data_t)
  (d : data_t) : list event :=
  snd (fst (own_command line nvs_prv d)).

Definition own_retval (line : string) (nvs_prv : option odometer_data_t)
  (d : data_t) : status_code_t :=
  fst (fst (own_command line nvs_prv d)).

Definition is_invoke (e : event) : bool :=
  match e with
  | Invoke _ => true
  | _ => false
  end.

(** True when the trace holds a call of [h]. *)
Definition invokes (h : handler) (evs : list event) : bool :=
  existsb (fun e => match e with
                    | Invoke h' => handler_eqb h h'
                    | _ => false
                    end) evs.

End Plugin.

(** *** A firmware to evaluate the plugin on *)

(** Three axes, distances in steps, foreign handlers that leave the entry
    points alone. *)
Definition example_firmware : Firmware :=
  {| N_AXIS := 3;
     NVS_SIZE := 2048;
     sizeof_odometer_data_t := 28;
     distance_t := Z;
     distance_zero := 0;
     add_distance := fun _ d n => d + n;
     foreign_effect := fun _ ep => ep |}.

Section ExampleFirmware.

#[local] Existing Instance example_firmware.

(** Entry points as other code left them: the driver's spindle, stepper and
    settings functions, another plugin's command handler, no state-change
    subscriber. *)
Definition entry_points_before : entry_points :=
  {| grbl_on_unknown_sys_command := Foreign 0;
     grbl_on_state_change := NULL;
     grbl_on_report_options := Foreign 1;
     hal_settings_changed := Foreign 2;
     hal_spindle_set_state := Foreign 3;
     hal_stepper_pulse_start := Foreign 4 |}.

Definition saved_none : saved_t :=
  {| stepper_pulse_start := NULL; on_unknown_sys_command := NULL;
     on_state_change := NULL; spindle_set_state_ := NULL;
     settings_changed := NULL; on_report_options := NULL |}.

Definition data_zero : data_t :=
  {| steps := [0; 0; 0]; odometer_changed := false;
     odometers_address := 0; odometers_address_prv := 0;
     odometers := odometers_cleared; odometers_prv := odometers_cleared;
     state_ms := 0; spindle_ms := 0 |}.

End ExampleFirmware.

End Odometer.

(** ** More of the status report *)

Module ReportExtra.

Import Report.

Section MoreReport.

Context {P : Platform}.

(** The headers of the fields that only a dirty flag brings into a line. *)
Definition flag_headers : list string :=
  ["|WCS:G"; "|Sc:"; "|MPG:"; "|H:"; "|D:"; "|T:"; "|TLR:"; "|A:"].

(** Those of them that stand for one change each. *)
Definition change_headers : list string :=
  ["|WCS:G"; "|Sc:"; "|MPG:"; "|H:"; "|D:"; "|T:"; "|TLR:"].

(** Two snapshots show the same parser state to the parser-state block. *)
Definition same_parser_state (a b : snapshot) : Prop :=
  gc_feed_rate a = gc_feed_rate b /\ gc_spindle_rpm a = gc_spindle_rpm b
  /\ tool a = tool b /\ is_g92_active a = is_g92_active b
  /\ gc_modal a = gc_modal b.

Definition is_exec_request (e : event) : bool :=
  match e with SetExecStateFlag _ => true | _ => false end.

Definition is_gcode_request (e : event) : bool :=
  match e with SetExecStateFlag EXEC_GCODE_REPORT => true | _ => false end.

Definition is_tlo_request (e : event) : bool :=
  match e with SetExecStateFlag EXEC_TLO_REPORT => true | _ => false end.

(** The call asked the executor for a tool-offset report. *)
Definition asks_tlo_report (tr : list event) : bool :=
  existsb is_tlo_request tr.

Definition is_plugin_call (e : event) : bool :=
  match e with OnRealtimeReport _ => true | _ => false end.

(** The call raised a flag of the real-time executor. *)
Definition raises_flag (tr : list event) : bool := existsb is_exec_request tr.

(** The call asked the executor for a parser-state report. *)
Definition asks_gcode_report (tr : list event) : bool :=
  existsb is_gcode_request tr.

(** How many calls of a run asked for a parser-state report. *)
Definition gcode_requests (trs : list (list event)) : nat :=
  List.length (filter asks_gcode_report trs).

(** The report is a full one, which skips the parser-state block:
    [sys.report.all] is up on a build with [COMPATIBILITY_LEVEL <= 1]. *)
Definition full_report (st : rstate) : bool :=
  (COMPATIBILITY_LEVEL <=? 1) && r_all (report st).

(** The feed rate and the spindle speed of the parser are numbers, so that
    [!=] is false on each of them compared with itself (a NaN differs from
    itself), and [memcmp] finds the modal state equal to itself. *)
Definition self_equal (s : snapshot) : Prop :=
  fneq (gc_feed_rate s) (gc_feed_rate s) = false
  /\ fneq (gc_spindle_rpm s) (gc_spindle_rpm s) = false
  /\ modal_differs (gc_modal s) (gc_modal s) = false.

(** How many of the three things the parser-state block remembers (feed
    rate, spindle speed and tool; the G92 flag; the modal state) differ from
    what the snapshot shows. *)
Definition parser_lag (s : snapshot) (st : rstate) : nat :=
  (if fneq (ps_feed_rate st) (gc_feed_rate s)
      || fneq (ps_spindle_rpm st) (gc_spindle_rpm s)
      || negb (ps_tool st =? tool s) then 1 else 0)
  + (if negb (Bool.eqb (ps_g92_active st) (is_g92_active s)) then 1 else 0)
  + (if modal_differs (ps_last_state st) (gc_modal s) then 1 else 0).

(** The snapshot with other values in the unassigned [wco[]]. *)
Definition with_stack_wco (s : snapshot) (found : nat -> float) : snapshot :=
  {| state_get := state_get s; tool_change := tool_change s;
     position := position s; gc_get_offset := gc_get_offset s;
     stack_wco := found;
     probe_get_state := probe_get_state s;
     probing_active := probing_active s;
     feed_hold_pending := feed_hold_pending s;
     block_delete_enabled := block_delete_enabled s;
     optional_stop_disable := optional_stop_disable s;
     holding_state := holding_state s; parking_state := parking_state s;
     alarm := alarm s;
     block_buffer_available := block_buffer_available s;
     rx_buffer_available := rx_buffer_available s;
     cur_block_line_number := cur_block_line_number s;
     spindle_get_state := spindle_get_state s;
     coolant_get_state := coolant_get_state s;
     spindle_rpm := spindle_rpm s; realtime_rate := realtime_rate s;
     spindle_get_data := spindle_get_data s;
     limits_get_state := limits_get_state s;
     control_get_state := control_get_state s;
     override_feed_rate := override_feed_rate s;
     override_rapid_rate := override_rapid_rate s;
     override_spindle_rpm := override_spindle_rpm s;
     g51_state := g51_state s; mpg_mode := mpg_mode s;
     homing_mask := homing_mask s; homed_mask := homed_mask s;
     coord_system_id := coord_system_id s;
     diameter_mode := diameter_mode s; tool := tool s;
     tlo_reference_set := tlo_reference_set s;
     gc_feed_rate := gc_feed_rate s; gc_spindle_rpm := gc_spindle_rpm s;
     gc_modal := gc_modal s; is_g92_active := is_g92_active s |}.

End MoreReport.

Section DefaultBuild.

#[local] Existing Instance default_build.

(** Every dirty flag but [all] raised. *)
Definition all_changed : report_tracking_flags_t :=
  {| r_mpg_mode := true; r_scaling := true; r_homed := true;
     r_xmode := true; r_spindle := true; r_coolant := true;
     r_overrides := true; r_tool := true; r_wco := true; r_gwco := true;
     r_tool_offset := true; r_tlo_reference := true; r_all := false |}.

(** A full report asked for, no other dirty flag raised. *)
Definition full_request : report_tracking_flags_t :=
  {| r_mpg_mode := false; r_scaling := false; r_homed := false;
     r_xmode := false; r_spindle := false; r_coolant := false;
     r_overrides := false; r_tool := false; r_wco := false; r_gwco := false;
     r_tool_offset := false; r_tlo_reference := false; r_all := true |}.

(** The variables of report.c after start-up, with the given dirty flags. *)
Definition power_on_with (rep : report_tracking_flags_t) : rstate :=
  {| probing := false; override_counter := 0; wco_counter := 0;
     report := rep;
     ps_tool := 0; ps_feed_rate := 0; ps_spindle_rpm := 0;
     ps_last_state := 0; ps_g92_active := false |}.

(** A lathe with an MPG and manual homing; WCO, override and, if asked for,
    parser-state reporting on. *)
Definition lathe_config (parser : bool) : config_t :=
  {| machine_position := true; buffer_state := false; line_numbers := false;
     feed_speed := false; pin_state := false; work_coord_offset := true;
     overrides := true; parser_state := parser; run_substate := false;
     alarm_substate := false; cap_variable_spindle := false;
     cap_spindle_sync := false; cap_mpg_mode := true;
     cap_safety_door_ajar := false; cap_stop_disable := false;
     homing_single_axis_commands := false; homing_manual := true;
     mode_lathe := true; report_inches := false;
     on_realtime_report := false |}.

(** The same configuration with a plugin subscribed to the report. *)
Definition with_callback (cfg : config_t) : config_t :=
  {| machine_position := machine_position cfg;
     buffer_state := buffer_state cfg; line_numbers := line_numbers cfg;
     feed_speed := feed_speed cfg; pin_state := pin_state cfg;
     work_coord_offset := work_coord_offset cfg; overrides := overrides cfg;
     parser_state := parser_state cfg; run_substate := run_substate cfg;
     alarm_substate := alarm_substate cfg;
     cap_variable_spindle := cap_variable_spindle cfg;
     cap_spindle_sync := cap_spindle_sync cfg;
     cap_mpg_mode := cap_mpg_mode cfg;
     cap_safety_door_ajar := cap_safety_door_ajar cfg;
     cap_stop_disable := cap_stop_disable cfg;
     homing_single_axis_commands := homing_single_axis_commands cfg;
     homing_manual := homing_manual cfg; mode_lathe := mode_lathe cfg;
     report_inches := report_inches cfg; on_realtime_report := true |}.

(** An idle machine whose parser holds the given feed rate, tool, G92 flag
    and modal state, with the spindle running if asked for. *)
Definition parser_at (feed tool_id : Z) (g92 : bool) (modal : Z)
  (spindle_on : bool) : snapshot :=
  {| state_get := STATE_IDLE; tool_change := false;
     position := fun _ => 0; gc_get_offset := fun _ => 0;
     stack_wco := fun _ => 0;
     probe_get_state := None; probing_active := false;
     feed_hold_pending := false;
     block_delete_enabled := false;
     optional_stop_disable := false;
     holding_state := 0; parking_state := 0; alarm := 0;
     block_buffer_available := 35; rx_buffer_available := 1024;
     cur_block_line_number := None;
     spindle_get_state := {| sp_on := spindle_on; sp_ccw := false;
                             sp_encoder_error := false |};
     coolant_get_state := {| flood := false; mist := false;
                             cl_unnamed := false |};
     spindle_rpm := 0; realtime_rate := 0; spindle_get_data := None;
     limits_get_state := 0; control_get_state := no_signals;
     override_feed_rate := 100; override_rapid_rate := 100;
     override_spindle_rpm := 100;
     g51_state := 0; mpg_mode := false; homing_mask := 0; homed_mask := 0;
     coord_system_id := 0; diameter_mode := false; tool := tool_id;
     tlo_reference_set := 0;
     gc_feed_rate := feed; gc_spindle_rpm := 0; gc_modal := modal;
     is_g92_active := g92 |}.

End DefaultBuild.

End ReportExtra.

(** ** The G92 test (report.c, [is_g92_active]) *)

Module G92.

Import Report.

Section Scan.

Context {P : Platform}.

(** [v == 0.0f || v == -0.0f] *)
Variable is_zero : float -> bool.

(** The [do ... while (idx && !active)] with [idx] as found on entry; it
    is entered with [N_AXIS], which is not zero. *)
Fixpoint g92_scan (idx : nat) (g92_coord_offset : nat -> float) : bool :=
  match idx with
  | O => false
  | S i =>
      let active := negb (is_zero (g92_coord_offset i)) in
      if negb (i =? 0)%nat && negb active
      then g92_scan i g92_coord_offset
      else active
  end.

Definition is_g92_active (g92_coord_offset : nat -> float) : bool :=
  g92_scan N_AXIS g92_coord_offset.

End Scan.

End G92.

(** ** More of the settings catalogue *)

Module Listing.

Import Catalog.

(** The descriptor and the offset a row was rendered from. *)
Definition row_setting (e : event) : setting_detail_t :=
  match e with Detail _ setting _ => setting end.

Definition row_offset (e : event) : Z :=
  match e with Detail _ _ offset => offset end.

Definition row_human (e : event) : bool :=
  match e with Detail human _ _ => human end.

(** The order [cmp_settings] sorts by. *)
Definition by_id (a b : setting_detail_t) : Prop := id a <= id b.

(** No number of the list is smaller than the one before it. *)
Fixpoint ascending (l : list Z) : bool :=
  match l with
  | [] => true
  | x :: r =>
      match r with
      | [] => true
      | y :: _ => (x <=? y) && ascending r
      end
  end.


(** *** The settings listing ([report_grbl_settings], [report_grbl_setting]) *)

(** What the listing reads of a descriptor beyond the members the
    enumeration reads, and [setting_get_value] of settings.c, which
    answers NULL ([None]) or the value as text. *)
Class Values : Type := {
  (** [type == Setting_IsLegacy || type == Setting_IsLegacyFn] *)
  legacy : setting_detail_t -> bool;
  (** [setting->value != NULL] *)
  has_value : setting_detail_t -> bool;
  setting_get_value : setting_detail_t -> Z -> option string
}.

(** What the listing does: it calls through [grbl.report.setting] or it
    writes to the stream. *)
Inductive listing_event : Set :=
| ReportSetting (setting : setting_detail_t) (offset : Z)
| Write (s : string).

Section Lines.

Context {S : Settings} {V : Values}.

(** [report_setting], the function [report_init_fns] installs as
    [grbl.report.setting]: the strings it writes, in order. *)
Definition report_setting (setting : setting_detail_t) (offset : Z)
  : bool * list string :=
  let buf := appendbuf ["$"; uitoa (id setting + offset); "="] in
  (true,
   match setting_get_value setting offset with
   | Some value => [buf; value; ASCII_EOL]
   | None => []
   end).

(** [report_grbl_setting] *)
Definition report_grbl_setting (details : setting_details_t) (setting_id : Z)
  : status_code_t * list listing_event :=
  match setting_get_details details setting_id with
  | Some setting =>
      (Status_OK, [ReportSetting setting (setting_id - id setting)])
  | None => (Status_SettingDisabled, [])
  end.

(** [print_setting] *)
Definition print_setting (setting : setting_detail_t) (offset : Z)
  : bool * list listing_event :=
  (true,
   if has_value setting then [ReportSetting setting offset]
   else [Write "$"; Write (uitoa (id setting));
         Write (appendbuf ["=N/A"; ASCII_EOL])]).

(** [settings_iterator] (see [Catalog.settings_iterator]) with a callback
    of the listing. *)
Definition settings_iterator_listing (setting : setting_detail_t)
  (callback : setting_detail_t -> Z -> bool * list listing_event)
  : bool * list listing_event :=
  let calls := map (callback setting) (iterator_offsets setting) in
  (existsb fst calls, flat_map snd calls).

(** The descriptors of the core registry, [settings_get_details ()]. *)
Definition core_settings (details : setting_details_t)
  : list setting_detail_t :=
  match details with
  | Details_last settings => settings
  | Details_link settings _ => settings
  end.

(** The descriptors of the registries behind the core registry. *)
Definition plugin_settings (details : setting_details_t)
  : list setting_detail_t :=
  match details with
  | Details_last _ => []
  | Details_link _ next => chain_settings next
  end.

(** The table of pointers [report_grbl_settings] fills before it sorts. *)
Definition listing_table (all : bool) (details : setting_details_t)
  : list setting_detail_t :=
  filter (fun setting => (all || legacy setting) && available setting)
    (core_settings details)
  ++ (if all then filter available (plugin_settings details) else []).

(** [report_grbl_settings]; [calloc n] tells whether the table of [n]
    pointers can be had. *)
Definition report_grbl_settings (calloc : nat -> bool) (all : bool)
  (details : setting_details_t) : list listing_event :=
  if calloc (total_settings details) then
    flat_map (fun setting => snd (settings_iterator_listing setting print_setting))
      (qsort (listing_table all details))
  else [].

(** The strings that reach the stream when [grbl.report.setting] is
    [report_setting]. *)
Definition stream_of (tr : list listing_event) : list string :=
  flat_map (fun e => match e with
                     | ReportSetting setting offset =>
                         snd (report_setting setting offset)
                     | Write s => [s]
                     end) tr.

(** The descriptors a listing is to show. *)
Definition listed (all : bool) (details : setting_details_t)
  : list setting_detail_t :=
  filter (fun setting => (all || legacy setting) && available setting)
    (if all then chain_settings details else core_settings details).

End Lines.

(** Every setting of the example catalogue but number 30 is an extended
    one; all hold a value, shown as the offset it is asked at. *)
Definition example_values : Values :=
  {| legacy := fun setting => id setting =? 30;
     has_value := fun _ => true;
     setting_get_value := fun _ offset => Some (uitoa offset) |}.

End Listing.

(** ** More of the odometer plugin *)

Module OdometerExtra.

Import Odometer.

(** Six axes, distances in steps; the driver's settings-changed handler
    puts its own spindle and stepper functions back. *)
Definition six_axis_firmware : Firmware :=
  {| N_AXIS := 6;
     NVS_SIZE := 2048;
     sizeof_odometer_data_t := 40;
     distance_t := Z;
     distance_zero := 0;
     add_distance := fun _ d n => d + n;
     foreign_effect := fun _ ep =>
       {| grbl_on_unknown_sys_command := grbl_on_unknown_sys_command ep;
          grbl_on_state_change := grbl_on_state_change ep;
          grbl_on_report_options := grbl_on_report_options ep;
          hal_settings_changed := hal_settings_changed ep;
          hal_spindle_set_state := Foreign 3;
          hal_stepper_pulse_start := Foreign 4 |} |}.

(** The hours and minutes [odometers_report] prints for a run time in
    milliseconds: [uint32_t hr = t / 3600000, min = (t / 60000) % 60]. *)
Definition hours_minutes (t : Z) : Z * Z :=
  (uint32 (t / 3600000), uint32 ((t / 60000) mod 60)).

Section SixAxes.

#[local] Existing Instance six_axis_firmware.

(** The plugin's pointers once it has hooked into [entry_points_before]. *)
Definition saved_hooked : saved_t :=
  {| stepper_pulse_start := Foreign 4; on_unknown_sys_command := Foreign 0;
     on_state_change := NULL; spindle_set_state_ := Foreign 3;
     settings_changed := Foreign 2; on_report_options := Foreign 1 |}.

(** The entry points while the plugin is hooked in. *)
Definition entry_points_hooked : entry_points :=
  {| grbl_on_unknown_sys_command := fn_commandExecute;
     grbl_on_state_change := fn_onStateChanged;
     grbl_on_report_options := fn_onReportOptions;
     hal_settings_changed := fn_onSettingsChanged;
     hal_spindle_set_state := fn_onSpindleSetState;
     hal_stepper_pulse_start := fn_stepperPulseStart |}.

(** The plugin's variables after some motion: steps counted on the first,
    third and sixth axis, motion started at tick 1000. *)
Definition data_moved : data_t :=
  {| steps := [200; 0; 50; 0; 0; 7]; odometer_changed := true;
     odometers_address := 2007; odometers_address_prv := 1966;
     odometers := {| motors := 60000; spindle := 0;
                     distance := [1000; 2000; 3000; 0; 0; 10] |};
     odometers_prv := odometers_cleared;
     state_ms := 1000; spindle_ms := 0 |}.

End SixAxes.

End OdometerExtra.

(** ** Setting groups (report.c, [report_setting_group_details] and
    [report_group_settings]) *)

Module Groups.

(** [setting_group_detail_t] *)
Record setting_group_detail_t : Set := {
  parent : Z;
  id : Z;
  name : string
}.

(** The groups of one registry and the link to the next registry of the
    chain ([on_get_settings], NULL at the end). *)
Inductive group_details_t : Set :=
| Groups_last (groups : list setting_group_detail_t)
| Groups_link (groups : list setting_group_detail_t)
              (on_get_settings : group_details_t).

(** What the group reports take from outside report.c. The two comparators
    handed to [qsort] read a group through a pointer to [setting_detail_t];
    what they compare depends on the layout of the two structs, which
    settings.h defines and which is not among the sources, so the order
    they induce is left open. [UINT_FAST8_WIDTH] is the width in bits of
    [uint_fast8_t]. *)
Class GroupSettings : Type := {
  Group_Root : Z;
  settings_is_group_available : Z -> bool;
  cmp_setting_group_id : setting_group_detail_t -> setting_group_detail_t -> Z;
  cmp_setting_group_name :
    setting_group_detail_t -> setting_group_detail_t -> Z;
  UINT_FAST8_WIDTH : Z
}.

Section GroupReports.

Context {G : GroupSettings}.

Definition vbar : string := "|".

(** [print_setting_group]: the strings it writes; [prefix] is [None] for a
    NULL pointer. *)
Definition print_setting_group (group : setting_group_detail_t)
  (prefix : option string) : list string :=
  if settings_is_group_available (id group) then
    match prefix with
    | None =>
        [ "[SETTINGGROUP:"; uitoa (id group); vbar; uitoa (parent group);
          vbar; name group; appendbuf ["]"; ASCII_EOL] ]
    | Some text =>
        if negb (id group =? Group_Root)
           && settings_is_group_available (id group)
        then [text; name group; ASCII_EOL]
        else []
    end
  else [].

(** [qsort] with one of the comparators; as in [Catalog.qsort] elements
    that compare equal keep the order they were inserted in. *)
Fixpoint qsort_insert
  (cmp : setting_group_detail_t -> setting_group_detail_t -> Z)
  (x : setting_group_detail_t) (l : list setting_group_detail_t)
  : list setting_group_detail_t :=
  match l with
  | [] => [x]
  | y :: r => if cmp x y <=? 0 then x :: l else y :: qsort_insert cmp x r
  end.

Definition qsort
  (cmp : setting_group_detail_t -> setting_group_detail_t -> Z)
  (l : list setting_group_detail_t) : list setting_group_detail_t :=
  fold_right (qsort_insert cmp) [] l.

(** The sum of [n_groups] over the chain, before it is cut to [uint8_t]. *)
Fixpoint total_groups (details : group_details_t) : nat :=
  match details with
  | Groups_last groups => List.length groups
  | Groups_link groups next => (List.length groups + total_groups next)%nat
  end.

(** Every group of the chain, registry after registry. *)
Fixpoint chain_groups (details : group_details_t)
  : list setting_group_detail_t :=
  match details with
  | Groups_last groups => groups
  | Groups_link groups next => groups ++ chain_groups next
  end.

(** [sort_setting_group_details]. [n_groups] is a [uint8_t]: the table has
    room for the sum modulo 256, and that many entries are sorted and
    printed. With more than 255 groups the copy loop runs past the table,
    which C leaves undefined; the embedding then shows the entries that
    fit. [calloc n] tells whether the table of [n] pointers can be had. *)
Definition sort_setting_group_details (calloc : nat -> bool) (by_id : bool)
  (prefix : option string) (details : group_details_t)
  : status_code_t * list string :=
  let n_groups := Z.to_nat (uint8 (Z.of_nat (total_groups details))) in
  if calloc n_groups then
    let all_groups := firstn n_groups (chain_groups details) in
    (Status_OK,
     flat_map (fun group => print_setting_group group prefix)
       (qsort (if by_id then cmp_setting_group_id else cmp_setting_group_name)
          all_groups))
  else (Status_Unhandled, []).

(** [report_setting_group_details] *)
Definition report_setting_group_details (calloc : nat -> bool) (by_id : bool)
  (prefix : option string) (details : group_details_t)
  : status_code_t * list string :=
  match sort_setting_group_details calloc by_id prefix details with
  | (Status_Unhandled, _) =>
      (Status_OK,
       flat_map (fun group => print_setting_group group prefix)
         (chain_groups details))
  | (_, written) => (Status_OK, written)
  end.

(** Whether a group gets a line, and the line. *)
Definition group_shown (prefix : option string)
  (group : setting_group_detail_t) : bool :=
  settings_is_group_available (id group)
  && match prefix with
     | None => true
     | Some _ => negb (id group =? Group_Root)
     end.

Definition group_line (prefix : option string)
  (group : setting_group_detail_t) : list string :=
  match prefix with
  | None =>
      [ "[SETTINGGROUP:"; uitoa (id group); vbar; uitoa (parent group);
        vbar; name group; appendbuf ["]"; ASCII_EOL] ]
  | Some text => [text; name group; ASCII_EOL]
  end.

(** [CAPS (c)], on the character code. *)
Definition CAPS (c : ascii) : N :=
  let code := N_of_ascii c in
  if ((97 <=? code) && (code <=? 122))%N then N.land code 95 else code.

(** The [while] of [report_group_settings] and the test that follows it:
    [s1] runs over the argument, [s2] over the name of the group. *)
Fixpoint same_caps (s1 s2 : string) : bool :=
  match s1 with
  | EmptyString => true
  | String c1 r1 =>
      match s2 with
      | String c2 r2 => if (CAPS c1 =? CAPS c2)%N then same_caps r1 r2 else false
      | EmptyString => false
      end
  end.

Definition uint_fast8 (v : Z) : Z := v mod 2 ^ UINT_FAST8_WIDTH.

Context {S : Catalog.Settings}.

(** [report_group_settings]: the rows of the first group of the table
    whose name has the length of the argument and its letters, whatever
    their case. *)
Fixpoint report_group_settings (calloc : nat -> bool)
  (details : Catalog.setting_details_t)
  (groups : list setting_group_detail_t) (lcargs : string)
  : list Catalog.event :=
  let len := uint_fast8 (Z.of_nat (String.length lcargs)) in
  match groups with
  | [] => []
  | group :: rest =>
      if (Z.of_nat (String.length (name group)) =? len)
         && same_caps lcargs (name group)
      then snd (Catalog.report_settings_details calloc true
                  Catalog.Setting_SettingsAll (id group) details)
      else report_group_settings calloc details rest lcargs
  end.

End GroupReports.

(** Groups to evaluate the reports on: number 0 stands for [Group_Root];
    every group but the last is available. *)
Definition example_group_settings : GroupSettings :=
  {| Group_Root := 0;
     settings_is_group_available := fun g => negb (g =? 9);
     cmp_setting_group_id := fun a b => id a - id b;
     cmp_setting_group_name :=
       fun a b => match String.compare (name a) (name b) with
                  | Lt => -1
                  | Eq => 0
                  | Gt => 1
                  end;
     UINT_FAST8_WIDTH := 32 |}.

Definition example_groups : group_details_t :=
  Groups_link
    [ {| parent := 0; id := 0; name := "Root" |};
      {| parent := 0; id := 5; name := "Spindle" |};
      {| parent := 0; id := 43; name := "Axis" |} ]
    (Groups_last
       [ {| parent := 0; id := 7; name := "Odometer" |};
         {| parent := 0; id := 9; name := "Bluetooth" |} ]).

End Groups.
(** * Properties *)

(** ** Strings and traces *)

Module Text.

Import Report.

Lemma concat_nil_cons (x : string) (l : list string) :
  String.concat "" (x :: l) = (x ++ String.concat "" l)%string.
Proof.
  destruct l as [|y l]; simpl.
  - induction x as [|c x IH]; simpl; [reflexivity | now rewrite <- IH].
  - reflexivity.
Qed.

Lemma appendbuf_cons (x : string) (l : list string) :
  appendbuf (x :: l) = (x ++ appendbuf l)%string.
Proof. apply concat_nil_cons. Qed.

Lemma appendbuf_nil : appendbuf [] = EmptyString.
Proof. reflexivity. Qed.

Lemma append_assoc (a b c : string) :
  ((a ++ b) ++ c = a ++ (b ++ c))%string.
Proof. induction a as [|x a IH]; simpl; [reflexivity | now rewrite IH]. Qed.

Lemma append_empty_r (a : string) : (a ++ "")%string = a.
Proof. induction a as [|x a IH]; simpl; [reflexivity | now rewrite IH]. Qed.

Lemma appendbuf_app (l1 l2 : list string) :
  appendbuf (l1 ++ l2) = (appendbuf l1 ++ appendbuf l2)%string.
Proof.
  induction l1 as [|x l1 IH]; simpl.
  - reflexivity.
  - rewrite !appendbuf_cons, IH. now rewrite append_assoc.
Qed.

Lemma line_of_app (t1 t2 : list event) :
  line_of (t1 ++ t2) = (line_of t1 ++ line_of t2)%string.
Proof. unfold line_of. rewrite map_app. apply appendbuf_app. Qed.

Lemma line_of_cons (e : event) (t : list event) :
  line_of (e :: t) = (written e ++ line_of t)%string.
Proof. unfold line_of. simpl map. apply concat_nil_cons. Qed.

Lemma all_chars_append (p : ascii -> bool) (a b : string) :
  all_chars p (a ++ b) = all_chars p a && all_chars p b.
Proof.
  induction a as [|c a IH]; simpl; [reflexivity|].
  rewrite IH. now rewrite andb_assoc.
Qed.

Lemma all_chars_appendbuf (p : ascii -> bool) (l : list string) :
  all_chars p (appendbuf l) = forallb (all_chars p) l.
Proof.
  induction l as [|x l IH]; [reflexivity|].
  rewrite appendbuf_cons, all_chars_append, IH. reflexivity.
Qed.

Lemma all_chars_concat (p : ascii -> bool) (sep : string) (l : list string) :
  all_chars p sep = true -> forallb (all_chars p) l = true ->
  all_chars p (String.concat sep l) = true.
Proof.
  intros Hsep. induction l as [|x l IH]; [reflexivity|].
  cbn [forallb]. rewrite andb_true_iff. intros [Hx Hl].
  destruct l as [|y l]; [exact Hx|].
  change (String.concat sep (x :: y :: l))
    with (x ++ sep ++ String.concat sep (y :: l))%string.
  rewrite !all_chars_append, Hx, Hsep. now apply IH.
Qed.

Lemma all_chars_weaken (p q : ascii -> bool) (s : string) :
  (forall c, p c = true -> q c = true) ->
  all_chars p s = true -> all_chars q s = true.
Proof.
  intros Hpq. induction s as [|c s IH]; simpl; [reflexivity|].
  rewrite !andb_true_iff. intros [Hc Hs]. split; auto.
Qed.

Lemma digits_of_uint (d : Decimal.uint) :
  all_chars is_digit (NilEmpty.string_of_uint d) = true.
Proof. induction d; simpl; auto. Qed.

Lemma uitoa_digits (v : Z) : all_chars is_digit (uitoa v) = true.
Proof. apply digits_of_uint. Qed.

Lemma digit_is_value_char (c : ascii) : is_digit c = true -> value_char c = true.
Proof.
  destruct c as [[] [] [] [] [] [] [] []]; vm_compute; congruence.
Qed.

Lemma value_char_is_line_char (c : ascii) :
  value_char c = true -> line_char c = true.
Proof.
  unfold value_char, line_char. rewrite !andb_true_iff. tauto.
Qed.

Lemma uitoa_value (v : Z) : all_chars value_char (uitoa v) = true.
Proof.
  apply all_chars_weaken with (p := is_digit);
    [apply digit_is_value_char | apply uitoa_digits].
Qed.

Lemma uitoa_line (v : Z) : all_chars line_char (uitoa v) = true.
Proof.
  apply all_chars_weaken with (p := value_char);
    [apply value_char_is_line_char | apply uitoa_value].
Qed.

(** A text without field separator starts no field. *)
Lemma no_bar_no_header (t s : string) :
  all_chars value_char s = true -> prefix (String "|" t) s = false.
Proof.
  destruct s as [|c s]; [reflexivity|]. cbn [prefix all_chars].
  destruct (ascii_dec "|" c) as [<-|]; [discriminate | reflexivity].
Qed.

Lemma prefix_bar (t s : string) :
  prefix "|" s = false -> prefix (String "|" t) s = false.
Proof.
  destruct s as [|c s]; [reflexivity|]. cbn [prefix].
  destruct (ascii_dec "|" c); [destruct s; discriminate | reflexivity].
Qed.

Lemma prefix_append (a b : string) : prefix a (a ++ b) = true.
Proof.
  induction a as [|c a IH]; cbn [append prefix].
  - destruct b; reflexivity.
  - destruct (ascii_dec c c); [exact IH | congruence].
Qed.

End Text.

(** ** One status report *)

Module StatusLine.

Import Report Text.

Section OneCall.

Context {P : Platform}.

Lemma trace_of_parts (cfg : config_t) (s : snapshot) (st : rstate) :
  trace_of cfg s st =
  Write "<" :: fst (report_state cfg s st)
    ++ report_position cfg s
    ++ optional_fields cfg s st
    ++ [Write (appendbuf [">"; ASCII_EOL])].
Proof.
  unfold trace_of, report_realtime_status, optional_fields, flags_reported.
  destruct (report_state cfg s st) as [ev_state p'].
  destruct (advance_wco cfg s (wco_counter st) (report st)) as [c1 rep1].
  cbn [snd].
  destruct (advance_overrides cfg s (override_counter st) rep1) as [c2 rep2].
  cbn [snd].
  destruct (report_tail cfg s rep2 (statics_of st))
    as [ev_tail [[[[t f] r] m] g]].
  cbn [fst]. rewrite <- !app_assoc. reflexivity.
Qed.

Lemma all_chars_line_of (p : ascii -> bool) (tr : list event) :
  all_chars p (line_of tr) = forallb (fun e => all_chars p (written e)) tr.
Proof.
  unfold line_of. fold (appendbuf (map written tr)).
  rewrite all_chars_appendbuf. induction tr as [|e tr IH]; simpl; congruence.
Qed.

Lemma all_chars_letter_if (p : ascii -> bool) (b : bool) (l : string) :
  all_chars p l = true -> all_chars p (letter_if b l) = true.
Proof. destruct b; simpl; auto. Qed.

Lemma all_chars_if (p : ascii -> bool) (b : bool) (x y : string) :
  all_chars p x = true -> all_chars p y = true ->
  all_chars p (if b then x else y) = true.
Proof. destruct b; auto. Qed.

Lemma axis_values_chars (p : ascii -> bool) (cfg : config_t) (s : snapshot)
  (vs : list float) :
  all_chars p "," = true ->
  (forall v n, all_chars p (ftoa v n) = true) ->
  all_chars p (get_axis_values cfg s vs) = true.
Proof.
  intros Hcomma Hftoa.
  unfold get_axis_values, get_axis_values_inches, get_axis_values_mm,
    axis_values_with.
  destruct (report_inches cfg);
    (apply all_chars_concat; [exact Hcomma|];
     apply forallb_forall; intros x Hx; apply in_map_iff in Hx;
     destruct Hx as ([idx v] & <- & _); cbn [fst snd];
     destruct ((idx =? X_AXIS)%nat && diameter_mode s); apply Hftoa).
Qed.

(** The conversion of nuts_bolts.c puts no carriage return and no line feed
    into a number. *)
Hypothesis ftoa_line : forall v n, all_chars line_char (ftoa v n) = true.

Lemma axis_values_line (cfg : config_t) (s : snapshot) (vs : list float) :
  all_chars line_char (get_axis_values cfg s vs) = true.
Proof. apply axis_values_chars; [reflexivity | exact ftoa_line]. Qed.

Lemma rate_value_line (cfg : config_t) (v : float) :
  all_chars line_char (get_rate_value cfg v) = true.
Proof.
  unfold get_rate_value, get_rate_value_inch, get_rate_value_mm.
  destruct (report_inches cfg); apply uitoa_line.
Qed.

Ltac chars :=
  repeat match goal with
    | |- forallb _ (_ ++ _) = true =>
        rewrite forallb_app; apply andb_true_intro; split
    | |- forallb _ (if ?c then _ else _) = true => destruct c
    | |- forallb _ (match ?x with Some _ => _ | None => _ end) = true =>
        destruct x
    | |- forallb _ (_ :: _) = true =>
        cbn [forallb written]; apply andb_true_intro; split
    | |- forallb _ [] = true => reflexivity
    | |- all_chars _ (appendbuf _) = true =>
        rewrite all_chars_appendbuf; cbn [forallb]
    | |- _ && _ = true => apply andb_true_intro; split
    | |- all_chars _ (letter_if _ _) = true => apply all_chars_letter_if
    | |- all_chars _ (if _ then _ else _) = true => apply all_chars_if
    | |- all_chars _ (uitoa _) = true => apply uitoa_line
    | |- all_chars _ (get_axis_values _ _ _) = true => apply axis_values_line
    | |- all_chars _ (get_rate_value _ _) = true => apply rate_value_line
    | |- all_chars _ (String _ _) = true => reflexivity
    | |- all_chars _ EmptyString = true => reflexivity
    | |- true = true => reflexivity
    end.

Lemma optional_fields_line (cfg : config_t) (s : snapshot) (st : rstate) :
  all_chars line_char (line_of (optional_fields cfg s st)) = true.
Proof.
  rewrite all_chars_line_of. unfold optional_fields.
  rewrite !forallb_app. repeat (apply andb_true_intro; split).
  - unfold report_buffer_state. chars.
  - unfold report_line_number. chars.
  - unfold report_feed_speed. chars.
  - unfold report_pin_state, pin_letters, control_letters,
      axis_signals_tostring. chars.
  - unfold report_changed, report_homed, accessory_letters, map_coord_system,
      axis_signals_tostring. chars.
  - unfold report_plugin. chars.
  - unfold report_tail, check_parser_state.
    destruct (statics_of st) as [[[[t f] r] m] g].
    repeat match goal with
      | |- context [if ?c then _ else _] => destruct c
      end; reflexivity.
Qed.


(** The state segment: one name of the enumeration, then nothing or a colon
    and a number. *)
Lemma state_segment (cfg : config_t) (s : snapshot) (st : rstate) :
  exists token substate,
    line_of (fst (report_state cfg s st)) = appendbuf [token; substate]
    /\ In token state_tokens
    /\ (substate = EmptyString \/ exists n, substate = appendbuf [":"; uitoa n]).
Proof.
  unfold report_state, state_tokens.
  destruct (shown_state s); cbn [fst].
  - exists "Idle", EmptyString. simpl. tauto.
  - destruct ((r_all (report st) || alarm_substate cfg) && nonzero (alarm s)).
    + exists "Alarm", (appendbuf [":"; uitoa (alarm s)]). simpl.
      intuition eauto.
    + exists "Alarm", EmptyString. simpl. tauto.
  - exists "Check", EmptyString. simpl. tauto.
  - exists "Home", EmptyString. simpl. tauto.
  - destruct (feed_hold_pending s);
      [|destruct (probing_next cfg s (probing st))].
    + exists "Run", (appendbuf [":"; uitoa 1]). simpl. intuition eauto.
    + exists "Run", (appendbuf [":"; uitoa 2]). simpl. intuition eauto.
    + exists "Run", EmptyString. simpl. tauto.
  - exists "Hold", (appendbuf [":"; uitoa (holding_state s - 1)]). simpl.
    intuition eauto.
  - exists "Jog", EmptyString. simpl. tauto.
  - exists "Door", (appendbuf [":"; uitoa (parking_state s)]). simpl.
    intuition eauto.
  - exists "Sleep", EmptyString. simpl. tauto.
  - destruct ((r_all (report st) || alarm_substate cfg) && nonzero (alarm s)).
    + exists "Alarm", (appendbuf [":"; uitoa (alarm s)]). simpl.
      intuition eauto.
    + exists "Alarm", EmptyString. simpl. tauto.
  - exists "Tool", EmptyString. simpl. tauto.
Qed.

Lemma state_token_line (token : string) :
  In token state_tokens -> all_chars line_char token = true.
Proof.
  unfold state_tokens. simpl.
  intros H; repeat (destruct H as [<-|H]; [reflexivity|]); destruct H.
Qed.

Lemma combine_with_map (A : Type) (f : nat -> A) (l : list nat) :
  combine l (map f l) = map (fun idx => (idx, f idx)) l.
Proof. induction l as [|x l IH]; cbn [map combine]; congruence. Qed.

(** The values the position block hands to the formatter come out as the
    position of every axis of the build. *)
Lemma position_field_text (cfg : config_t) (s : snapshot) :
  get_axis_values cfg s (print_position cfg s) = position_text cfg s.
Proof.
  unfold get_axis_values, get_axis_values_inches, get_axis_values_mm,
    axis_values_with, print_position, position_text, position_value, axes.
  destruct (report_inches cfg);
    rewrite length_map, length_seq, combine_with_map, map_map;
    f_equal; apply map_ext; intros idx; cbn [fst snd];
    destruct (machine_position cfg),
      ((idx =? X_AXIS)%nat && diameter_mode s); reflexivity.
Qed.

(** C1. One call of [report_realtime_status] writes one line: ["<"], the
    name of exactly one state of the enumeration with at most a numeric
    sub-state, the position field whatever the settings and the dirty
    flags are, the optional fields, and [">"] with the line terminator as
    the last write. The position field is ["|MPos:"] or ["|WPos:"] and one
    number for every axis of the build, with commas in between: the
    machine position of the axis, less its work coordinate offset under
    ["|WPos:"], in inches when the reports are in inches, doubled on X in
    diameter mode. No other write of the call holds a carriage return or a
    line feed, as long as [ftoa] puts none into a number. *)
Theorem status_line_shape (cfg : config_t) (s : snapshot) (st : rstate) :
  exists token substate fields body,
    In token state_tokens
    /\ (substate = EmptyString \/ exists n, substate = appendbuf [":"; uitoa n])
    /\ line_of (trace_of cfg s st) =
         appendbuf
           [ "<"; token; substate;
             if machine_position cfg then "|MPos:" else "|WPos:";
             position_text cfg s;
             fields; ">"; ASCII_EOL ]
    /\ all_chars line_char
         (appendbuf
            [ "<"; token; substate;
              if machine_position cfg then "|MPos:" else "|WPos:";
              position_text cfg s;
              fields; ">" ]) = true
    /\ trace_of cfg s st = body ++ [Write (appendbuf [">"; ASCII_EOL])]
    /\ Forall (fun e => all_chars line_char (written e) = true) body.
Proof.
  destruct (state_segment cfg s st) as (token & substate & Hseg & Htok & Hsub).
  exists token, substate, (line_of (optional_fields cfg s st)).
  exists (Write "<" :: fst (report_state cfg s st)
            ++ report_position cfg s ++ optional_fields cfg s st).
  rewrite <- !position_field_text.
  assert (Hsubline : all_chars line_char substate = true).
  { destruct Hsub as [->|[n ->]]; [reflexivity|]. chars. }
  assert (Hstate : all_chars line_char
                     (line_of (fst (report_state cfg s st))) = true).
  { rewrite Hseg. chars; auto using state_token_line. }
  split; [exact Htok|]. split; [exact Hsub|]. split; [|split; [|split]].
  - rewrite trace_of_parts, line_of_cons, !line_of_app, Hseg.
    unfold report_position. rewrite !line_of_cons.
    cbn [written line_of map]. rewrite !appendbuf_cons.
    cbn [String.concat appendbuf]. rewrite !append_assoc, ?append_empty_r.
    reflexivity.
  - chars; auto using state_token_line, optional_fields_line.
  - rewrite trace_of_parts. cbn [app]. rewrite !app_comm_cons, !app_assoc.
    reflexivity.
  - apply Forall_forall. intros e He.
    assert (Hall : forallb (fun e => all_chars line_char (written e))
                     (Write "<" :: fst (report_state cfg s st)
                        ++ report_position cfg s ++ optional_fields cfg s st)
                   = true).
    { cbn [forallb written]. rewrite !forallb_app.
      rewrite <- !all_chars_line_of, Hstate, optional_fields_line.
      unfold report_position. rewrite all_chars_line_of. chars. }
    rewrite forallb_forall in Hall. auto.
Qed.

(** The line of a call starts with ["<"], the state segment and the bar that
    opens the position field. *)
Lemma line_starts_with_state (cfg : config_t) (s : snapshot) (st : rstate) :
  exists rest,
    line_of (trace_of cfg s st) =
    appendbuf ["<"; line_of (fst (report_state cfg s st)); "|"; rest].
Proof.
  exists (appendbuf
            [ if machine_position cfg then "MPos:" else "WPos:";
              get_axis_values cfg s (print_position cfg s);
              line_of (optional_fields cfg s st); ">"; ASCII_EOL ]).
  rewrite trace_of_parts, line_of_cons, !line_of_app.
  unfold report_position. rewrite !line_of_cons.
  cbn [written line_of map]. rewrite !appendbuf_cons.
  cbn [String.concat appendbuf]. rewrite ?append_empty_r.
  destruct (machine_position cfg); cbn [append]; reflexivity.
Qed.

Lemma shown_state_other (s : snapshot) :
  state_get s <> STATE_CYCLE -> shown_state s = state_get s.
Proof.
  unfold shown_state. intros H.
  destruct (state_get s); try reflexivity; try (now rewrite andb_false_r).
  congruence.
Qed.

(** C4, as the code has it. In Hold the state name is always followed by a
    colon and the holding-stage value minus one (as a 32-bit unsigned
    number), in Door always by a colon and the parking-stage number: no
    setting switches either off. In Alarm (and E-stop, shown as Alarm) a
    colon and the alarm code follow exactly when the alarm code is not zero
    and the alarm sub-state setting or the report-all flag is on. *)
Theorem substate_of_hold_door_alarm (cfg : config_t) (s : snapshot)
  (st : rstate) :
  (state_get s = STATE_HOLD ->
   exists rest,
     line_of (trace_of cfg s st) =
     appendbuf ["<"; "Hold"; ":"; uitoa (holding_state s - 1); "|"; rest])
  /\ (state_get s = STATE_SAFETY_DOOR ->
      exists rest,
        line_of (trace_of cfg s st) =
        appendbuf ["<"; "Door"; ":"; uitoa (parking_state s); "|"; rest])
  /\ (state_get s = STATE_ALARM \/ state_get s = STATE_ESTOP ->
      exists rest,
        line_of (trace_of cfg s st) =
        if (r_all (report st) || alarm_substate cfg) && nonzero (alarm s)
        then appendbuf ["<"; "Alarm"; ":"; uitoa (alarm s); "|"; rest]
        else appendbuf ["<"; "Alarm"; "|"; rest]).
Proof.
  destruct (line_starts_with_state cfg s st) as [rest Hline].
  repeat split; intros Hs; exists rest; rewrite Hline; unfold report_state.
  - rewrite shown_state_other, Hs by congruence. reflexivity.
  - rewrite shown_state_other, Hs by congruence. reflexivity.
  - rewrite shown_state_other by (destruct Hs; congruence).
    destruct ((r_all (report st) || alarm_substate cfg) && nonzero (alarm s));
      destruct Hs as [-> | ->]; reflexivity.
Qed.

(** C5, as the code has it. While the machine is shown in Run (cycle state,
    no tool change pending), the name is followed by [":1"] when a feed
    hold is pending; otherwise by [":2"] when a probing cycle is active and
    the run sub-state setting is on, or when an earlier report has latched
    probing and the probe reads triggered now; otherwise by nothing. The
    latch keeps that second condition for the next call. *)
Theorem substate_of_run (cfg : config_t) (s : snapshot) (st : rstate) :
  state_get s = STATE_CYCLE -> tool_change s = false ->
  let probing_now :=
    (probing_active s && run_substate cfg)
    || (probing st && triggered (probe_state_of s)) in
  (exists rest,
     line_of (trace_of cfg s st) =
     appendbuf
       [ "<"; "Run";
         if feed_hold_pending s then ":1"
         else if probing_now then ":2" else EmptyString;
         "|"; rest ])
  /\ probing (state_after cfg s st) = probing_now.
Proof.
  intros Hs Ht probing_now.
  assert (Hnext : probing_next cfg s (probing st) = probing_now).
  { unfold probing_next, probing_now.
    destruct (probing_active s && run_substate cfg); [reflexivity|].
    destruct (probing st); reflexivity. }
  split.
  - destruct (line_starts_with_state cfg s st) as [rest Hline].
    exists rest. rewrite Hline. unfold report_state, shown_state.
    rewrite Hs, Ht, Hnext. cbn [andb].
    destruct (feed_hold_pending s); [|destruct probing_now]; reflexivity.
  - unfold state_after, report_realtime_status.
    replace (report_state cfg s st) with
      (fst (report_state cfg s st), probing_now).
    2:{ unfold report_state, shown_state. rewrite Hs, Ht, Hnext.
        reflexivity. }
    destruct (advance_wco cfg s (wco_counter st) (report st)) as [c1 rep1].
    destruct (advance_overrides cfg s (override_counter st) rep1)
      as [c2 rep2].
    destruct (report_tail cfg s rep2 (statics_of st))
      as [ev_tail [[[[t f] r] m] g]].
    reflexivity.
Qed.

(** C10. With pin-state reporting on, block delete enabled, no limit switch
    and no control signal asserted, and the probe connected and not
    triggered, the call writes the pin field as the bare header ["|Pn:"]:
    no letter is put behind it, and the next write is that of the next
    field or of the closing [">"]. *)
Theorem pin_field_without_letters (cfg : config_t) (s : snapshot)
  (st : rstate) :
  pin_state cfg = true ->
  block_delete_enabled s = true ->
  limits_get_state s = 0 ->
  ctrl_value (control_get_state s) = false ->
  connected (probe_state_of s) = true ->
  triggered (probe_state_of s) = false ->
  pin_letters cfg s = EmptyString
  /\ trace_of cfg s st =
     (Write "<" :: fst (report_state cfg s st)
        ++ report_position cfg s ++ report_buffer_state cfg s
        ++ report_line_number cfg s ++ report_feed_speed cfg s)
     ++ Write "|Pn:"
     :: report_changed cfg s (flags_reported cfg s st)
          (wco_array cfg s (report st))
     ++ report_plugin cfg (flags_reported cfg s st)
     ++ fst (report_tail cfg s (flags_reported cfg s st) (statics_of st))
     ++ [Write (appendbuf [">"; ASCII_EOL])].
Proof.
  intros Hpin Hbd Hlim Hctrl Hcon Htrig.
  assert (Hletters : pin_letters cfg s = EmptyString).
  { unfold pin_letters. rewrite Hlim, Hctrl, Hcon, Htrig. reflexivity. }
  split; [exact Hletters|].
  assert (Hpn : report_pin_state cfg s = [Write "|Pn:"]).
  { unfold report_pin_state.
    rewrite Hpin, Hbd, Hletters, !orb_true_r. reflexivity. }
  rewrite trace_of_parts. unfold optional_fields. rewrite Hpn.
  repeat (rewrite <- app_assoc || rewrite <- app_comm_cons).
  cbn [app]. repeat rewrite <- app_assoc. reflexivity.
Qed.

End OneCall.

End StatusLine.

(** ** Reports of the default build *)

Module DefaultBuild.

Import Report Text StatusLine.

Lemma zeros_value (n : nat) : all_chars value_char (zeros n) = true.
Proof. induction n as [|n IH]; [reflexivity | exact IH]. Qed.

Lemma default_ftoa_value (v n : Z) :
  all_chars value_char (ftoa (Platform := default_build) v n) = true.
Proof.
  cbn [ftoa default_build]. unfold ftoa_milli.
  rewrite all_chars_appendbuf. cbn [forallb].
  rewrite !uitoa_value, zeros_value. now destruct (v <? 0).
Qed.

Lemma default_ftoa_line (v n : Z) :
  all_chars line_char (ftoa (Platform := default_build) v n) = true.
Proof.
  apply all_chars_weaken with (p := value_char);
    [apply value_char_is_line_char | apply default_ftoa_value].
Qed.

(** The idle machine of the spec's scenario: machine coordinates, no
    optional field. *)
Example idle_line :
  line_of (trace_of (P := default_build) plain_config (at_rest STATE_IDLE)
             power_on)
  = appendbuf ["<Idle|MPos:0.000,0.000,0.000>"; ASCII_EOL].
Proof. reflexivity. Qed.

Lemma status_line_shape_witness :
  (exists token substate fields body,
     In token state_tokens
     /\ (substate = EmptyString
         \/ exists n, substate = appendbuf [":"; uitoa n])
     /\ line_of (trace_of (P := default_build) plain_config
                   (at_rest STATE_IDLE) power_on) =
          appendbuf
            [ "<"; token; substate; "|MPos:"; "0.000,0.000,0.000";
              fields; ">"; ASCII_EOL ]
     /\ all_chars line_char
          (appendbuf
             [ "<"; token; substate; "|MPos:"; "0.000,0.000,0.000";
               fields; ">" ]) = true
     /\ trace_of (P := default_build) plain_config (at_rest STATE_IDLE)
          power_on = body ++ [Write (appendbuf [">"; ASCII_EOL])]
     /\ Forall (fun e => all_chars line_char (written e) = true) body)
  /\ (exists token substate fields body,
        In token state_tokens
        /\ (substate = EmptyString
            \/ exists n, substate = appendbuf [":"; uitoa n])
        /\ line_of (trace_of (P := default_build) work_config machine_away
                      power_on) =
             appendbuf
               [ "<"; token; substate; "|WPos:"; "7.500,20.000,-6.000";
                 fields; ">"; ASCII_EOL ]
        /\ all_chars line_char
             (appendbuf
                [ "<"; token; substate; "|WPos:"; "7.500,20.000,-6.000";
                  fields; ">" ]) = true
        /\ trace_of (P := default_build) work_config machine_away power_on
           = body ++ [Write (appendbuf [">"; ASCII_EOL])]
        /\ Forall (fun e => all_chars line_char (written e) = true) body).
Proof.
  split.
  - exact (status_line_shape (P := default_build) default_ftoa_line
             plain_config (at_rest STATE_IDLE) power_on).
  - exact (status_line_shape (P := default_build) default_ftoa_line
             work_config machine_away power_on).
Defined.

(** C4 as stated fails. With every reporting setting off a machine in Hold
    at holding stage 2 still reports [Hold:1] (no setting switches the
    sub-state off); with the alarm sub-state setting on, a machine in Alarm
    whose alarm code is zero reports the bare [Alarm]. *)
Lemma substate_flag_counterexample :
  line_of (trace_of (P := default_build) plain_config
             (machine_in STATE_HOLD 2 false false None false) power_on)
  = appendbuf ["<Hold:1|MPos:0.000,0.000,0.000>"; ASCII_EOL]
  /\ alarm_substate (config_with false false false false true) = true
  /\ line_of (trace_of (P := default_build)
                (config_with false false false false true)
                (machine_in STATE_ALARM 0 false false None false) power_on)
     = appendbuf ["<Alarm|MPos:0.000,0.000,0.000>"; ASCII_EOL].
Proof. repeat split. Qed.

Lemma substate_of_hold_door_alarm_witness :
  (exists rest,
     line_of (trace_of (P := default_build) plain_config
                (machine_in STATE_HOLD 2 false false None false) power_on) =
     appendbuf ["<"; "Hold"; ":"; "1"; "|"; rest])
  /\ (exists rest,
        line_of (trace_of (P := default_build) plain_config
                   (machine_in STATE_SAFETY_DOOR 3 false false None false)
                   power_on) =
        appendbuf ["<"; "Door"; ":"; "3"; "|"; rest])
  /\ (exists rest,
        line_of (trace_of (P := default_build)
                   (config_with false false false false true)
                   (machine_in STATE_ALARM 9 false false None false)
                   power_on) =
        appendbuf ["<"; "Alarm"; ":"; "9"; "|"; rest]).
Proof.
  split; [|split].
  - exact (proj1 (substate_of_hold_door_alarm (P := default_build)
                    plain_config
                    (machine_in STATE_HOLD 2 false false None false)
                    power_on) eq_refl).
  - exact (proj1 (proj2 (substate_of_hold_door_alarm (P := default_build)
                           plain_config
                           (machine_in STATE_SAFETY_DOOR 3 false false None
                              false) power_on)) eq_refl).
  - exact (proj2 (proj2 (substate_of_hold_door_alarm (P := default_build)
                           (config_with false false false false true)
                           (machine_in STATE_ALARM 9 false false None false)
                           power_on)) (or_introl eq_refl)).
Defined.

(** C5 as stated fails. With the run sub-state setting off, a running
    machine in an active probing cycle whose probe has not triggered reports
    the bare [Run]. With the setting on, the report after the probing cycle
    has ended still shows [Run:2] as long as the probe reads triggered. *)
Lemma run_substate_counterexample :
  line_of (trace_of (P := default_build) plain_config
             (machine_in STATE_CYCLE 0 true false
                (Some {| connected := true; triggered := false |}) false)
             power_on)
  = appendbuf ["<Run|MPos:0.000,0.000,0.000>"; ASCII_EOL]
  /\ map line_of
       (fst (run_reports (P := default_build)
               (config_with false false false true false)
               [ machine_in STATE_CYCLE 0 true false
                   (Some {| connected := true; triggered := false |}) false;
                 machine_in STATE_CYCLE 0 false false
                   (Some {| connected := true; triggered := true |}) false ]
               power_on))
     = [ appendbuf ["<Run:2|MPos:0.000,0.000,0.000>"; ASCII_EOL];
         appendbuf ["<Run:2|MPos:0.000,0.000,0.000>"; ASCII_EOL] ].
Proof. split; reflexivity. Qed.

Lemma substate_of_run_witness :
  (exists rest,
     line_of (trace_of (P := default_build)
                (config_with false false false true false)
                (machine_in STATE_CYCLE 0 true false None false) power_on) =
     appendbuf ["<"; "Run"; ":2"; "|"; rest])
  /\ probing (state_after (P := default_build)
                (config_with false false false true false)
                (machine_in STATE_CYCLE 0 true false None false) power_on)
     = true.
Proof.
  exact (substate_of_run (P := default_build)
           (config_with false false false true false)
           (machine_in STATE_CYCLE 0 true false None false) power_on
           eq_refl eq_refl).
Defined.

Lemma pin_field_without_letters_witness :
  pin_letters (P := default_build) (config_with true false false false false)
    (machine_in STATE_IDLE 0 false false None true) = EmptyString
  /\ trace_of (P := default_build) (config_with true false false false false)
       (machine_in STATE_IDLE 0 false false None true) power_on
     = [ Write "<"; Write "Idle"; Write "|MPos:"; Write "0.000,0.000,0.000";
         Write "|Pn:"; Write (appendbuf [">"; ASCII_EOL]) ].
Proof.
  exact (pin_field_without_letters (P := default_build)
           (config_with true false false false false)
           (machine_in STATE_IDLE 0 false false None true) power_on
           eq_refl eq_refl eq_refl eq_refl eq_refl eq_refl).
Defined.

End DefaultBuild.

(** ** The two refresh counters *)

Module Refresh.

Import Report Text StatusLine.

Section Counters.

Context {P : Platform}.

(** The conversion of nuts_bolts.c puts no field separator, carriage return
    or line feed into a number. *)
Hypothesis ftoa_value : forall v n, all_chars value_char (ftoa v n) = true.

Lemma axis_values_no_bar (cfg : config_t) (s : snapshot) (vs : list float) :
  prefix "|" (get_axis_values cfg s vs) = false.
Proof.
  apply no_bar_no_header, axis_values_chars; [reflexivity | exact ftoa_value].
Qed.

Lemma has_field_app (hdr : string) (t1 t2 : list event) :
  has_field hdr (t1 ++ t2) = has_field hdr t1 || has_field hdr t2.
Proof. apply existsb_app. Qed.

Lemma has_field_none (hdr : string) (tr : list event) :
  forallb (fun e => negb (prefix hdr (written e))) tr = true ->
  has_field hdr tr = false.
Proof.
  unfold has_field. induction tr as [|e tr IH]; [reflexivity|].
  cbn [forallb existsb]. rewrite andb_true_iff, negb_true_iff.
  intros [-> Htr]. now rewrite IH.
Qed.

Lemma axis_signals_value (m : Z) :
  all_chars value_char (axis_signals_tostring m) = true.
Proof.
  unfold axis_signals_tostring. rewrite all_chars_appendbuf. cbn [forallb].
  repeat (apply andb_true_intro; split);
    try reflexivity; apply all_chars_letter_if; reflexivity.
Qed.

Lemma map_coord_system_value (i : Z) :
  all_chars value_char (map_coord_system i) = true.
Proof.
  unfold map_coord_system. rewrite all_chars_appendbuf. cbn [forallb].
  rewrite uitoa_value. destruct (59 <? uint8 (i + 54)); [|reflexivity].
  rewrite all_chars_appendbuf. cbn [forallb]. now rewrite uitoa_value.
Qed.

Ltac quiet :=
  repeat match goal with
    | |- forallb _ (_ ++ _) = true =>
        rewrite forallb_app; apply andb_true_intro; split
    | |- forallb _ (if ?c then _ else _) = true => destruct c
    | |- forallb _ (match ?x with Some _ => _ | None => _ end) = true =>
        destruct x
    | |- forallb _ (_ :: _) = true =>
        cbn [forallb written]; apply andb_true_intro; split
    | |- forallb _ [] = true => reflexivity
    | |- _ && _ = true => apply andb_true_intro; split
    | |- negb (prefix _ (uitoa _)) = true =>
        rewrite no_bar_no_header by apply uitoa_value; reflexivity
    | |- negb (prefix _ (get_axis_values _ _ _)) = true =>
        rewrite prefix_bar by apply axis_values_no_bar; reflexivity
    | |- negb (prefix _ (map_coord_system _)) = true =>
        rewrite no_bar_no_header by apply map_coord_system_value; reflexivity
    | |- negb (prefix _ (axis_signals_tostring _)) = true =>
        rewrite no_bar_no_header by apply axis_signals_value; reflexivity
    | |- negb (prefix _ (if ?c then _ else _)) = true => destruct c
    | |- negb (prefix _ _) = true => reflexivity
    | |- true = true => reflexivity
    end.

Lemma report_value_wco (rep : report_tracking_flags_t) :
  r_wco rep = true -> report_value rep = true.
Proof.
  unfold report_value. intros ->. now rewrite ?orb_true_r.
Qed.

Lemma report_value_overrides (rep : report_tracking_flags_t) :
  r_overrides rep = true -> report_value rep = true.
Proof.
  unfold report_value. intros ->. now rewrite ?orb_true_r.
Qed.

Lemma changed_has_wco (cfg : config_t) (s : snapshot)
  (rep : report_tracking_flags_t) (wco : list float) :
  has_field "|WCO:" (report_changed cfg s rep wco) = r_wco rep.
Proof.
  unfold report_changed. destruct (r_wco rep) eqn:Hw.
  - rewrite (report_value_wco rep Hw). reflexivity.
  - apply has_field_none. unfold report_homed. quiet.
Qed.

Lemma changed_has_ov (cfg : config_t) (s : snapshot)
  (rep : report_tracking_flags_t) (wco : list float) :
  has_field "|Ov:" (report_changed cfg s rep wco) = r_overrides rep.
Proof.
  unfold report_changed. destruct (r_overrides rep) eqn:Ho.
  - rewrite (report_value_overrides rep Ho). cbn [orb].
    rewrite !has_field_app.
    assert (Hov : has_field "|Ov:"
                    [Write (appendbuf ["|Ov:"; uitoa (override_feed_rate s)]);
                     Write (appendbuf [","; uitoa (override_rapid_rate s)]);
                     Write (appendbuf [","; uitoa (override_spindle_rpm s)])]
                  = true).
    { unfold has_field. cbn [existsb written].
      now rewrite appendbuf_cons, prefix_append. }
    rewrite Hov. now rewrite ?orb_true_r.
  - apply has_field_none. unfold report_homed. quiet.
Qed.


Lemma state_parts_have_no (hdr : string) (cfg : config_t) (s : snapshot)
  (st : rstate) :
  hdr = "|WCO:" \/ hdr = "|Ov:" ->
  has_field hdr (fst (report_state cfg s st)) = false.
Proof.
  intros Hhdr. apply has_field_none. unfold report_state.
  destruct (shown_state s); cbn [fst]; destruct Hhdr as [-> | ->]; quiet.
Qed.

Lemma fixed_parts_have_no (hdr : string) (cfg : config_t) (s : snapshot) :
  hdr = "|WCO:" \/ hdr = "|Ov:" ->
  has_field hdr
    (report_position cfg s ++ report_buffer_state cfg s
       ++ report_line_number cfg s ++ report_feed_speed cfg s
       ++ report_pin_state cfg s) = false.
Proof.
  intros Hhdr. apply has_field_none.
  unfold report_position, report_buffer_state, report_line_number,
    report_feed_speed, report_pin_state.
  destruct Hhdr as [-> | ->]; quiet.
Qed.

Lemma last_parts_have_no (hdr : string) (cfg : config_t) (s : snapshot)
  (rep : report_tracking_flags_t) (ps : parser_statics) :
  hdr = "|WCO:" \/ hdr = "|Ov:" ->
  has_field hdr
    (report_plugin cfg rep ++ fst (report_tail cfg s rep ps)
       ++ [Write (appendbuf [">"; ASCII_EOL])]) = false.
Proof.
  intros Hhdr. apply has_field_none.
  unfold report_plugin, report_tail, check_parser_state.
  destruct ps as [[[[t f] r] m] g].
  destruct Hhdr as [-> | ->];
    repeat match goal with
      | |- context [if ?c then _ else _] => destruct c
      end; reflexivity.
Qed.

(** Which of the two fields a call writes is decided by the changed-fields
    block alone. *)
Lemma call_has_field (hdr : string) (cfg : config_t) (s : snapshot)
  (st : rstate) :
  hdr = "|WCO:" \/ hdr = "|Ov:" ->
  has_field hdr (trace_of cfg s st) =
  has_field hdr (report_changed cfg s (flags_reported cfg s st)
                   (wco_array cfg s (report st))).
Proof.
  intros Hhdr. rewrite trace_of_parts. unfold optional_fields.
  change (Write "<" :: ?l) with ([Write "<"] ++ l).
  pose proof (fixed_parts_have_no hdr cfg s Hhdr) as Hfixed.
  pose proof (last_parts_have_no hdr cfg s (flags_reported cfg s st)
                (statics_of st) Hhdr) as Hlast.
  rewrite !has_field_app in *.
  rewrite (state_parts_have_no hdr cfg s st Hhdr).
  repeat match type of Hfixed with
         | _ || _ = false => apply orb_false_elim in Hfixed;
                             destruct Hfixed as [?H Hfixed]
         end.
  repeat match type of Hlast with
         | _ || _ = false => apply orb_false_elim in Hlast;
                             destruct Hlast as [?H Hlast]
         end.
  repeat match goal with
         | H : has_field _ _ = false |- _ => rewrite H; clear H
         end.
  rewrite ?orb_false_r.
  destruct Hhdr as [-> | ->]; reflexivity.
Qed.

Lemma flags_reported_wco (cfg : config_t) (s : snapshot) (st : rstate) :
  r_wco (flags_reported cfg s st) = work_coord_offset cfg && r_wco (report st).
Proof.
  unfold flags_reported, advance_overrides, advance_wco.
  destruct (work_coord_offset cfg), (overrides cfg); cbn [snd];
    try destruct ((0 <? override_counter st) && _); reflexivity.
Qed.

Lemma flags_reported_overrides (cfg : config_t) (s : snapshot) (st : rstate) :
  r_overrides (flags_reported cfg s st) =
  overrides cfg
  && negb ((0 <? override_counter st) && negb (r_overrides (report st))).
Proof.
  unfold flags_reported, advance_overrides, advance_wco.
  destruct (work_coord_offset cfg), (overrides cfg); cbn [snd andb];
    try reflexivity;
    destruct (0 <? override_counter st),
      (r_overrides (report st)) eqn:Ho;
    cbn; rewrite ?Ho; cbn; rewrite ?Ho; reflexivity.
Qed.

(** The WCO field is written exactly when WCO reporting is on and the call
    finds the WCO flag up. *)
Lemma call_has_wco (cfg : config_t) (s : snapshot) (st : rstate) :
  has_field "|WCO:" (trace_of cfg s st)
  = work_coord_offset cfg && r_wco (report st).
Proof.
  rewrite call_has_field by now left.
  now rewrite changed_has_wco, flags_reported_wco.
Qed.

(** The overrides field is written exactly when override reporting is on
    and the call finds the counter at zero or the overrides flag up. *)
Lemma call_has_ov (cfg : config_t) (s : snapshot) (st : rstate) :
  has_field "|Ov:" (trace_of cfg s st)
  = overrides cfg
    && negb ((0 <? override_counter st) && negb (r_overrides (report st))).
Proof.
  rewrite call_has_field by now right.
  now rewrite changed_has_ov, flags_reported_overrides.
Qed.

Lemma after_counters (cfg : config_t) (s : snapshot) (st : rstate) :
  wco_counter (state_after cfg s st)
  = fst (advance_wco cfg s (wco_counter st) (report st))
  /\ override_counter (state_after cfg s st)
     = fst (advance_overrides cfg s (override_counter st)
              (snd (advance_wco cfg s (wco_counter st) (report st))))
  /\ report (state_after cfg s st)
     = set_wco report_clear
         (work_coord_offset cfg
          && (wco_counter (state_after cfg s st) =? 0)).
Proof.
  unfold state_after, report_realtime_status.
  destruct (report_state cfg s st) as [ev_state p'].
  destruct (advance_wco cfg s (wco_counter st) (report st)) as [c1 rep1].
  cbn [snd fst].
  destruct (advance_overrides cfg s (override_counter st) rep1) as [c2 rep2].
  destruct (report_tail cfg s rep2 (statics_of st))
    as [ev_tail [[[[t f] r] m] g]].
  cbn [snd fst wco_counter override_counter report]. auto.
Qed.


(** *** Runs of calls *)

Lemma run_cons (cfg : config_t) (s : snapshot) (rest : list snapshot)
  (st : rstate) :
  run_reports cfg (s :: rest) st
  = (trace_of cfg s st :: fst (run_reports cfg rest (state_after cfg s st)),
     snd (run_reports cfg rest (state_after cfg s st))).
Proof.
  unfold trace_of, state_after. cbn [run_reports].
  destruct (report_realtime_status cfg s st) as [tr st1]. cbn [fst snd].
  destruct (run_reports cfg rest st1). reflexivity.
Qed.

Lemma run_app (cfg : config_t) (l1 l2 : list snapshot) (st : rstate) :
  run_reports cfg (l1 ++ l2) st
  = (fst (run_reports cfg l1 st)
       ++ fst (run_reports cfg l2 (snd (run_reports cfg l1 st))),
     snd (run_reports cfg l2 (snd (run_reports cfg l1 st)))).
Proof.
  revert st. induction l1 as [|s l1 IH]; intros st.
  - cbn [app run_reports fst snd]. now destruct (run_reports cfg l2 st).
  - cbn [app]. rewrite !run_cons, IH. reflexivity.
Qed.

Lemma run_length (cfg : config_t) (l : list snapshot) (st : rstate) :
  List.length (fst (run_reports cfg l st)) = List.length l.
Proof.
  revert st. induction l as [|s l IH]; intros st; [reflexivity|].
  rewrite run_cons. cbn [fst List.length]. now rewrite IH.
Qed.

(** The calls of a window are the run of the window from the state the
    calls before it leave. *)
Lemma window_of_run (cfg : config_t) (pre win post : list snapshot)
  (st : rstate) :
  window (List.length pre) (List.length win)
    (fst (run_reports cfg (pre ++ win ++ post) st))
  = fst (run_reports cfg win (snd (run_reports cfg pre st))).
Proof.
  unfold window. rewrite run_app. cbn [fst].
  rewrite skipn_app, run_length, Nat.sub_diag.
  rewrite skipn_all2 by (rewrite run_length; lia).
  cbn [app skipn]. rewrite run_app. cbn [fst].
  rewrite firstn_app, run_length, Nat.sub_diag.
  rewrite firstn_all2 by (rewrite run_length; lia).
  cbn [firstn]. now rewrite app_nil_r.
Qed.

Lemma count_field_cons (hdr : string) (tr : list event)
  (trs : list (list event)) :
  count_field hdr (tr :: trs)
  = ((if has_field hdr tr then 1 else 0) + count_field hdr trs)%nat.
Proof.
  unfold count_field. cbn [filter]. now destruct (has_field hdr tr).
Qed.

End Counters.

Section Windows.

Context {P : Platform}.

Hypothesis ftoa_value : forall v n, all_chars value_char (ftoa v n) = true.

(** The build passed the sanity check of the defines and keeps the counts
    within the documented range. *)
Hypothesis counts_accepted : refresh_counts_accepted = true.
Hypothesis counts_in_range : refresh_counts_in_range = true.

Variable cfg : config_t.
Variable busy : bool.

Lemma idle_below_busy :
  REPORT_WCO_REFRESH_IDLE_COUNT <= REPORT_WCO_REFRESH_BUSY_COUNT
  /\ REPORT_OVERRIDE_REFRESH_IDLE_COUNT <= REPORT_OVERRIDE_REFRESH_BUSY_COUNT.
Proof.
  unfold refresh_counts_accepted in counts_accepted.
  rewrite !andb_true_iff, !negb_true_iff, !Z.ltb_ge in counts_accepted.
  lia.
Qed.

Lemma wco_interval_range : 2 <= wco_interval busy <= 255.
Proof.
  unfold refresh_counts_accepted in counts_accepted.
  unfold refresh_counts_in_range in counts_in_range.
  rewrite !andb_true_iff, !negb_true_iff, !Z.ltb_ge in counts_accepted.
  rewrite !andb_true_iff, !Z.leb_le in counts_in_range.
  unfold wco_interval. destruct busy; lia.
Qed.

Lemma override_interval_range : 1 <= override_interval busy <= 255.
Proof.
  unfold refresh_counts_accepted in counts_accepted.
  unfold refresh_counts_in_range in counts_in_range.
  rewrite !andb_true_iff, !negb_true_iff, !Z.ltb_ge in counts_accepted.
  rewrite !andb_true_iff, !Z.leb_le in counts_in_range.
  unfold override_interval. destruct busy; lia.
Qed.

Lemma held_cons (s : snapshot) (l : list snapshot) :
  held busy (s :: l) <-> busy_state (state_get s) = busy /\ held busy l.
Proof. unfold held. apply Forall_cons_iff. Qed.

Lemma held_app (l1 l2 : list snapshot) :
  held busy (l1 ++ l2) <-> held busy l1 /\ held busy l2.
Proof. unfold held. apply Forall_app. Qed.

(** **** The WCO counter *)

Section Wco.

Hypothesis wco_on : work_coord_offset cfg = true.

Lemma wco_step (s : snapshot) (st : rstate) :
  busy_state (state_get s) = busy ->
  wco_counter (state_after cfg s st)
  = (if (0 <? wco_counter st) && negb (r_wco (report st))
     then uint8 (wco_counter st - 1) else wco_interval busy - 1)
  /\ r_wco (report (state_after cfg s st))
     = (wco_counter (state_after cfg s st) =? 0).
Proof.
  intros Hs. destruct (after_counters cfg s st) as (Hc & _ & Hr).
  split.
  - rewrite Hc. unfold advance_wco. rewrite wco_on. cbn [fst].
    destruct ((0 <? wco_counter st) && negb (r_wco (report st)));
      [reflexivity|].
    unfold refresh_reload, uint8, wco_interval. rewrite Hs.
    pose proof wco_interval_range as Hrange. unfold wco_interval in Hrange.
    apply Z.mod_small. destruct busy; lia.
  - rewrite Hr, wco_on. reflexivity.
Qed.

(** While the counter runs down no WCO field is written. *)
Lemma wco_quiet (snaps : list snapshot) (st : rstate) :
  held busy snaps ->
  Z.of_nat (List.length snaps) <= wco_counter st <= 255 ->
  wco_counter st = 0 \/ r_wco (report st) = false ->
  count_field "|WCO:" (fst (run_reports cfg snaps st)) = 0%nat.
Proof.
  revert st. induction snaps as [|s snaps IH]; intros st Hheld Hc Hw;
    [reflexivity|].
  apply held_cons in Hheld. destruct Hheld as [Hs Hheld].
  cbn [List.length] in Hc.
  assert (Hflag : r_wco (report st) = false) by (destruct Hw; [lia | assumption]).
  rewrite run_cons. cbn [fst]. rewrite count_field_cons.
  rewrite (call_has_wco ftoa_value), wco_on, Hflag. cbn [andb plus].
  destruct (wco_step s st Hs) as [Hnext Hnextflag].
  rewrite Hflag in Hnext.
  replace (0 <? wco_counter st) with true in Hnext
    by (symmetry; apply Z.ltb_lt; lia).
  cbn [andb negb] in Hnext. unfold uint8 in Hnext.
  rewrite Z.mod_small in Hnext by lia.
  apply IH; [assumption | lia |].
  rewrite Hnextflag. destruct (Z.eqb_spec (wco_counter (state_after cfg s st)) 0);
    [now left | now right].
Qed.

(** Two WCO fields are never closer than the interval. *)
Lemma wco_at_most_once (snaps : list snapshot) (st : rstate) :
  held busy snaps ->
  Z.of_nat (List.length snaps) <= wco_interval busy - 1 ->
  (count_field "|WCO:" (fst (run_reports cfg snaps st)) <= 1)%nat.
Proof.
  pose proof wco_interval_range as Hrange.
  revert st. induction snaps as [|s snaps IH]; intros st Hheld Hlen;
    [cbn; lia|].
  apply held_cons in Hheld. destruct Hheld as [Hs Hheld].
  cbn [List.length] in Hlen.
  rewrite run_cons. cbn [fst]. rewrite count_field_cons.
  rewrite (call_has_wco ftoa_value), wco_on. cbn [andb].
  destruct (wco_step s st Hs) as [Hnext Hnextflag].
  destruct (r_wco (report st)) eqn:Hflag.
  - rewrite andb_false_r in Hnext.
    rewrite wco_quiet; [lia | assumption | lia |].
    right. rewrite Hnextflag. apply Z.eqb_neq. lia.
  - cbn [plus]. apply IH; [assumption | lia].
Qed.

(** From a state in step, the WCO field is written before the counter's
    worth of calls is over. *)
Lemma wco_soon (snaps : list snapshot) (st : rstate) :
  held busy snaps ->
  0 <= wco_counter st <= 255 ->
  (wco_counter st = 0 -> r_wco (report st) = true) ->
  wco_counter st < Z.of_nat (List.length snaps) ->
  (1 <= count_field "|WCO:" (fst (run_reports cfg snaps st)))%nat.
Proof.
  revert st. induction snaps as [|s snaps IH]; intros st Hheld Hc Hzero Hlen;
    [cbn [List.length] in Hlen; lia|].
  apply held_cons in Hheld. destruct Hheld as [Hs Hheld].
  cbn [List.length] in Hlen.
  rewrite run_cons. cbn [fst]. rewrite count_field_cons.
  rewrite (call_has_wco ftoa_value), wco_on. cbn [andb].
  destruct (r_wco (report st)) eqn:Hflag; [lia|].
  destruct (wco_step s st Hs) as [Hnext Hnextflag].
  rewrite Hflag in Hnext.
  assert (Hpos : 0 < wco_counter st).
  { destruct (Z.eq_dec (wco_counter st) 0) as [H0|]; [|lia].
    specialize (Hzero H0). congruence. }
  replace (0 <? wco_counter st) with true in Hnext
    by (symmetry; apply Z.ltb_lt; lia).
  cbn [andb negb] in Hnext. unfold uint8 in Hnext.
  rewrite Z.mod_small in Hnext by lia.
  cbn [plus].
  apply IH; [assumption | lia | | lia].
  intros H0. rewrite Hnextflag. now apply Z.eqb_eq.
Qed.

Lemma wco_in_step_kept (snaps : list snapshot) (st : rstate) :
  held busy snaps -> wco_in_step busy st ->
  wco_in_step busy (snd (run_reports cfg snaps st)).
Proof.
  pose proof wco_interval_range as Hrange.
  revert st. induction snaps as [|s snaps IH]; intros st Hheld Hstep;
    [assumption|].
  apply held_cons in Hheld. destruct Hheld as [Hs Hheld].
  rewrite run_cons. cbn [snd]. apply IH; [assumption|].
  destruct Hstep as [Hc Hzero].
  destruct (wco_step s st Hs) as [Hnext Hnextflag].
  split.
  - rewrite Hnext.
    destruct ((0 <? wco_counter st) && negb (r_wco (report st))) eqn:Hdec;
      [|lia].
    apply andb_true_iff in Hdec. destruct Hdec as [Hpos _].
    apply Z.ltb_lt in Hpos. unfold uint8. rewrite Z.mod_small; lia.
  - intros H0. rewrite Hnextflag. now apply Z.eqb_eq.
Qed.

End Wco.


(** **** The override counter *)

Section Overrides.

Hypothesis overrides_on : overrides cfg = true.

Lemma override_step (s : snapshot) (st : rstate) :
  busy_state (state_get s) = busy ->
  override_counter (state_after cfg s st)
  = (if (0 <? override_counter st) && negb (r_overrides (report st))
     then uint8 (override_counter st - 1) else override_interval busy - 1)
  /\ r_overrides (report (state_after cfg s st)) = false.
Proof.
  intros Hs. destruct (after_counters cfg s st) as (_ & Hc & Hr).
  split.
  - rewrite Hc. unfold advance_overrides. rewrite overrides_on.
    assert (Hsame : r_overrides
                      (snd (advance_wco cfg s (wco_counter st) (report st)))
                    = r_overrides (report st)).
    { unfold advance_wco. now destruct (work_coord_offset cfg). }
    rewrite Hsame.
    destruct ((0 <? override_counter st) && negb (r_overrides (report st)));
      [reflexivity|].
    cbn [fst]. unfold refresh_reload, uint8, override_interval. rewrite Hs.
    pose proof override_interval_range as Hrange.
    unfold override_interval in Hrange.
    apply Z.mod_small. destruct busy; lia.
  - rewrite Hr. reflexivity.
Qed.

Lemma override_quiet (snaps : list snapshot) (st : rstate) :
  held busy snaps ->
  Z.of_nat (List.length snaps) <= override_counter st <= 255 ->
  r_overrides (report st) = false ->
  count_field "|Ov:" (fst (run_reports cfg snaps st)) = 0%nat.
Proof.
  revert st. induction snaps as [|s snaps IH]; intros st Hheld Hc Hflag;
    [reflexivity|].
  apply held_cons in Hheld. destruct Hheld as [Hs Hheld].
  cbn [List.length] in Hc.
  rewrite run_cons. cbn [fst]. rewrite count_field_cons.
  rewrite (call_has_ov ftoa_value), overrides_on, Hflag.
  destruct (override_step s st Hs) as [Hnext Hnextflag].
  rewrite Hflag in Hnext.
  replace (0 <? override_counter st) with true in *
    by (symmetry; apply Z.ltb_lt; lia).
  cbn [andb negb plus] in *. unfold uint8 in Hnext.
  rewrite Z.mod_small in Hnext by lia.
  apply IH; [assumption | lia | assumption].
Qed.

Lemma override_at_most_once (snaps : list snapshot) (st : rstate) :
  held busy snaps ->
  Z.of_nat (List.length snaps) <= override_interval busy - 1 ->
  (count_field "|Ov:" (fst (run_reports cfg snaps st)) <= 1)%nat.
Proof.
  pose proof override_interval_range as Hrange.
  revert st. induction snaps as [|s snaps IH]; intros st Hheld Hlen;
    [cbn; lia|].
  apply held_cons in Hheld. destruct Hheld as [Hs Hheld].
  cbn [List.length] in Hlen.
  rewrite run_cons. cbn [fst]. rewrite count_field_cons.
  rewrite (call_has_ov ftoa_value), overrides_on. cbn [andb].
  destruct (override_step s st Hs) as [Hnext Hnextflag].
  destruct ((0 <? override_counter st) && negb (r_overrides (report st))).
  - cbn [negb plus]. apply IH; [assumption | lia].
  - cbn [negb]. rewrite override_quiet; [lia | assumption | lia | assumption].
Qed.

Lemma override_soon (snaps : list snapshot) (st : rstate) :
  held busy snaps ->
  0 <= override_counter st <= 255 ->
  override_counter st < Z.of_nat (List.length snaps) ->
  (1 <= count_field "|Ov:" (fst (run_reports cfg snaps st)))%nat.
Proof.
  revert st. induction snaps as [|s snaps IH]; intros st Hheld Hc Hlen;
    [cbn [List.length] in Hlen; lia|].
  apply held_cons in Hheld. destruct Hheld as [Hs Hheld].
  cbn [List.length] in Hlen.
  rewrite run_cons. cbn [fst]. rewrite count_field_cons.
  rewrite (call_has_ov ftoa_value), overrides_on. cbn [andb].
  destruct (override_step s st Hs) as [Hnext Hnextflag].
  destruct ((0 <? override_counter st) && negb (r_overrides (report st)))
    eqn:Hdec; cbn [negb]; [|lia].
  apply andb_true_iff in Hdec. destruct Hdec as [Hpos _].
  apply Z.ltb_lt in Hpos. unfold uint8 in Hnext.
  rewrite Z.mod_small in Hnext by lia.
  cbn [plus]. apply IH; [assumption | lia | lia].
Qed.

Lemma override_in_step_kept (snaps : list snapshot) (st : rstate) :
  held busy snaps -> override_in_step busy st ->
  override_in_step busy (snd (run_reports cfg snaps st)).
Proof.
  pose proof override_interval_range as Hrange.
  revert st. induction snaps as [|s snaps IH]; intros st Hheld Hstep;
    [assumption|].
  apply held_cons in Hheld. destruct Hheld as [Hs Hheld].
  rewrite run_cons. cbn [snd]. apply IH; [assumption|].
  unfold override_in_step in *.
  destruct (override_step s st Hs) as [Hnext _]. rewrite Hnext.
  destruct ((0 <? override_counter st) && negb (r_overrides (report st)))
    eqn:Hdec; [|lia].
  apply andb_true_iff in Hdec. destruct Hdec as [Hpos _].
  apply Z.ltb_lt in Hpos. unfold uint8. rewrite Z.mod_small; lia.
Qed.

End Overrides.

(** C2, as the code has it. Take any run of consecutive calls with nothing
    else touching the counters or the dirty flags, the machine staying in
    the busy states (Homing, Run, Hold, Jog, Door) or staying out of them,
    and any window of that run. With WCO reporting on, at most one call of
    a window of [interval - 1] calls writes the WCO field, whatever state
    the run starts from; and at least one call of a window of [interval]
    calls writes it, provided the run starts in step: the counter below the
    interval and the WCO flag up whenever the counter is at zero. The same
    holds for the overrides field with override reporting on, in step
    meaning the counter below the interval. [interval] is the busy count in
    the busy states and the idle count otherwise, and the idle count never
    exceeds the busy count. *)
Theorem refresh_windows (pre win post : list snapshot) (st : rstate) :
  held busy (pre ++ win ++ post) ->
  let calls := fst (run_reports cfg (pre ++ win ++ post) st) in
  let seen hdr :=
    count_field hdr (window (List.length pre) (List.length win) calls) in
  (work_coord_offset cfg = true ->
   (Z.of_nat (List.length win) <= wco_interval busy - 1 ->
    (seen "|WCO:" <= 1)%nat)
   /\ (wco_in_step busy st ->
       wco_interval busy <= Z.of_nat (List.length win) ->
       (1 <= seen "|WCO:")%nat))
  /\ (overrides cfg = true ->
      (Z.of_nat (List.length win) <= override_interval busy - 1 ->
       (seen "|Ov:" <= 1)%nat)
      /\ (override_in_step busy st ->
          override_interval busy <= Z.of_nat (List.length win) ->
          (1 <= seen "|Ov:")%nat))
  /\ REPORT_WCO_REFRESH_IDLE_COUNT <= REPORT_WCO_REFRESH_BUSY_COUNT
  /\ REPORT_OVERRIDE_REFRESH_IDLE_COUNT <= REPORT_OVERRIDE_REFRESH_BUSY_COUNT.
Proof.
  intros Hheld calls seen.
  apply held_app in Hheld. destruct Hheld as [Hpre Hheld].
  apply held_app in Hheld. destruct Hheld as [Hwin _].
  pose proof wco_interval_range as Hwr.
  pose proof override_interval_range as Hor.
  unfold seen, calls. rewrite !window_of_run.
  split; [|split; [|exact idle_below_busy]].
  - intros Hon. split.
    + intros Hlen. now apply wco_at_most_once.
    + intros Hstep Hlen.
      destruct (wco_in_step_kept Hon pre st Hpre Hstep) as [Hc Hzero].
      apply wco_soon; try assumption; lia.
  - intros Hon. split.
    + intros Hlen. now apply override_at_most_once.
    + intros Hstep Hlen.
      pose proof (override_in_step_kept Hon pre st Hpre Hstep) as Hc.
      unfold override_in_step in Hc.
      apply override_soon; try assumption; lia.
Qed.


(** A call that writes the field puts the counter in step. *)
Lemma in_step_after_field (s : snapshot) (st : rstate) :
  busy_state (state_get s) = busy ->
  (has_field "|WCO:" (trace_of cfg s st) = true ->
   wco_in_step busy (state_after cfg s st))
  /\ (has_field "|Ov:" (trace_of cfg s st) = true ->
      override_in_step busy (state_after cfg s st)).
Proof.
  intros Hs.
  pose proof wco_interval_range as Hwr.
  pose proof override_interval_range as Hor.
  rewrite (call_has_wco ftoa_value), (call_has_ov ftoa_value).
  split; intros Hfield; apply andb_true_iff in Hfield;
    destruct Hfield as [Hon Hfield].
  - destruct (wco_step Hon s st Hs) as [Hnext _].
    rewrite Hfield, andb_false_r in Hnext.
    unfold wco_in_step. rewrite Hnext. split; lia.
  - destruct (override_step Hon s st Hs) as [Hnext _].
    apply negb_true_iff in Hfield. rewrite Hfield in Hnext.
    unfold override_in_step. rewrite Hnext. lia.
Qed.

End Windows.

Section AfterInit.

Context {P : Platform}.

Hypothesis ftoa_value : forall v n, all_chars value_char (ftoa v n) = true.

(** C6, as the code has it. [report_init_message] sets both counters to
    zero and leaves the dirty flags as they are ([initialised] is the state
    it leaves). The first status report
    after it, with override reporting on, writes the overrides field; with
    WCO reporting on it writes the WCO field exactly when it finds the WCO
    flag up, and reloads the WCO counter in either case. *)
Theorem first_report_after_init (cfg : config_t) (s : snapshot) (st : rstate) :
  wco_counter (initialised st) = 0
  /\ override_counter (initialised st) = 0
  /\ report (initialised st) = report st
  /\ (overrides cfg = true ->
      has_field "|Ov:" (trace_of cfg s (initialised st)) = true)
  /\ (work_coord_offset cfg = true ->
      has_field "|WCO:" (trace_of cfg s (initialised st))
      = r_wco (report st)
      /\ wco_counter (state_after cfg s (initialised st))
         = refresh_reload REPORT_WCO_REFRESH_BUSY_COUNT
             REPORT_WCO_REFRESH_IDLE_COUNT s).
Proof.
  split; [reflexivity|]. split; [reflexivity|]. split; [reflexivity|].
  split.
  - intros Hon. rewrite (call_has_ov ftoa_value), Hon. reflexivity.
  - intros Hon. split.
    + rewrite (call_has_wco ftoa_value), Hon. reflexivity.
    + destruct (after_counters cfg s (initialised st)) as (Hc & _).
      rewrite Hc. unfold advance_wco. rewrite Hon. reflexivity.
Qed.

End AfterInit.

End Refresh.

(** ** Refresh counters of the default build *)

Module DefaultRefresh.

Import Report Text StatusLine DefaultBuild Refresh.

(** C2 as stated fails. Right after initialisation, with no dirty flag up,
    thirty consecutive reports of a running machine (the busy WCO interval
    is 30) hold no WCO field: the first call only reloads the counter. And
    when the machine goes idle one report after the overrides were written
    in Run, the next ten reports (the idle override interval is 10) hold no
    overrides field: the counter still runs down from the busy count. *)
Lemma refresh_window_counterexample :
  held (P := default_build) true (repeat (at_rest STATE_CYCLE) 30)
  /\ wco_interval (P := default_build) true = 30
  /\ report (initialised power_on) = report_clear
  /\ count_field "|WCO:"
       (fst (run_reports (P := default_build) both_on
               (repeat (at_rest STATE_CYCLE) 30)
               (initialised power_on))) = 0%nat
  /\ held (P := default_build) false (repeat (at_rest STATE_IDLE) 10)
  /\ override_interval (P := default_build) false = 10
  /\ has_field "|Ov:"
       (trace_of (P := default_build) both_on (at_rest STATE_CYCLE)
          (initialised power_on)) = true
  /\ count_field "|Ov:"
       (fst (run_reports (P := default_build) both_on
               (repeat (at_rest STATE_IDLE) 10)
               (state_after (P := default_build) both_on
                  (at_rest STATE_CYCLE) (initialised power_on))))
     = 0%nat.
Proof.
  repeat split; try reflexivity;
    unfold held; cbn [repeat]; repeat constructor.
Qed.

Lemma refresh_windows_witness :
  let st := state_after (P := default_build) both_on (at_rest STATE_CYCLE)
              power_on in
  let calls := fst (run_reports (P := default_build) both_on
                      (repeat (at_rest STATE_CYCLE) 30) st) in
  wco_in_step (P := default_build) true st
  /\ override_in_step (P := default_build) true st
  /\ (1 <= count_field "|WCO:" (window 0 30 calls))%nat
  /\ (1 <= count_field "|Ov:" (window 0 30 calls))%nat.
Proof.
  intros st calls.
  assert (Hheld : held (P := default_build) true
                    ([] ++ repeat (at_rest STATE_CYCLE) 30 ++ []))
    by (unfold held; cbn [repeat app]; repeat constructor).
  assert (Hwco : wco_in_step (P := default_build) true st)
    by (unfold wco_in_step; vm_compute; intuition congruence).
  assert (Hov : override_in_step (P := default_build) true st)
    by (unfold override_in_step; vm_compute; intuition congruence).
  pose proof (refresh_windows (P := default_build) default_ftoa_value
                eq_refl eq_refl both_on true
                [] (repeat (at_rest STATE_CYCLE) 30) [] st Hheld) as H.
  cbv zeta in H. rewrite app_nil_r in H.
  destruct H as (Hw & Ho & _).
  split; [exact Hwco|]. split; [exact Hov|]. split.
  - apply (proj2 (Hw eq_refl) Hwco). vm_compute. congruence.
  - apply (proj2 (Ho eq_refl) Hov). vm_compute. congruence.
Defined.

(** C6 as stated fails. After initialisation with no dirty flag up, the
    first report with both fields enabled holds the overrides and no WCO
    field. *)
Lemma first_report_counterexample :
  work_coord_offset both_on = true
  /\ overrides both_on = true
  /\ line_of (trace_of (P := default_build) both_on (at_rest STATE_IDLE)
                (initialised power_on))
     = appendbuf ["<Idle|MPos:0.000,0.000,0.000|Ov:100,100,100>"; ASCII_EOL]
  /\ has_field "|WCO:"
       (trace_of (P := default_build) both_on (at_rest STATE_IDLE)
          (initialised power_on)) = false.
Proof. repeat split. Qed.

Lemma first_report_after_init_witness :
  has_field "|Ov:"
    (trace_of (P := default_build) both_on (at_rest STATE_IDLE)
       (initialised power_on)) = true
  /\ has_field "|WCO:"
       (trace_of (P := default_build) both_on (at_rest STATE_IDLE)
          (initialised power_on)) = false
  /\ wco_counter (state_after (P := default_build) both_on
                    (at_rest STATE_IDLE) (initialised power_on)) = 9.
Proof.
  destruct (first_report_after_init (P := default_build) default_ftoa_value
              both_on (at_rest STATE_IDLE) power_on)
    as (_ & _ & _ & Hov & Hwco).
  destruct (Hwco eq_refl) as [Hfield Hcounter].
  split; [exact (Hov eq_refl)|]. split; [exact Hfield | exact Hcounter].
Defined.

End DefaultRefresh.

(** ** The settings enumeration *)

Module Enumerate.

Import Catalog.

Section Paths.

Context {S : Settings}.

Lemma qsort_insert_perm (x : setting_detail_t) (l : list setting_detail_t) :
  Permutation (qsort_insert x l) (x :: l).
Proof.
  induction l as [|y l IH]; cbn [qsort_insert]; [reflexivity|].
  destruct (cmp_settings x y <=? 0); [reflexivity|].
  rewrite IH. apply perm_swap.
Qed.

(** Sorting loses and adds no pointer. *)
Lemma qsort_perm (l : list setting_detail_t) : Permutation (qsort l) l.
Proof.
  unfold qsort. induction l as [|x l IH]; cbn [fold_right]; [reflexivity|].
  rewrite qsort_insert_perm. now apply perm_skip.
Qed.

Lemma iterate_rows (callback : setting_output_ptr) (args : report_args_t)
  (l : list setting_detail_t) (reported : bool) :
  snd (iterate_settings callback args l reported)
  = flat_map (rows_of callback args) l.
Proof.
  revert reported. induction l as [|x l IH]; intros reported; [reflexivity|].
  cbn [iterate_settings flat_map]. unfold rows_of at 1.
  destruct (settings_iterator x callback args) as [ok rows].
  specialize (IH (if ok then true else reported)).
  destruct (iterate_settings callback args l (if ok then true else reported)).
  cbn [snd] in *. now rewrite IH.
Qed.

Lemma collect_is_filter (grp : Z) (args : report_args_t)
  (details : setting_details_t) :
  collect_settings grp args details
  = filter (fun setting => in_scope grp args setting && available setting)
      (chain_settings details).
Proof.
  induction details as [l | l next IH]; cbn [collect_settings chain_settings];
    [reflexivity|].
  now rewrite filter_app, IH.
Qed.

Lemma walk_rows (grp : Z) (args : report_args_t)
  (details : setting_details_t) (reported : bool) :
  snd (walk_unsorted grp args details reported)
  = flat_map (rows_of print_unsorted args)
      (filter (in_scope grp args) (chain_settings details)).
Proof.
  revert reported.
  induction details as [l | l next IH]; intros reported;
    cbn [walk_unsorted chain_settings].
  - apply iterate_rows.
  - rewrite filter_app, flat_map_app, <- iterate_rows with (reported := reported).
    destruct (iterate_settings print_unsorted args
                (filter (in_scope grp args) l) reported) as [r1 rows1].
    specialize (IH r1).
    destruct (walk_unsorted grp args next r1) as [r2 rows2].
    cbn [snd] in *. now rewrite IH.
Qed.

(** The unsorted callback writes what the sorted one writes, if the
    descriptor is available, and nothing otherwise. *)
Lemma unsorted_rows (args : report_args_t) (setting : setting_detail_t) :
  rows_of print_unsorted args setting
  = if available setting then rows_of print_sorted args setting else [].
Proof.
  unfold rows_of, settings_iterator. cbn [snd].
  induction (iterator_offsets setting) as [|offset l IH];
    cbn [map flat_map]; [now destruct (available setting)|].
  rewrite IH. unfold print_unsorted, print_sorted. cbn [snd].
  destruct (available setting); [now rewrite andb_true_r|].
  now rewrite andb_false_r.
Qed.

Lemma rows_of_filtered (f : setting_detail_t -> list event)
  (keep also : setting_detail_t -> bool) (l : list setting_detail_t) :
  flat_map f (filter (fun x => keep x && also x) l)
  = flat_map (fun x => if also x then f x else []) (filter keep l).
Proof.
  induction l as [|x l IH]; [reflexivity|]. cbn [filter].
  destruct (keep x); cbn [andb flat_map]; [|exact IH].
  destruct (also x); cbn [flat_map app]; now rewrite IH.
Qed.

(** The rows of the two paths. *)
Lemma sorted_path_rows (calloc : nat -> bool) (human : bool) (grp : Z)
  (details : setting_details_t) :
  calloc (total_settings details) = true ->
  snd (print_settings_details calloc human grp details)
  = flat_map (rows_of print_sorted (make_args human grp))
      (qsort (collect_settings grp (make_args human grp) details)).
Proof.
  intros Hmem. unfold print_settings_details, sort_settings_details.
  rewrite Hmem. rewrite <- iterate_rows with (reported := grp =? Group_All).
  destruct (iterate_settings print_sorted (make_args human grp)
              (qsort (collect_settings grp (make_args human grp) details))
              (grp =? Group_All)) as [[] rows]; reflexivity.
Qed.

Lemma fallback_path_rows (calloc : nat -> bool) (human : bool) (grp : Z)
  (details : setting_details_t) :
  calloc (total_settings details) = false ->
  snd (print_settings_details calloc human grp details)
  = flat_map (rows_of print_unsorted (make_args human grp))
      (filter (in_scope grp (make_args human grp)) (chain_settings details)).
Proof.
  intros Hmem. unfold print_settings_details, sort_settings_details.
  rewrite Hmem. rewrite <- walk_rows with (reported := grp =? Group_All).
  destruct (walk_unsorted grp (make_args human grp) details
              (grp =? Group_All)) as [r rows]. reflexivity.
Qed.

(** The rows the sorted callback writes for a descriptor. *)
Lemma sorted_rows_wanted (human : bool) (grp : Z) (setting : setting_detail_t) :
  rows_of print_sorted (make_args human grp) setting
  = map (Detail human setting)
      (filter (wanted_offset grp setting) (iterator_offsets setting)).
Proof.
  unfold rows_of, settings_iterator. cbn [snd].
  induction (iterator_offsets setting) as [|offset l IH];
    cbn [map flat_map filter]; [reflexivity|].
  rewrite IH. unfold print_sorted, other_axis, wanted_offset, make_args.
  cbn [snd args_group args_offset human_readable].
  destruct (negb ((settings_normalize_group grp =? group setting)
                  && negb (grp - settings_normalize_group grp =? offset)));
    reflexivity.
Qed.

Lemma collected_are_matching (human : bool) (grp : Z)
  (details : setting_details_t) :
  collect_settings grp (make_args human grp) details
  = filter (matching grp) (chain_settings details).
Proof.
  rewrite collect_is_filter. apply filter_ext. intros setting.
  unfold in_scope, available, matching, make_args. cbn [args_group].
  destruct (is_available setting) as [[]|]; reflexivity.
Qed.

(** C3. Whatever the chain of registries, the group asked for, the
    availability of the descriptors and the render mode: the unsorted
    walk, taken when the table of pointers cannot be allocated, writes a
    row for every matching descriptor of the chain (available, and of the
    group asked for or any group when all are asked for) at every offset
    the iterator visits that the request wants, in the order of the chain,
    and nothing else; the sorted path writes the same rows in another
    order. No row is lost in the fallback and none is added. *)
Theorem fallback_writes_same_rows (enough short : nat -> bool) (human : bool)
  (grp : Z) (details : setting_details_t) :
  enough (total_settings details) = true ->
  short (total_settings details) = false ->
  snd (print_settings_details short human grp details)
  = matching_rows human grp details
  /\ Permutation (snd (print_settings_details enough human grp details))
       (matching_rows human grp details)
  /\ Permutation (snd (print_settings_details enough human grp details))
       (snd (print_settings_details short human grp details))
  /\ (forall row,
        In row (snd (print_settings_details enough human grp details))
        <-> In row (snd (print_settings_details short human grp details)))
  /\ (forall setting offset,
        In setting (chain_settings details) ->
        matching grp setting = true ->
        In offset (iterator_offsets setting) ->
        wanted_offset grp setting offset = true ->
        In (Detail human setting offset)
          (snd (print_settings_details short human grp details))).
Proof.
  intros Henough Hshort.
  assert (Hfallback : snd (print_settings_details short human grp details)
                      = matching_rows human grp details).
  { rewrite fallback_path_rows by assumption. unfold matching_rows.
    rewrite <- collected_are_matching with (human := human).
    rewrite collect_is_filter, rows_of_filtered.
    apply flat_map_ext. intros setting.
    rewrite unsorted_rows, sorted_rows_wanted. reflexivity. }
  assert (Hsorted : Permutation
                      (snd (print_settings_details enough human grp details))
                      (matching_rows human grp details)).
  { rewrite sorted_path_rows by assumption. unfold matching_rows.
    rewrite qsort_perm, collected_are_matching.
    erewrite flat_map_ext; [reflexivity|].
    intros setting. apply sorted_rows_wanted. }
  assert (Hperm : Permutation
                    (snd (print_settings_details enough human grp details))
                    (snd (print_settings_details short human grp details)))
    by (now rewrite Hfallback).
  split; [exact Hfallback|]. split; [exact Hsorted|].
  split; [exact Hperm|]. split.
  - intros row. split; apply Permutation_in; [|symmetry]; exact Hperm.
  - intros setting offset Hin Hmatch Hoff Hwanted.
    rewrite Hfallback. unfold matching_rows. apply in_flat_map.
    exists setting. split; [apply filter_In; tauto|].
    apply in_map, filter_In. tauto.
Qed.

(** C7. When a group other than "all" is asked for, every row either path
    writes belongs to the normalised group and carries the offset the
    request implies, the group asked for minus the normalised group: of an
    axis setting only the row of the requested axis is written. *)
Theorem only_requested_offset (calloc : nat -> bool) (human : bool) (grp : Z)
  (details : setting_details_t) (h : bool) (setting : setting_detail_t)
  (offset : Z) :
  grp <> Group_All ->
  In (Detail h setting offset)
    (snd (report_settings_details calloc human Setting_SettingsAll grp details)) ->
  offset = grp - settings_normalize_group grp
  /\ group setting = settings_normalize_group grp.
Proof.
  intros Hgrp Hin. unfold report_settings_details in Hin.
  rewrite Z.eqb_refl in Hin. cbn [negb] in Hin.
  assert (Hrows : exists x,
             In x (filter (in_scope grp (make_args human grp))
                     (chain_settings details))
             /\ In (Detail h setting offset)
                  (rows_of print_sorted (make_args human grp) x)).
  { destruct (calloc (total_settings details)) eqn:Hmem.
    - rewrite sorted_path_rows in Hin by assumption.
      apply in_flat_map in Hin. destruct Hin as (x & Hx & Hrow).
      exists x. split; [|exact Hrow].
      apply (Permutation_in _ (qsort_perm _)) in Hx.
      rewrite collect_is_filter in Hx.
      apply filter_In in Hx. destruct Hx as [Hx Hkeep].
      apply andb_true_iff in Hkeep. apply filter_In. tauto.
    - rewrite fallback_path_rows in Hin by assumption.
      apply in_flat_map in Hin. destruct Hin as (x & Hx & Hrow).
      exists x. split; [exact Hx|].
      rewrite unsorted_rows in Hrow.
      destruct (available x); [exact Hrow | destruct Hrow]. }
  destruct Hrows as (x & Hx & Hrow).
  apply filter_In in Hx. destruct Hx as [_ Hscope].
  unfold in_scope in Hscope.
  replace (grp =? Group_All) with false in Hscope
    by (symmetry; now apply Z.eqb_neq).
  cbn [orb] in Hscope. apply Z.eqb_eq in Hscope.
  unfold rows_of, settings_iterator in Hrow. cbn [snd] in Hrow.
  apply in_flat_map in Hrow. destruct Hrow as (res & Hres & Hrow).
  apply in_map_iff in Hres. destruct Hres as (o & <- & _).
  unfold print_sorted in Hrow. cbn [snd] in Hrow.
  destruct (other_axis (make_args human grp) x o) eqn:Hother;
    cbn [negb] in Hrow; [destruct Hrow|].
  destruct Hrow as [Hrow | []]. injection Hrow as _ -> ->.
  unfold other_axis in Hother. rewrite Hscope, Z.eqb_refl in Hother.
  cbn [andb] in Hother. apply negb_false_iff, Z.eqb_eq in Hother.
  cbn [make_args args_offset args_group] in *. split; congruence.
Qed.

(** Whether the table can be allocated or not, the caller never sees
    [Status_Unhandled]. *)
Lemma allocation_failure_not_surfaced (calloc : nat -> bool) (human : bool)
  (setting_id grp : Z) (details : setting_details_t) :
  fst (report_settings_details calloc human setting_id grp details)
  <> Status_Unhandled.
Proof.
  unfold report_settings_details, print_settings_details,
    sort_settings_details.
  destruct (negb (setting_id =? Setting_SettingsAll)).
  - destruct (setting_get_details details setting_id); discriminate.
  - destruct (calloc (total_settings details)).
    + destruct (iterate_settings print_sorted (make_args human grp)
                  (qsort (collect_settings grp (make_args human grp) details))
                  (grp =? Group_All)) as [[] rows]; discriminate.
    + destruct (walk_unsorted grp (make_args human grp) details
                  (grp =? Group_All)) as [[] rows]; discriminate.
Qed.

End Paths.

(** The scenario of the spec: a scalar setting 30 and an axis setting 100
    repeated over three axes, all settings asked for: the rows come in
    ascending order of their ids. *)
Example all_settings_by_id :
  report_settings_details (S := example_settings) (fun _ => true) true
    65535 0 example_chain
  = (Status_OK,
     [ Detail true scalar_setting 0; Detail true axis_setting 0;
       Detail true axis_setting 1; Detail true axis_setting 2 ]).
Proof. reflexivity. Qed.

(** The catalogue of the examples on both paths. *)
Lemma fallback_writes_same_rows_witness :
  total_settings example_chain = 3%nat
  /\ snd (print_settings_details (S := example_settings)
            (fun n => (n <=? 2)%nat) true 0 example_chain)
     = [Detail true axis_setting 0; Detail true axis_setting 1;
        Detail true axis_setting 2; Detail true scalar_setting 0]
  /\ Permutation
       (snd (print_settings_details (S := example_settings)
               (fun n => (n <=? 8)%nat) true 0 example_chain))
       [Detail true axis_setting 0; Detail true axis_setting 1;
        Detail true axis_setting 2; Detail true scalar_setting 0]
  /\ In (Detail true scalar_setting 0)
       (snd (print_settings_details (S := example_settings)
               (fun n => (n <=? 2)%nat) true 0 example_chain)).
Proof.
  split; [reflexivity|].
  destruct (fallback_writes_same_rows (S := example_settings)
              (fun n => (n <=? 8)%nat) (fun n => (n <=? 2)%nat)
              true 0 example_chain eq_refl eq_refl)
    as (Hfallback & Hsorted & _ & _ & Hkept).
  split; [exact Hfallback|]. split; [exact Hsorted|].
  apply (Hkept scalar_setting 0).
  - cbn. tauto.
  - reflexivity.
  - cbn. tauto.
  - reflexivity.
Defined.

(** Asking for the settings of axis 1 (group 44) without the table. *)
Lemma only_requested_offset_witness :
  snd (report_settings_details (S := example_settings) (fun _ => false)
         false 65535 44 example_chain)
  = [Detail false axis_setting 1]
  /\ 1 = 44 - settings_normalize_group (Settings := example_settings) 44
  /\ group axis_setting = settings_normalize_group (Settings := example_settings) 44.
Proof.
  split; [reflexivity|].
  apply (only_requested_offset (S := example_settings) (fun _ => false)
           false 44 example_chain false axis_setting 1).
  - discriminate.
  - left. reflexivity.
Defined.

(** C8 at its failing input. Group 7 holds one descriptor and it is not
    available, so no row is written on either path. With the table
    allocated the status is [Status_SettingDisabled]; when the allocation
    fails the unsorted walk answers [Status_OK]. *)
Lemma fallback_status_of_empty_scope :
  report_settings_details (S := example_settings) (fun _ => true)
    true 65535 7 example_chain = (Status_SettingDisabled, [])
  /\ report_settings_details (S := example_settings) (fun _ => false)
       true 65535 7 example_chain = (Status_OK, []).
Proof. split; reflexivity. Qed.

End Enumerate.

(** ** The odometer's hooks *)

Module Hooks.

Import Odometer.

Section Chain.

Context {F : Firmware}.

Lemma call_installed (h : handler) : h <> NULL -> call h = Some [Invoke h].
Proof. destruct h; intros H; [congruence | reflexivity ..]. Qed.

Lemma handler_eqb_null (h : handler) : handler_eqb h NULL = false <-> h <> NULL.
Proof. destruct h; cbn; split; congruence. Qed.

Lemma handler_eqb_eq (a b : handler) : handler_eqb a b = true <-> a = b.
Proof.
  destruct a, b; cbn; split; try congruence; try reflexivity.
  - intros H. apply Nat.eqb_eq in H. now subst.
  - intros H. injection H as ->. apply Nat.eqb_refl.
Qed.

(** What [commandExecute] does on its own holds no call of a handler. *)
Lemma own_command_calls_nobody (line : string)
  (nvs_prv : option odometer_data_t) (d : data_t) :
  existsb is_invoke (own_events line nvs_prv d) = false.
Proof.
  unfold own_events, own_command, odometer_data_reset.
  destruct (String.get 1 line) as [c|]; [|reflexivity].
  destruct (negb (Ascii.eqb c "O")); [reflexivity|].
  destruct (String.eqb (from_1 line) "ODOMETERS"),
    (String.eqb (from_1 line) "ODOMETERS=PREV"),
    (String.eqb (from_1 line) "ODOMETERS=RST"), nvs_prv; reflexivity.
Qed.

Lemma invokes_app (h : handler) (l1 l2 : list event) :
  invokes h (l1 ++ l2) = invokes h l1 || invokes h l2.
Proof. apply existsb_app. Qed.

Lemma invokes_none (h : handler) (l : list event) :
  existsb is_invoke l = false -> invokes h l = false.
Proof.
  unfold invokes. induction l as [|e l IH]; [reflexivity|].
  cbn [existsb]. intros H. apply orb_false_elim in H. destruct H as [He Hl].
  rewrite (IH Hl). destruct e; cbn in *; congruence.
Qed.

Lemma invokes_self (h : handler) : invokes h [Invoke h] = true.
Proof.
  unfold invokes. cbn [existsb].
  now rewrite (proj2 (handler_eqb_eq h h) eq_refl).
Qed.

(** C9, as the code has it. When [odometer_init] finds usable storage, each
    of the six entry points is first copied to the plugin's pointer for it
    and then set to the plugin's handler. Five handlers pass every call on
    to the handler they replaced: pulse start, spindle set-state,
    settings-changed and report-options call it unconditionally (it must
    be installed), state-change calls it when one was installed. The
    handler for unknown system commands passes on only the commands it does
    not handle itself. *)
Theorem odometer_hooks_chain (nvs_now : option odometer_data_t)
  (ep : entry_points) (sv : saved_t) (d : data_t)
  (evs : list event) (ep' : entry_points) (sv' : saved_t) (d' : data_t) :
  odometer_init true true nvs_now ep sv d = (evs, ep', sv', d') ->
  ep' = {| grbl_on_unknown_sys_command := fn_commandExecute;
           grbl_on_state_change := fn_onStateChanged;
           grbl_on_report_options := fn_onReportOptions;
           hal_settings_changed := fn_onSettingsChanged;
           hal_spindle_set_state := fn_onSpindleSetState;
           hal_stepper_pulse_start := fn_stepperPulseStart |}
  /\ sv' = {| stepper_pulse_start := hal_stepper_pulse_start ep;
              on_unknown_sys_command := grbl_on_unknown_sys_command ep;
              on_state_change := grbl_on_state_change ep;
              spindle_set_state_ := hal_spindle_set_state ep;
              settings_changed := hal_settings_changed ep;
              on_report_options := grbl_on_report_options ep |}
  /\ (forall step_outbits dd,
        hal_stepper_pulse_start ep <> NULL ->
        exists dd',
          stepperPulseStart step_outbits sv' dd
          = Some ([Invoke (hal_stepper_pulse_start ep)], dd'))
  /\ (forall state ticks dd,
        invokes (grbl_on_state_change ep)
          (fst (onStateChanged state ticks sv' dd))
        = negb (handler_eqb (grbl_on_state_change ep) NULL))
  /\ (forall on ticks dd,
        hal_spindle_set_state ep <> NULL ->
        exists rest dd',
          onSpindleSetState on ticks sv' dd
          = Some (Invoke (hal_spindle_set_state ep) :: rest, dd'))
  /\ (hal_settings_changed ep <> NULL ->
      exists ep2 sv2,
        onSettingsChanged ep' sv'
        = Some ([Invoke (hal_settings_changed ep)], ep2, sv2)
        /\ hal_spindle_set_state ep2 = fn_onSpindleSetState
        /\ hal_stepper_pulse_start ep2 = fn_stepperPulseStart)
  /\ (grbl_on_report_options ep <> NULL ->
      exists rest,
        onReportOptions sv'
        = Some (Invoke (grbl_on_report_options ep) :: rest))
  /\ (forall line nvs_prv answer dd,
        invokes (grbl_on_unknown_sys_command ep)
          (snd (fst (commandExecute line nvs_prv answer sv' dd)))
        = match own_retval line nvs_prv dd with
          | Status_Unhandled =>
              negb (handler_eqb (grbl_on_unknown_sys_command ep) NULL)
          | _ => false
          end).
Proof.
  unfold odometer_init. cbn [negb].
  intros Hinit.
  assert (Hep : ep' = {| grbl_on_unknown_sys_command := fn_commandExecute;
                         grbl_on_state_change := fn_onStateChanged;
                         grbl_on_report_options := fn_onReportOptions;
                         hal_settings_changed := fn_onSettingsChanged;
                         hal_spindle_set_state := fn_onSpindleSetState;
                         hal_stepper_pulse_start := fn_stepperPulseStart |}
                /\ sv' = {| stepper_pulse_start := hal_stepper_pulse_start ep;
                            on_unknown_sys_command :=
                              grbl_on_unknown_sys_command ep;
                            on_state_change := grbl_on_state_change ep;
                            spindle_set_state_ := hal_spindle_set_state ep;
                            settings_changed := hal_settings_changed ep;
                            on_report_options := grbl_on_report_options ep |}).
  { destruct nvs_now; cbn in Hinit; injection Hinit; intros; subst; auto. }
  destruct Hep as [-> ->]. clear Hinit.
  split; [reflexivity|]. split; [reflexivity|].
  split; [|split; [|split; [|split; [|split]]]].
  - intros bits dd Hh. unfold stepperPulseStart.
    cbn [stepper_pulse_start]. rewrite (call_installed _ Hh). eauto.
  - intros state ticks dd. unfold onStateChanged. cbn [on_state_change].
    assert (Hquiet : forall p : list event * data_t,
               existsb is_invoke (fst p) = false ->
               invokes (grbl_on_state_change ep)
                 (fst (let '(evs0, d0) := p in
                       (evs0 ++ (if negb (handler_eqb (grbl_on_state_change ep)
                                            NULL)
                                 then [Invoke (grbl_on_state_change ep)]
                                 else []), d0)))
               = negb (handler_eqb (grbl_on_state_change ep) NULL)).
    { intros [evs0 d0] H0. cbn [fst] in *.
      rewrite invokes_app, (invokes_none _ _ H0). cbn [orb].
      destruct (handler_eqb (grbl_on_state_change ep) NULL); cbn [negb];
        [reflexivity | apply invokes_self]. }
    apply Hquiet.
    destruct (moving state); [reflexivity|].
    destruct (odometer_changed dd); [|reflexivity].
    destruct (flush_steps N_AXIS (steps dd) (distance (odometers dd)));
      reflexivity.
  - intros on ticks dd Hh. unfold onSpindleSetState.
    cbn [spindle_set_state_]. rewrite (call_installed _ Hh).
    destruct on; [|destruct (nonzero (spindle_ms dd))];
      do 2 eexists; reflexivity.
  - intros Hh. unfold onSettingsChanged. cbn [settings_changed].
    rewrite (call_installed _ Hh). eexists _, _.
    split; [reflexivity|]. cbn [hal_spindle_set_state hal_stepper_pulse_start].
    split.
    + match goal with
      | |- (if negb (handler_eqb ?a ?b) then _ else _) = _ =>
          destruct (handler_eqb a b) eqn:E; cbn [negb];
          [now apply handler_eqb_eq | reflexivity]
      end.
    + match goal with
      | |- (if negb (handler_eqb ?a ?b) then _ else _) = _ =>
          destruct (handler_eqb a b) eqn:E; cbn [negb];
          [now apply handler_eqb_eq | reflexivity]
      end.
  - intros Hh. unfold onReportOptions. cbn [on_report_options].
    rewrite (call_installed _ Hh). eexists. reflexivity.
  - intros line nvs_prv answer dd.
    unfold commandExecute, own_retval. cbn [on_unknown_sys_command].
    pose proof (own_command_calls_nobody line nvs_prv dd) as Hown.
    unfold own_events in Hown.
    destruct (own_command line nvs_prv dd) as [[retval evs0] d0].
    cbn [fst snd] in *.
    destruct retval; cbn [fst snd]; try (now apply invokes_none).
    destruct (handler_eqb (grbl_on_unknown_sys_command ep) NULL);
      cbn [negb fst snd]; [now apply invokes_none|].
    rewrite invokes_app, invokes_self. apply orb_true_r.
Qed.

End Chain.

(** C9 as stated fails. With another plugin's command handler installed
    before the odometer, the command [$ODOMETERS] is answered by the
    odometer alone: the handler it replaced is not called. *)
Lemma handled_command_counterexample :
  let '(_, ep, sv, d) :=
    odometer_init (F := example_firmware) true true None
      entry_points_before saved_none data_zero in
  grbl_on_unknown_sys_command ep = fn_commandExecute
  /\ on_unknown_sys_command sv = Foreign 0
  /\ commandExecute (F := example_firmware) "$ODOMETERS" None
       (Status_Other 3) sv d
     = (Status_OK, [OdometersReport (odometers d)], d)
  /\ invokes (F := example_firmware) (Foreign 0)
       (snd (fst (commandExecute (F := example_firmware) "$ODOMETERS"
                    None (Status_Other 3) sv d))) = false.
Proof. repeat split. Qed.

Lemma odometer_hooks_chain_witness :
  exists evs ep sv d,
    odometer_init (F := example_firmware) true true None
      entry_points_before saved_none data_zero = (evs, ep, sv, d)
    /\ on_report_options sv = Foreign 1
    /\ invokes (F := example_firmware) (Foreign 0)
         (snd (fst (commandExecute (F := example_firmware) "$X" None
                      (Status_Other 3) sv d))) = true
    /\ invokes (F := example_firmware) NULL
         (fst (onStateChanged (F := example_firmware) Report.STATE_IDLE 5
                 sv d)) = false.
Proof.
  eexists _, _, _, _. split; [reflexivity|].
  pose proof (odometer_hooks_chain (F := example_firmware) None
                entry_points_before saved_none data_zero _ _ _ _ eq_refl)
    as (_ & Hsv & _ & Hstate & _ & _ & _ & Hcmd).
  split; [reflexivity|]. split.
  - exact (Hcmd "$X" None (Status_Other 3) _).
  - exact (Hstate Report.STATE_IDLE 5 _).
Defined.

End Hooks.

(** ** More on the status report *)

Module FieldFacts.

Import Report Text StatusLine Refresh ReportExtra.

Section Fields.

Context {P : Platform}.

Hypothesis ftoa_value : forall v n, all_chars value_char (ftoa v n) = true.

Ltac silent :=
  repeat match goal with
    | |- forallb _ (_ ++ _) = true =>
        rewrite forallb_app; apply andb_true_intro; split
    | |- forallb _ (if ?c then _ else _) = true => destruct c
    | |- forallb _ (match ?x with Some _ => _ | None => _ end) = true =>
        destruct x
    | |- forallb _ (_ :: _) = true =>
        cbn [forallb written]; apply andb_true_intro; split
    | |- forallb _ [] = true => reflexivity
    | |- _ && _ = true => apply andb_true_intro; split
    | |- negb (prefix _ (uitoa _)) = true =>
        rewrite no_bar_no_header by apply uitoa_value; reflexivity
    | |- negb (prefix _ (get_axis_values _ _ _)) = true =>
        rewrite prefix_bar by apply (axis_values_no_bar ftoa_value);
        reflexivity
    | |- negb (prefix _ (map_coord_system _)) = true =>
        rewrite no_bar_no_header by apply map_coord_system_value; reflexivity
    | |- negb (prefix _ (axis_signals_tostring _)) = true =>
        rewrite no_bar_no_header by apply axis_signals_value; reflexivity
    | |- negb (prefix _ (if ?c then _ else _)) = true => destruct c
    | |- negb (prefix _ _) = true => reflexivity
    | |- true = true => reflexivity
    end.

Ltac each_header H :=
  unfold flag_headers in H; cbn [In] in H;
  repeat (destruct H as [<- | H]); [.. | destruct H].

Lemma outer_parts_have_no_flag_field (hdr : string) (cfg : config_t)
  (s : snapshot) (st : rstate) :
  In hdr flag_headers ->
  has_field hdr
    (Write "<" :: fst (report_state cfg s st) ++ report_position cfg s
       ++ report_buffer_state cfg s ++ report_line_number cfg s
       ++ report_feed_speed cfg s ++ report_pin_state cfg s) = false
  /\ has_field hdr
       (report_plugin cfg (flags_reported cfg s st)
          ++ fst (report_tail cfg s (flags_reported cfg s st) (statics_of st))
          ++ [Write (appendbuf [">"; ASCII_EOL])]) = false.
Proof.
  intros Hhdr. split; apply has_field_none.
  - unfold report_state, report_position, report_buffer_state,
      report_line_number, report_feed_speed, report_pin_state.
    destruct (shown_state s); cbn [fst]; each_header Hhdr; silent.
  - unfold report_plugin, report_tail, check_parser_state.
    destruct (statics_of st) as [[[[t f] r] m] g].
    each_header Hhdr;
      repeat match goal with
        | |- context [if ?c then _ else _] => destruct c
        end; reflexivity.
Qed.

(** Whether one of these fields is in the line is decided by the
    changed-fields block alone. *)
Lemma flag_field_in_changed (hdr : string) (cfg : config_t) (s : snapshot)
  (st : rstate) :
  In hdr flag_headers ->
  has_field hdr (trace_of cfg s st) =
  has_field hdr (report_changed cfg s (flags_reported cfg s st)
                   (wco_array cfg s (report st))).
Proof.
  intros Hhdr.
  destruct (outer_parts_have_no_flag_field hdr cfg s st Hhdr) as [Hpre Hpost].
  rewrite trace_of_parts. unfold optional_fields.
  replace (Write "<" :: fst (report_state cfg s st) ++ report_position cfg s
             ++ (report_buffer_state cfg s ++ report_line_number cfg s
                 ++ report_feed_speed cfg s ++ report_pin_state cfg s
                 ++ report_changed cfg s (flags_reported cfg s st)
                      (wco_array cfg s (report st))
                 ++ report_plugin cfg (flags_reported cfg s st)
                 ++ fst (report_tail cfg s (flags_reported cfg s st)
                           (statics_of st)))
             ++ [Write (appendbuf [">"; ASCII_EOL])])
    with ((Write "<" :: fst (report_state cfg s st) ++ report_position cfg s
             ++ report_buffer_state cfg s ++ report_line_number cfg s
             ++ report_feed_speed cfg s ++ report_pin_state cfg s)
          ++ report_changed cfg s (flags_reported cfg s st)
               (wco_array cfg s (report st))
          ++ (report_plugin cfg (flags_reported cfg s st)
              ++ fst (report_tail cfg s (flags_reported cfg s st)
                        (statics_of st))
              ++ [Write (appendbuf [">"; ASCII_EOL])])).
  2:{ rewrite <- ?app_comm_cons. repeat rewrite <- app_assoc. reflexivity. }
  rewrite has_field_app, Hpre. rewrite has_field_app, Hpost.
  now rewrite orb_false_r.
Qed.


Lemma prefix_refl (a : string) : prefix a a = true.
Proof. rewrite <- (append_empty_r a) at 2. apply prefix_append. Qed.

Ltac hit :=
  unfold has_field; rewrite ?existsb_app; cbn [existsb written];
  rewrite ?appendbuf_cons, ?prefix_append, ?prefix_refl; cbn [orb];
  rewrite ?orb_true_r; reflexivity.

Lemma report_value_any (rep : report_tracking_flags_t) :
  r_mpg_mode rep = true \/ r_scaling rep = true \/ r_homed rep = true
  \/ r_xmode rep = true \/ r_spindle rep = true \/ r_coolant rep = true
  \/ r_tool rep = true \/ r_gwco rep = true \/ r_tlo_reference rep = true ->
  report_value rep = true.
Proof.
  unfold report_value.
  intros H; repeat (destruct H as [H | H]); rewrite H;
    now rewrite ?orb_true_r.
Qed.

Section Changed.

Variables (cfg : config_t) (s : snapshot) (rep : report_tracking_flags_t).
Variable wco : list float.

Lemma changed_has_wcs :
  has_field "|WCS:G" (report_changed cfg s rep wco) = r_gwco rep.
Proof.
  unfold report_changed. destruct (r_gwco rep) eqn:Hf.
  - rewrite report_value_any by tauto. cbn [orb]. hit.
  - apply has_field_none. unfold report_homed. silent.
Qed.

Lemma changed_has_sc :
  has_field "|Sc:" (report_changed cfg s rep wco) = r_scaling rep.
Proof.
  unfold report_changed. destruct (r_scaling rep) eqn:Hf.
  - rewrite report_value_any by tauto. cbn [orb]. hit.
  - apply has_field_none. unfold report_homed. silent.
Qed.

Lemma changed_has_t :
  has_field "|T:" (report_changed cfg s rep wco) = r_tool rep.
Proof.
  unfold report_changed. destruct (r_tool rep) eqn:Hf.
  - rewrite report_value_any by tauto. cbn [orb]. hit.
  - apply has_field_none. unfold report_homed. silent.
Qed.

Lemma changed_has_tlr :
  has_field "|TLR:" (report_changed cfg s rep wco) = r_tlo_reference rep.
Proof.
  unfold report_changed. destruct (r_tlo_reference rep) eqn:Hf.
  - rewrite report_value_any by tauto. cbn [orb]. hit.
  - apply has_field_none. unfold report_homed. silent.
Qed.

Lemma changed_has_mpg :
  has_field "|MPG:" (report_changed cfg s rep wco)
  = r_mpg_mode rep && cap_mpg_mode cfg.
Proof.
  unfold report_changed.
  destruct (r_mpg_mode rep && cap_mpg_mode cfg) eqn:Hf.
  - apply andb_true_iff in Hf. rewrite report_value_any by tauto.
    cbn [orb]. destruct (mpg_mode s); hit.
  - apply has_field_none. unfold report_homed. silent.
Qed.

Lemma changed_has_d :
  has_field "|D:" (report_changed cfg s rep wco)
  = r_xmode rep && mode_lathe cfg.
Proof.
  unfold report_changed. destruct (r_xmode rep && mode_lathe cfg) eqn:Hf.
  - apply andb_true_iff in Hf. rewrite report_value_any by tauto.
    cbn [orb]. destruct (diameter_mode s); hit.
  - apply has_field_none. unfold report_homed. silent.
Qed.

Lemma changed_has_h :
  has_field "|H:" (report_changed cfg s rep wco)
  = r_homed rep
    && (nonzero (homing_mask s) || homing_single_axis_commands cfg
        || homing_manual cfg).
Proof.
  unfold report_changed.
  destruct (r_homed rep
            && (nonzero (homing_mask s) || homing_single_axis_commands cfg
                || homing_manual cfg)) eqn:Hf.
  - apply andb_true_iff in Hf. rewrite report_value_any by tauto.
    cbn [orb]. unfold report_homed. hit.
  - apply has_field_none. silent.
Qed.

Lemma changed_has_a :
  has_field "|A:" (report_changed cfg s rep wco)
  = r_spindle rep || r_coolant rep || r_tool rep || tool_change s.
Proof.
  unfold report_changed.
  destruct (r_spindle rep || r_coolant rep || r_tool rep || tool_change s)
    eqn:Hf.
  - assert (Hguard : report_value rep || tool_change s = true).
    { destruct (tool_change s); [apply orb_true_r|].
      rewrite orb_false_r in *. rewrite !orb_true_iff in Hf.
      rewrite report_value_any; tauto. }
    rewrite Hguard. hit.
  - apply has_field_none. unfold report_homed. silent.
Qed.

End Changed.

Lemma flags_reported_keeps (cfg : config_t) (s : snapshot) (st : rstate) :
  r_gwco (flags_reported cfg s st) = r_gwco (report st)
  /\ r_scaling (flags_reported cfg s st) = r_scaling (report st)
  /\ r_tool (flags_reported cfg s st) = r_tool (report st)
  /\ r_tlo_reference (flags_reported cfg s st) = r_tlo_reference (report st)
  /\ r_mpg_mode (flags_reported cfg s st) = r_mpg_mode (report st)
  /\ r_xmode (flags_reported cfg s st) = r_xmode (report st)
  /\ r_homed (flags_reported cfg s st) = r_homed (report st).
Proof.
  unfold flags_reported, advance_overrides, advance_wco.
  destruct (work_coord_offset cfg), (overrides cfg); cbn [snd];
    try destruct ((0 <? override_counter st) && _); cbn; tauto.
Qed.


Lemma change_is_flag_header (hdr : string) :
  In hdr change_headers -> In hdr flag_headers.
Proof.
  unfold change_headers, flag_headers. cbn [In]. intuition.
Qed.

(** X1. Each of the change fields is in the line of a report exactly when
    the call finds its dirty flag raised: the coordinate system, scaling,
    tool number and tool-length-reference fields need the flag only, the
    MPG field needs the driver's MPG capability too, the diameter-mode
    field needs lathe mode, and the homed field needs a homing mask or one
    of the homing flags single_axis_commands and manual. *)
Theorem change_fields_follow_flags (cfg : config_t) (s : snapshot)
  (st : rstate) :
  has_field "|WCS:G" (trace_of cfg s st) = r_gwco (report st)
  /\ has_field "|Sc:" (trace_of cfg s st) = r_scaling (report st)
  /\ has_field "|T:" (trace_of cfg s st) = r_tool (report st)
  /\ has_field "|TLR:" (trace_of cfg s st) = r_tlo_reference (report st)
  /\ has_field "|MPG:" (trace_of cfg s st)
     = r_mpg_mode (report st) && cap_mpg_mode cfg
  /\ has_field "|D:" (trace_of cfg s st)
     = r_xmode (report st) && mode_lathe cfg
  /\ has_field "|H:" (trace_of cfg s st)
     = r_homed (report st)
       && (nonzero (homing_mask s) || homing_single_axis_commands cfg
           || homing_manual cfg).
Proof.
  destruct (flags_reported_keeps cfg s st)
    as (Hg & Hsc & Ht & Htlr & Hm & Hx & Hh).
  repeat split;
    (rewrite flag_field_in_changed
       by (unfold flag_headers; cbn [In]; tauto)).
  - now rewrite changed_has_wcs, Hg.
  - now rewrite changed_has_sc, Hsc.
  - now rewrite changed_has_t, Ht.
  - now rewrite changed_has_tlr, Htlr.
  - now rewrite changed_has_mpg, Hm.
  - now rewrite changed_has_d, Hx.
  - now rewrite changed_has_h, Hh.
Qed.

Lemma settled_has_no_change_field (hdr : string) (cfg : config_t)
  (s : snapshot) (st : rstate) (b : bool) :
  In hdr change_headers -> report st = set_wco report_clear b ->
  has_field hdr (trace_of cfg s st) = false.
Proof.
  intros Hhdr Hrep.
  destruct (flags_reported_keeps cfg s st)
    as (Hg & Hsc & Ht & Htlr & Hm & Hx & Hh).
  rewrite Hrep in Hg, Hsc, Ht, Htlr, Hm, Hx, Hh. cbn in Hg, Hsc, Ht, Htlr, Hm, Hx, Hh.
  rewrite flag_field_in_changed by now apply change_is_flag_header.
  unfold change_headers in Hhdr. cbn [In] in Hhdr.
  repeat (destruct Hhdr as [<- | Hhdr]); [.. | destruct Hhdr].
  - now rewrite changed_has_wcs, Hg.
  - now rewrite changed_has_sc, Hsc.
  - now rewrite changed_has_mpg, Hm.
  - now rewrite changed_has_h, Hh.
  - now rewrite changed_has_d, Hx.
  - now rewrite changed_has_t, Ht.
  - now rewrite changed_has_tlr, Htlr.
Qed.

Lemma settled_run_has_no_change_field (hdr : string) (cfg : config_t)
  (snaps : list snapshot) (st : rstate) (b : bool) :
  In hdr change_headers -> report st = set_wco report_clear b ->
  Forall (fun tr => has_field hdr tr = false) (fst (run_reports cfg snaps st)).
Proof.
  intros Hhdr. revert b st.
  induction snaps as [|s snaps IH]; intros b st Hrep.
  - constructor.
  - rewrite run_cons. cbn [fst]. constructor.
    + now apply settled_has_no_change_field with (b := b).
    + destruct (after_counters cfg s st) as (_ & _ & Hrep1).
      eapply IH. exact Hrep1.
Qed.

(** X2. A report uses up the dirty flags: in a run of reports during which
    nothing else raises a flag, no report after the first holds a
    coordinate system, scaling, MPG, homed, diameter-mode, tool or
    tool-length-reference field, whatever the machine does meanwhile. *)
Theorem change_fields_not_repeated (hdr : string) (cfg : config_t)
  (s : snapshot) (snaps : list snapshot) (st : rstate) :
  In hdr change_headers ->
  Forall (fun tr => has_field hdr tr = false)
    (fst (run_reports cfg snaps (state_after cfg s st))).
Proof.
  intros Hhdr.
  destruct (after_counters cfg s st) as (_ & _ & Hrep).
  eapply settled_run_has_no_change_field; [exact Hhdr | exact Hrep].
Qed.

Lemma flags_reported_accessory (cfg : config_t) (s : snapshot) (st : rstate) :
  r_spindle (flags_reported cfg s st)
  = r_spindle (report st)
    || (r_overrides (flags_reported cfg s st)
        && sp_on (spindle_get_state s))
  /\ r_coolant (flags_reported cfg s st)
     = r_coolant (report st)
       || (r_overrides (flags_reported cfg s st)
           && coolant_value (coolant_get_state s)).
Proof.
  unfold flags_reported, advance_overrides, advance_wco.
  destruct (work_coord_offset cfg), (overrides cfg); cbn [snd].
  all: try destruct ((0 <? override_counter st) && _) eqn:Hc.
  all: cbn; rewrite ?Hc, ?andb_true_l, ?andb_false_l, ?orb_false_r; cbn.
  all: rewrite ?andb_true_l, ?andb_false_l, ?orb_false_r; try tauto.
  all: apply andb_true_iff in Hc; destruct Hc as [_ Hc];
    apply negb_true_iff in Hc; cbn in Hc; rewrite Hc, ?orb_false_r; tauto.
Qed.

(** X3. The accessory field is in the line of a report exactly when the
    call finds the spindle, coolant or tool flag raised, a tool change is
    pending, or the overrides field is written in the same line while the
    spindle is on or a coolant output is active. *)
Theorem accessory_field_condition (cfg : config_t) (s : snapshot)
  (st : rstate) :
  has_field "|A:" (trace_of cfg s st)
  = r_spindle (report st) || r_coolant (report st) || r_tool (report st)
    || tool_change s
    || (has_field "|Ov:" (trace_of cfg s st)
        && (sp_on (spindle_get_state s)
            || coolant_value (coolant_get_state s))).
Proof.
  rewrite flag_field_in_changed by (unfold flag_headers; cbn [In]; tauto).
  rewrite changed_has_a.
  rewrite (call_has_field ftoa_value "|Ov:") by now right.
  rewrite (changed_has_ov ftoa_value).
  destruct (flags_reported_keeps cfg s st) as (_ & _ & Ht & _).
  destruct (flags_reported_accessory cfg s st) as [Hs Hc].
  rewrite Hs, Hc, Ht.
  destruct (r_spindle (report st)), (r_coolant (report st)),
    (r_tool (report st)), (tool_change s),
    (r_overrides (flags_reported cfg s st)),
    (sp_on (spindle_get_state s)),
    (coolant_value (coolant_get_state s)); reflexivity.
Qed.

End Fields.

End FieldFacts.

(** ** The parser-state block of the status report *)

Module ParserState.

Import Report Text StatusLine Refresh ReportExtra.

Section Requests.

Context {P : Platform}.

Ltac plain :=
  repeat (cbn [forallb is_exec_request negb andb fst]
          || match goal with
             | |- forallb _ (_ ++ _) = true =>
                 rewrite forallb_app; apply andb_true_intro; split
             | |- forallb _ (if ?c then _ else _) = true => destruct c
             | |- forallb _ (match ?x with Some _ => _ | None => _ end) = true =>
                 destruct x
             | |- true = true => reflexivity
             end).

Lemma no_request_in (p : event -> bool) (tr : list event) :
  (forall e, p e = true -> is_exec_request e = true) ->
  forallb (fun e => negb (is_exec_request e)) tr = true ->
  existsb p tr = false.
Proof.
  intros Hp. induction tr as [|e tr IH]; [reflexivity|].
  cbn [forallb existsb]. rewrite andb_true_iff, negb_true_iff.
  intros [He Htr]. rewrite (IH Htr), orb_false_r.
  destruct (p e) eqn:Hpe; [|reflexivity].
  rewrite (Hp e Hpe) in He. discriminate.
Qed.

Lemma fields_raise_nothing (cfg : config_t) (s : snapshot) (st : rstate) :
  forallb (fun e => negb (is_exec_request e))
    (Write "<" :: fst (report_state cfg s st) ++ report_position cfg s
       ++ report_buffer_state cfg s ++ report_line_number cfg s
       ++ report_feed_speed cfg s ++ report_pin_state cfg s
       ++ report_changed cfg s (flags_reported cfg s st)
            (wco_array cfg s (report st))
       ++ report_plugin cfg (flags_reported cfg s st)) = true.
Proof.
  unfold report_state, report_position, report_buffer_state,
    report_line_number, report_feed_speed, report_pin_state, report_changed,
    report_homed, report_plugin.
  destruct (shown_state s); plain.
Qed.

(** Only the block before the closing bracket raises executor flags. *)
Lemma requests_in_tail (p : event -> bool) (cfg : config_t) (s : snapshot)
  (st : rstate) :
  (forall e, p e = true -> is_exec_request e = true) ->
  existsb p (trace_of cfg s st)
  = existsb p (fst (report_tail cfg s (flags_reported cfg s st)
                      (statics_of st))).
Proof.
  intros Hp. rewrite trace_of_parts. unfold optional_fields.
  replace (Write "<" :: fst (report_state cfg s st) ++ report_position cfg s
             ++ (report_buffer_state cfg s ++ report_line_number cfg s
                 ++ report_feed_speed cfg s ++ report_pin_state cfg s
                 ++ report_changed cfg s (flags_reported cfg s st)
                      (wco_array cfg s (report st))
                 ++ report_plugin cfg (flags_reported cfg s st)
                 ++ fst (report_tail cfg s (flags_reported cfg s st)
                           (statics_of st)))
             ++ [Write (appendbuf [">"; ASCII_EOL])])
    with ((Write "<" :: fst (report_state cfg s st) ++ report_position cfg s
             ++ report_buffer_state cfg s ++ report_line_number cfg s
             ++ report_feed_speed cfg s ++ report_pin_state cfg s
             ++ report_changed cfg s (flags_reported cfg s st)
                  (wco_array cfg s (report st))
             ++ report_plugin cfg (flags_reported cfg s st))
          ++ fst (report_tail cfg s (flags_reported cfg s st)
                    (statics_of st))
          ++ [Write (appendbuf [">"; ASCII_EOL])]).
  2:{ rewrite <- ?app_comm_cons. repeat rewrite <- app_assoc. reflexivity. }
  rewrite !existsb_app.
  rewrite (no_request_in p _ Hp (fields_raise_nothing cfg s st)).
  rewrite (no_request_in p [Write (appendbuf [">"; ASCII_EOL])] Hp eq_refl).
  now rewrite orb_false_r.
Qed.

Lemma flags_reported_requests (cfg : config_t) (s : snapshot) (st : rstate) :
  r_all (flags_reported cfg s st) = r_all (report st)
  /\ r_tool_offset (flags_reported cfg s st) = r_tool_offset (report st).
Proof.
  unfold flags_reported, advance_overrides, advance_wco.
  destruct (work_coord_offset cfg), (overrides cfg); cbn [snd];
    try destruct ((0 <? override_counter st) && _); cbn; tauto.
Qed.

Lemma statics_after (cfg : config_t) (s : snapshot) (st : rstate) :
  statics_of (state_after cfg s st)
  = snd (report_tail cfg s (flags_reported cfg s st) (statics_of st)).
Proof.
  unfold state_after, report_realtime_status, flags_reported.
  destruct (report_state cfg s st) as [ev_state p'].
  destruct (advance_wco cfg s (wco_counter st) (report st)) as [c1 rep1].
  cbn [snd].
  destruct (advance_overrides cfg s (override_counter st) rep1) as [c2 rep2].
  cbn [snd].
  destruct (report_tail cfg s rep2 (statics_of st))
    as [ev_tail [[[[t f] r] m] g]].
  reflexivity.
Qed.

(** X5. A report asks the executor for a tool-offset report exactly when
    it finds the tool_offset flag raised, parser-state reporting is enabled
    and the report is not a full report of a build with compatibility level
    0 or 1; in every case the flag is down after the report, so that with
    parser-state reporting off a raised tool_offset flag is dropped. *)
Theorem tool_offset_request_condition (cfg : config_t) (s : snapshot)
  (st : rstate) :
  asks_tlo_report (trace_of cfg s st)
  = negb ((COMPATIBILITY_LEVEL <=? 1) && r_all (report st))
    && parser_state cfg && r_tool_offset (report st)
  /\ r_tool_offset (report (state_after cfg s st)) = false.
Proof.
  split.
  - unfold asks_tlo_report. rewrite requests_in_tail
      by (intros [| |[]]; cbn; congruence).
    destruct (flags_reported_requests cfg s st) as [Hall Htlo].
    unfold report_tail, check_parser_state. rewrite Hall, Htlo.
    destruct (statics_of st) as [[[[t f] r] m] g].
    destruct ((COMPATIBILITY_LEVEL <=? 1) && r_all (report st));
      [reflexivity|].
    destruct (parser_state cfg); [|reflexivity].
    cbn [negb andb].
    repeat match goal with
      | |- context [if ?c then _ else _] => destruct c
      end; reflexivity.
  - destruct (after_counters cfg s st) as (_ & _ & ->). reflexivity.
Qed.

Lemma parser_lag_same (s s1 : snapshot) (st : rstate) :
  same_parser_state s s1 -> parser_lag s1 st = parser_lag s st.
Proof.
  intros (Hf & Hr & Ht & Hg & Hm). unfold parser_lag.
  now rewrite Hf, Hr, Ht, Hg, Hm.
Qed.

Lemma self_equal_same (s s1 : snapshot) :
  same_parser_state s s1 -> self_equal s -> self_equal s1.
Proof.
  intros (Hf & Hr & _ & _ & Hm). unfold self_equal.
  now rewrite Hf, Hr, Hm.
Qed.

Lemma parser_lag_of (s : snapshot) (st : rstate) :
  parser_lag s st
  = let '(t, f, r, m, g) := statics_of st in
    ((if fneq f (gc_feed_rate s) || fneq r (gc_spindle_rpm s)
         || negb (t =? tool s)%Z then 1 else 0)
     + (if negb (Bool.eqb g (is_g92_active s)) then 1 else 0)
     + (if modal_differs m (gc_modal s) then 1 else 0))%nat.
Proof. reflexivity. Qed.

(** One report with parser-state reporting on, and not a full one, asks
    for a parser-state report when something differs, and then one
    difference less is left. *)
Lemma request_step (cfg : config_t) (s : snapshot) (st : rstate) :
  parser_state cfg = true -> full_report st = false -> self_equal s ->
  asks_gcode_report (trace_of cfg s st) = (0 <? parser_lag s st)%nat
  /\ parser_lag s (state_after cfg s st) = Nat.pred (parser_lag s st).
Proof.
  intros Hps Hfull (Hfeed & Hrpm & Hmodal).
  unfold asks_gcode_report.
  rewrite requests_in_tail by (intros [| |[]]; cbn; congruence).
  rewrite (parser_lag_of s (state_after cfg s st)), statics_after.
  rewrite (parser_lag_of s st).
  destruct (flags_reported_requests cfg s st) as [Hall' _].
  unfold full_report in Hfull.
  unfold report_tail. rewrite Hall', Hfull, Hps.
  unfold check_parser_state.
  destruct (statics_of st) as [[[[t f] r] m] g].
  destruct (fneq f (gc_feed_rate s) || fneq r (gc_spindle_rpm s)
            || negb (t =? tool s)) eqn:H3.
  - cbn [fst snd]. rewrite Hfeed, Hrpm, Z.eqb_refl. cbn [negb orb].
    split; [|reflexivity].
    destruct (r_tool_offset (flags_reported cfg s st)); reflexivity.
  - destruct (negb (Bool.eqb g (is_g92_active s))) eqn:Hg.
    + cbn [fst snd]. rewrite H3.
      assert (Hneg : negb (Bool.eqb (negb g) (is_g92_active s)) = false)
        by (destruct g, (is_g92_active s); cbn in *; congruence).
      rewrite Hneg. split; [|reflexivity].
      destruct (r_tool_offset (flags_reported cfg s st)); reflexivity.
    + destruct (modal_differs m (gc_modal s)) eqn:Hm.
      * cbn [fst snd]. rewrite H3, Hg, Hmodal.
        split; [|reflexivity].
        destruct (r_tool_offset (flags_reported cfg s st)); reflexivity.
      * cbn [fst snd]. rewrite H3, Hg, Hm. split; [|reflexivity].
        destruct (r_tool_offset (flags_reported cfg s st)); reflexivity.
Qed.

(** A full report leaves the parser-state block out: nothing is asked for
    and nothing is taken up. *)
Lemma full_report_step (cfg : config_t) (s : snapshot) (st : rstate) :
  full_report st = true ->
  asks_gcode_report (trace_of cfg s st) = false
  /\ parser_lag s (state_after cfg s st) = parser_lag s st.
Proof.
  intros Hfull. unfold asks_gcode_report.
  rewrite requests_in_tail by (intros [| |[]]; cbn; congruence).
  rewrite (parser_lag_of s (state_after cfg s st)), statics_after.
  rewrite (parser_lag_of s st).
  destruct (flags_reported_requests cfg s st) as [Hall' _].
  unfold full_report in Hfull.
  unfold report_tail. rewrite Hall', Hfull.
  cbn [fst snd existsb is_gcode_request orb]. split; reflexivity.
Qed.

Lemma next_is_not_full (cfg : config_t) (s : snapshot) (st : rstate) :
  full_report (state_after cfg s st) = false.
Proof.
  unfold full_report.
  destruct (after_counters cfg s st) as (_ & _ & ->).
  apply andb_false_r.
Qed.

(** The run from a report that is not a full one. *)
Lemma requests_from_plain (cfg : config_t) (s : snapshot)
  (snaps : list snapshot) (st : rstate) :
  parser_state cfg = true -> self_equal s ->
  Forall (same_parser_state s) snaps -> full_report st = false ->
  map asks_gcode_report (fst (run_reports cfg snaps st))
  = map (fun i => (i <? parser_lag s st)%nat) (seq 0 (List.length snaps)).
Proof.
  intros Hps Hself Hsame. revert st.
  induction Hsame as [|s1 snaps Hs1 Hsame IH]; intros st Hfull;
    [reflexivity|].
  rewrite run_cons. cbn [fst map List.length seq].
  destruct (request_step cfg s1 st Hps Hfull (self_equal_same s s1 Hs1 Hself))
    as [Hask Hlag].
  rewrite !(parser_lag_same s s1) in * by exact Hs1.
  rewrite Hask. f_equal.
  rewrite IH by apply next_is_not_full.
  rewrite <- seq_shift, map_map. apply map_ext. intros i.
  rewrite Hlag.
  destruct (parser_lag s st) as [|k]; cbn [Nat.pred]; [|reflexivity].
  now destruct i.
Qed.

(** X4. The parser-state block takes up one kind of change per report: the
    feed rate, spindle speed and tool first, then the G92 flag, then the
    modal state. While the parser state stays as it is, and its feed rate
    and spindle speed are numbers, a run of reports with parser-state
    reporting on therefore asks for a parser-state report in exactly k
    consecutive reports, k (at most three) being the number of these kinds
    in which the remembered values differ from the parser state when the
    run starts. They are the first k reports of the run, or the k reports
    after the first when the first is a full report, which leaves the
    block out. *)
Theorem gcode_report_requests (cfg : config_t) (s : snapshot)
  (snaps : list snapshot) (st : rstate) :
  parser_state cfg = true -> self_equal s ->
  Forall (same_parser_state s) snaps ->
  let first := if full_report st then 1%nat else 0%nat in
  map asks_gcode_report (fst (run_reports cfg snaps st))
  = map (fun i => (first <=? i)%nat && (i <? first + parser_lag s st)%nat)
      (seq 0 (List.length snaps))
  /\ (parser_lag s st <= 3)%nat.
Proof.
  intros Hps Hself Hsame first. split.
  - subst first. destruct (full_report st) eqn:Hfull.
    + destruct Hsame as [|s1 snaps Hs1 Hsame]; [reflexivity|].
      rewrite run_cons. cbn [fst map List.length seq].
      destruct (full_report_step cfg s1 st Hfull) as [Hask Hlag].
      rewrite !(parser_lag_same s s1) in Hlag by exact Hs1.
      rewrite Hask. cbn [Nat.leb andb]. f_equal.
      rewrite (requests_from_plain cfg s snaps _ Hps Hself Hsame)
        by apply next_is_not_full.
      rewrite <- seq_shift, map_map. apply map_ext. intros i.
      rewrite Hlag. cbn [Nat.leb plus]. reflexivity.
    + rewrite (requests_from_plain cfg s snaps st Hps Hself Hsame Hfull).
      apply map_ext. intros i. reflexivity.
  - unfold parser_lag.
    repeat match goal with
      | |- context [if ?c then _ else _] => destruct c
      end; cbn; lia.
Qed.

End Requests.

End ParserState.

(** ** What the plugin callback is told *)

Module PluginView.

Import Report Text StatusLine Refresh ReportExtra FieldFacts.

Section Callback.

Context {P : Platform}.

Hypothesis ftoa_value : forall v n, all_chars value_char (ftoa v n) = true.

Ltac writes_only :=
  repeat (cbn [forallb is_plugin_call negb andb fst]
          || match goal with
             | |- forallb _ (_ ++ _) = true =>
                 rewrite forallb_app; apply andb_true_intro; split
             | |- forallb _ (if ?c then _ else _) = true => destruct c
             | |- forallb _ (match ?x with Some _ => _ | None => _ end) = true =>
                 destruct x
             | |- true = true => reflexivity
             end).

Lemma not_in_quiet (tr : list event) (rep : report_tracking_flags_t) :
  forallb (fun e => negb (is_plugin_call e)) tr = true ->
  ~ In (OnRealtimeReport rep) tr.
Proof.
  intros Hall Hin. rewrite forallb_forall in Hall.
  specialize (Hall _ Hin). discriminate.
Qed.

Lemma fields_call_nobody (cfg : config_t) (s : snapshot) (st : rstate) :
  forallb (fun e => negb (is_plugin_call e))
    (Write "<" :: fst (report_state cfg s st) ++ report_position cfg s
       ++ report_buffer_state cfg s ++ report_line_number cfg s
       ++ report_feed_speed cfg s ++ report_pin_state cfg s
       ++ report_changed cfg s (flags_reported cfg s st)
            (wco_array cfg s (report st))) = true
  /\ forallb (fun e => negb (is_plugin_call e))
       (fst (report_tail cfg s (flags_reported cfg s st) (statics_of st))
        ++ [Write (appendbuf [">"; ASCII_EOL])]) = true.
Proof.
  split.
  - unfold report_state, report_position, report_buffer_state,
      report_line_number, report_feed_speed, report_pin_state,
      report_changed, report_homed.
    destruct (shown_state s); writes_only.
  - unfold report_tail, check_parser_state.
    destruct (statics_of st) as [[[[t f] r] m] g].
    repeat match goal with
      | |- context [if ?c then _ else _] => destruct c
      end; reflexivity.
Qed.

(** The flags a callback is handed are the flags the call works with. *)
Lemma callback_flags (cfg : config_t) (s : snapshot) (st : rstate)
  (rep : report_tracking_flags_t) :
  In (OnRealtimeReport rep) (trace_of cfg s st) ->
  rep = flags_reported cfg s st.
Proof.
  destruct (fields_call_nobody cfg s st) as [Hpre Hpost].
  rewrite trace_of_parts. unfold optional_fields.
  replace (Write "<" :: fst (report_state cfg s st) ++ report_position cfg s
             ++ (report_buffer_state cfg s ++ report_line_number cfg s
                 ++ report_feed_speed cfg s ++ report_pin_state cfg s
                 ++ report_changed cfg s (flags_reported cfg s st)
                      (wco_array cfg s (report st))
                 ++ report_plugin cfg (flags_reported cfg s st)
                 ++ fst (report_tail cfg s (flags_reported cfg s st)
                           (statics_of st)))
             ++ [Write (appendbuf [">"; ASCII_EOL])])
    with ((Write "<" :: fst (report_state cfg s st) ++ report_position cfg s
             ++ report_buffer_state cfg s ++ report_line_number cfg s
             ++ report_feed_speed cfg s ++ report_pin_state cfg s
             ++ report_changed cfg s (flags_reported cfg s st)
                  (wco_array cfg s (report st)))
          ++ report_plugin cfg (flags_reported cfg s st)
          ++ (fst (report_tail cfg s (flags_reported cfg s st)
                     (statics_of st))
              ++ [Write (appendbuf [">"; ASCII_EOL])])).
  2:{ rewrite <- ?app_comm_cons. repeat rewrite <- app_assoc. reflexivity. }
  intros Hin. apply in_app_or in Hin. destruct Hin as [Hin | Hin];
    [now apply not_in_quiet in Hin|].
  apply in_app_or in Hin. destruct Hin as [Hin | Hin];
    [|now apply not_in_quiet in Hin].
  unfold report_plugin in Hin. destruct (on_realtime_report cfg);
    [|contradiction].
  destruct Hin as [Hin | []]. now injection Hin.
Qed.

(** X20. The flags handed to the plugin callback tell which fields the
    line holds: the wco and overrides flags are set exactly when the WCO
    and the overrides field are in the line, and the gwco, scaling, tool
    and tlo_reference flags exactly when the coordinate system, scaling,
    tool and tool-length-reference fields are. *)
Theorem callback_sees_written_fields (cfg : config_t) (s : snapshot)
  (st : rstate) (rep : report_tracking_flags_t) :
  In (OnRealtimeReport rep) (trace_of cfg s st) ->
  r_wco rep = has_field "|WCO:" (trace_of cfg s st)
  /\ r_overrides rep = has_field "|Ov:" (trace_of cfg s st)
  /\ r_gwco rep = has_field "|WCS:G" (trace_of cfg s st)
  /\ r_scaling rep = has_field "|Sc:" (trace_of cfg s st)
  /\ r_tool rep = has_field "|T:" (trace_of cfg s st)
  /\ r_tlo_reference rep = has_field "|TLR:" (trace_of cfg s st).
Proof.
  intros Hin. rewrite (callback_flags cfg s st rep Hin).
  rewrite (call_has_field ftoa_value "|WCO:") by now left.
  rewrite (call_has_field ftoa_value "|Ov:") by now right.
  rewrite !(flag_field_in_changed ftoa_value)
    by (unfold flag_headers; cbn [In]; tauto).
  rewrite changed_has_wco, (changed_has_ov ftoa_value).
  rewrite (changed_has_wcs ftoa_value), (changed_has_sc ftoa_value),
    (changed_has_t ftoa_value), (changed_has_tlr ftoa_value).
  repeat split.
Qed.

End Callback.

End PluginView.

(** ** The work coordinate offsets on the stack *)

Module StackData.

Import Report Text StatusLine Refresh ReportExtra.

Section Unassigned.

Context {P : Platform}.

Variables (cfg : config_t) (found : nat -> float).

Lemma stack_report_state (s : snapshot) (st : rstate) :
  report_state cfg (with_stack_wco s found) st = report_state cfg s st.
Proof. destruct s. reflexivity. Qed.

Lemma stack_fixed_fields (s : snapshot) :
  report_position cfg (with_stack_wco s found) = report_position cfg s
  /\ report_buffer_state cfg (with_stack_wco s found)
     = report_buffer_state cfg s
  /\ report_line_number cfg (with_stack_wco s found)
     = report_line_number cfg s
  /\ report_feed_speed cfg (with_stack_wco s found) = report_feed_speed cfg s
  /\ report_pin_state cfg (with_stack_wco s found) = report_pin_state cfg s.
Proof.
  destruct s. unfold report_position, get_axis_values.
  destruct (report_inches cfg); repeat apply conj; reflexivity.
Qed.

Lemma stack_counters (s : snapshot) (c : Z) (rep : report_tracking_flags_t) :
  advance_wco cfg (with_stack_wco s found) c rep = advance_wco cfg s c rep
  /\ advance_overrides cfg (with_stack_wco s found) c rep
     = advance_overrides cfg s c rep.
Proof. destruct s. split; reflexivity. Qed.

Lemma stack_tail (s : snapshot) (rep : report_tracking_flags_t)
  (ps : parser_statics) :
  report_tail cfg (with_stack_wco s found) rep ps = report_tail cfg s rep ps.
Proof. destruct s. reflexivity. Qed.

Lemma stack_changed (s : snapshot) (rep : report_tracking_flags_t)
  (wco : list float) :
  report_changed cfg (with_stack_wco s found) rep wco
  = report_changed cfg s rep wco.
Proof.
  destruct s. unfold report_changed, get_axis_values.
  destruct (report_inches cfg); reflexivity.
Qed.

(** The offsets are the assigned ones whenever the field is written. *)
Lemma wco_assigned (s : snapshot) (rep rep2 : report_tracking_flags_t) :
  (r_wco rep2 = true -> r_wco rep = true) ->
  report_changed cfg s rep2 (wco_array cfg (with_stack_wco s found) rep)
  = report_changed cfg s rep2 (wco_array cfg s rep).
Proof.
  intros Hflag. unfold report_changed.
  destruct (report_value rep2 || tool_change s); [|reflexivity].
  destruct (r_wco rep2); [|reflexivity].
  unfold wco_array. rewrite (Hflag eq_refl), orb_true_r. reflexivity.
Qed.

(** X17. The array wco[] is assigned only under a guard and printed under
    another; what stood in it before never reaches the report: the trace of
    a call and the state it leaves are the same whatever the unassigned
    array holds. *)
Theorem unassigned_wco_not_reported (s : snapshot) (st : rstate) :
  report_realtime_status cfg (with_stack_wco s found) st
  = report_realtime_status cfg s st.
Proof.
  unfold report_realtime_status.
  rewrite stack_report_state.
  destruct (stack_fixed_fields s) as (-> & -> & -> & -> & ->).
  destruct (report_state cfg s st) as [ev_state p'].
  rewrite (proj1 (stack_counters s (wco_counter st) (report st))).
  pose proof (flags_reported_wco cfg s st) as Hwco.
  unfold flags_reported in Hwco.
  destruct (advance_wco cfg s (wco_counter st) (report st)) as [c1 rep1].
  rewrite (proj2 (stack_counters s (override_counter st) rep1)).
  cbn [snd] in Hwco.
  destruct (advance_overrides cfg s (override_counter st) rep1)
    as [c2 rep2].
  cbn [snd] in Hwco.
  rewrite stack_tail, stack_changed.
  rewrite (wco_assigned s (report st) rep2).
  - reflexivity.
  - rewrite Hwco. intros H. apply andb_true_iff in H. tauto.
Qed.

End Unassigned.

End StackData.

(** ** The names of the coordinate systems *)

Module Naming.

Import Report Text.

Lemma uitoa_inj (a b : Z) :
  0 <= a < 2 ^ 32 -> 0 <= b < 2 ^ 32 -> uitoa a = uitoa b -> a = b.
Proof.
  intros Ha Hb. unfold uitoa. rewrite !Z.mod_small by assumption.
  intros Heq. apply (f_equal NilEmpty.uint_of_string) in Heq.
  rewrite !NilEmpty.usu in Heq. injection Heq as Heq.
  apply Unsigned.to_uint_inj in Heq. apply Z2N.inj in Heq; lia.
Qed.

Lemma name_low (a : Z) :
  0 <= a <= 5 -> map_coord_system a = uitoa (a + 54).
Proof.
  intros Ha. unfold map_coord_system, uint8.
  rewrite Z.mod_small by lia.
  destruct (59 <? a + 54) eqn:Hc; [apply Z.ltb_lt in Hc; lia|].
  now rewrite !appendbuf_cons, appendbuf_nil, !append_empty_r.
Qed.

Lemma name_high (a : Z) :
  6 <= a <= 201 ->
  map_coord_system a = ("59." ++ uitoa (a - 5))%string.
Proof.
  intros Ha. unfold map_coord_system, uint8.
  rewrite Z.mod_small by lia.
  destruct (59 <? a + 54) eqn:Hc; [|apply Z.ltb_ge in Hc; lia].
  rewrite !appendbuf_cons, appendbuf_nil, !append_empty_r.
  replace (a + 54 - 59) with (a - 5) by lia. reflexivity.
Qed.

Lemma low_is_not_high (a b : Z) :
  uitoa a <> ("59." ++ uitoa b)%string.
Proof.
  intros Heq. pose proof (uitoa_digits a) as Hd. rewrite Heq in Hd.
  discriminate Hd.
Qed.

(** X18. Coordinate systems 0 to 201 (G54 to G59, then G59.1 to G59.196)
    all get different names in the reports: the name tells the coordinate
    system. *)
Theorem coord_system_names_differ (a b : Z) :
  0 <= a <= 201 -> 0 <= b <= 201 -> a <> b ->
  map_coord_system a <> map_coord_system b.
Proof.
  intros Ha Hb Hab Heq.
  destruct (Z.le_gt_cases a 5) as [Hla | Hha];
    destruct (Z.le_gt_cases b 5) as [Hlb | Hhb].
  - rewrite !name_low in Heq by lia.
    apply uitoa_inj in Heq; lia.
  - rewrite name_low, name_high in Heq by lia.
    exact (low_is_not_high _ _ Heq).
  - rewrite name_high, name_low in Heq by lia.
    symmetry in Heq. exact (low_is_not_high _ _ Heq).
  - rewrite !name_high in Heq by lia.
    injection Heq as Heq. apply uitoa_inj in Heq; lia.
Qed.

Lemma coord_system_names_differ_witness :
  map_coord_system 5 = "59" /\ map_coord_system 6 = "59.1"
  /\ map_coord_system 5 <> map_coord_system 6.
Proof.
  split; [reflexivity|]. split; [reflexivity|].
  apply (coord_system_names_differ 5 6); lia.
Defined.

End Naming.

(** ** The G92 test *)

Module G92Facts.

Import Report G92.

Section Scan.

Context {P : Platform}.

Variable is_zero : float -> bool.

Lemma g92_scan_spec (k : nat) (offsets : nat -> float) :
  g92_scan is_zero (S k) offsets
  = existsb (fun i => negb (is_zero (offsets i))) (seq 0 (S k)).
Proof.
  induction k as [|j IH].
  - cbn. now rewrite orb_false_r.
  - rewrite seq_S, existsb_app, <- IH. cbn [existsb plus].
    rewrite orb_false_r.
    change (g92_scan is_zero (S (S j)) offsets)
      with (if negb (S j =? 0)%nat && negb (negb (is_zero (offsets (S j))))
            then g92_scan is_zero (S j) offsets
            else negb (is_zero (offsets (S j)))).
    cbn [Nat.eqb negb andb].
    destruct (is_zero (offsets (S j))); cbn [negb];
      [now rewrite orb_false_r | now rewrite orb_true_r].
Qed.

(** X19. On a build with at least one axis the G92 test scans the axes
    from the last down and answers true exactly when the G92 offset of
    some axis is not zero. *)
Theorem g92_active_iff_some_offset (offsets : nat -> float) :
  (1 <= N_AXIS)%nat ->
  is_g92_active is_zero offsets
  = existsb (fun i => negb (is_zero (offsets i))) (seq 0 N_AXIS).
Proof.
  intros Haxes. unfold is_g92_active.
  destruct N_AXIS as [|k]; [lia|]. apply g92_scan_spec.
Qed.

End Scan.

Lemma g92_active_iff_some_offset_witness :
  (1 <= N_AXIS (Platform := default_build))%nat
  /\ is_g92_active (P := default_build) (Z.eqb 0)
       (fun i => if (i =? 1)%nat then 5 else 0) = true.
Proof.
  assert (Haxes : (1 <= N_AXIS (Platform := default_build))%nat)
    by (cbn; lia).
  split; [exact Haxes|].
  exact (g92_active_iff_some_offset (P := default_build) (Z.eqb 0)
           (fun i => if (i =? 1)%nat then 5 else 0) Haxes).
Defined.

End G92Facts.

(** ** The further facts on the default build *)

Module DefaultFields.

Import Report Text StatusLine DefaultBuild Refresh ReportExtra FieldFacts
  ParserState.

Lemma change_fields_follow_flags_witness :
  let tr := trace_of (P := default_build) (lathe_config false)
              (at_rest STATE_IDLE) (power_on_with all_changed) in
  has_field "|WCS:G" tr = true /\ has_field "|Sc:" tr = true
  /\ has_field "|T:" tr = true /\ has_field "|TLR:" tr = true
  /\ has_field "|MPG:" tr = true /\ has_field "|D:" tr = true
  /\ has_field "|H:" tr = true.
Proof.
  exact (change_fields_follow_flags (P := default_build) default_ftoa_value
           (lathe_config false) (at_rest STATE_IDLE)
           (power_on_with all_changed)).
Defined.

Lemma change_fields_not_repeated_witness :
  In "|T:" change_headers
  /\ Forall (fun tr => has_field "|T:" tr = false)
       (fst (run_reports (P := default_build) (lathe_config false)
               (repeat (at_rest STATE_CYCLE) 3)
               (state_after (P := default_build) (lathe_config false)
                  (at_rest STATE_IDLE) (power_on_with all_changed)))).
Proof.
  assert (Hin : In "|T:" change_headers)
    by (unfold change_headers; cbn [In]; tauto).
  split; [exact Hin|].
  exact (change_fields_not_repeated (P := default_build) default_ftoa_value
           "|T:" (lathe_config false) (at_rest STATE_IDLE)
           (repeat (at_rest STATE_CYCLE) 3) (power_on_with all_changed) Hin).
Defined.

Lemma accessory_field_condition_witness :
  let tr := trace_of (P := default_build) (lathe_config false)
              (parser_at 0 0 false 0 true) power_on in
  has_field "|Ov:" tr = true /\ has_field "|A:" tr = true.
Proof.
  split; [reflexivity|].
  exact (accessory_field_condition (P := default_build) default_ftoa_value
           (lathe_config false) (parser_at 0 0 false 0 true) power_on).
Defined.

Lemma gcode_report_requests_witness :
  let s := parser_at 1000 3 true 7 false in
  parser_state (lathe_config true) = true
  /\ self_equal (P := default_build) s
  /\ Forall (same_parser_state s) (repeat s 5)
  /\ map asks_gcode_report
       (fst (run_reports (P := default_build) (lathe_config true)
               (repeat s 5) power_on))
     = [true; true; true; false; false]
  /\ map asks_gcode_report
       (fst (run_reports (P := default_build) (lathe_config true)
               (repeat s 5) (power_on_with full_request)))
     = [false; true; true; true; false].
Proof.
  intros s.
  assert (Hself : self_equal (P := default_build) s)
    by (repeat split; reflexivity).
  assert (Hsame : Forall (same_parser_state s) (repeat s 5))
    by (cbn [repeat]; repeat constructor).
  split; [reflexivity|]. split; [exact Hself|]. split; [exact Hsame|].
  split.
  - exact (proj1 (gcode_report_requests (P := default_build)
                    (lathe_config true) s (repeat s 5) power_on
                    eq_refl Hself Hsame)).
  - exact (proj1 (gcode_report_requests (P := default_build)
                    (lathe_config true) s (repeat s 5)
                    (power_on_with full_request) eq_refl Hself Hsame)).
Defined.

Lemma callback_sees_written_fields_witness :
  let tr := trace_of (P := default_build) (with_callback (lathe_config false))
              (at_rest STATE_IDLE) power_on in
  exists rep,
    In (OnRealtimeReport rep) tr
    /\ r_overrides rep = true /\ has_field "|Ov:" tr = true
    /\ r_wco rep = false /\ has_field "|WCO:" tr = false.
Proof.
  intros tr.
  exists (flags_reported (P := default_build)
            (with_callback (lathe_config false)) (at_rest STATE_IDLE)
            power_on).
  assert (Hin : In (OnRealtimeReport
                      (flags_reported (P := default_build)
                         (with_callback (lathe_config false))
                         (at_rest STATE_IDLE) power_on)) tr)
    by (vm_compute; tauto).
  split; [exact Hin|].
  destruct (PluginView.callback_sees_written_fields (P := default_build)
              default_ftoa_value (with_callback (lathe_config false))
              (at_rest STATE_IDLE) power_on _ Hin)
    as (Hwco & Hov & _).
  split; [reflexivity|]. split; [exact (eq_trans (eq_sym Hov) eq_refl)|].
  split; [reflexivity|]. exact (eq_trans (eq_sym Hwco) eq_refl).
Defined.

End DefaultFields.

(** ** More on the settings catalogue *)

Module Ordering.

Import Catalog Enumerate Listing.

Section Rows.

Context {S : Settings}.

Lemma qsort_insert_sorted (x : setting_detail_t) (l : list setting_detail_t) :
  StronglySorted by_id l -> StronglySorted by_id (qsort_insert x l).
Proof.
  induction 1 as [|y l Hl IH Hy]; cbn [qsort_insert].
  - repeat constructor.
  - unfold cmp_settings. destruct (id x - id y <=? 0) eqn:Hc.
    + apply Z.leb_le in Hc. constructor; [now constructor|].
      constructor; [unfold by_id; lia|].
      eapply Forall_impl; [|exact Hy]. unfold by_id. intros; lia.
    + apply Z.leb_gt in Hc. constructor; [exact IH|].
      eapply Permutation_Forall; [symmetry; apply qsort_insert_perm|].
      constructor; [unfold by_id; lia | exact Hy].
Qed.

Lemma qsort_sorted (l : list setting_detail_t) : StronglySorted by_id (qsort l).
Proof.
  unfold qsort. induction l as [|x l IH]; cbn [fold_right]; [constructor|].
  now apply qsort_insert_sorted.
Qed.

Lemma sorted_rows_setting (args : report_args_t) (setting : setting_detail_t)
  (row : event) :
  In row (rows_of print_sorted args setting) ->
  row_setting row = setting /\ row_human row = human_readable args
  /\ In (row_offset row) (iterator_offsets setting).
Proof.
  unfold rows_of, settings_iterator. cbn [snd].
  induction (iterator_offsets setting) as [|offset l IH]; cbn [map flat_map];
    [contradiction|].
  rewrite in_app_iff. intros [Hrow | Hrow].
  - unfold print_sorted in Hrow. cbn [snd] in Hrow.
    destruct (negb (other_axis args setting offset)); [|contradiction].
    destruct Hrow as [<- | []]. cbn. tauto.
  - destruct (IH Hrow) as (H1 & H2 & H3). cbn [In]. tauto.
Qed.

Lemma flat_rows_sorted (args : report_args_t) (l : list setting_detail_t) :
  StronglySorted by_id l ->
  StronglySorted (fun a b => id (row_setting a) <= id (row_setting b))
    (flat_map (rows_of print_sorted args) l).
Proof.
  induction 1 as [|x l Hl IH Hx]; cbn [flat_map]; [constructor|].
  assert (Hown : forall row, In row (rows_of print_sorted args x) ->
                             row_setting row = x)
    by (intros row Hrow; now destruct (sorted_rows_setting _ _ _ Hrow)).
  induction (rows_of print_sorted args x) as [|row rows IHrows];
    cbn [app]; [exact IH|].
  constructor.
  - apply IHrows. intros r Hr. apply Hown. now right.
  - apply Forall_forall. intros r Hr. rewrite (Hown row) by now left.
    apply in_app_iff in Hr. destruct Hr as [Hr | Hr].
    + rewrite (Hown r) by now right. lia.
    + apply in_flat_map in Hr. destruct Hr as (y & Hy & Hr).
      destruct (sorted_rows_setting _ _ _ Hr) as [-> _].
      rewrite Forall_forall in Hx. exact (Hx y Hy).
Qed.

Lemma sorted_ascending (A : Type) (key : A -> Z) (l : list A) :
  StronglySorted (fun a b => key a <= key b) l ->
  ascending (map key l) = true.
Proof.
  induction 1 as [|x l Hl IH Hx]; [reflexivity|].
  cbn [map ascending]. destruct l as [|y l]; [reflexivity|].
  cbn [map] in *. rewrite IH, andb_true_r. apply Z.leb_le.
  now inversion Hx.
Qed.

(** X6. The rows the sorted path writes come in the order of the setting
    numbers of their descriptors, from the lowest up, whatever the order
    of the registries in the chain and of the descriptors in them. *)
Theorem sorted_rows_ascend (calloc : nat -> bool) (human : bool) (grp : Z)
  (details : setting_details_t) :
  ascending
    (map (fun row => id (row_setting row))
       (snd (sort_settings_details calloc human grp details))) = true.
Proof.
  unfold sort_settings_details.
  destruct (calloc (total_settings details)); [|reflexivity].
  pose proof (iterate_rows print_sorted (make_args human grp)
                (qsort (collect_settings grp (make_args human grp) details))
                (grp =? Group_All)) as Hrows.
  destruct (iterate_settings print_sorted (make_args human grp)
              (qsort (collect_settings grp (make_args human grp) details))
              (grp =? Group_All)) as [reported rows].
  cbn [snd] in *. subst rows.
  apply sorted_ascending with (key := fun row => id (row_setting row)).
  apply flat_rows_sorted, qsort_sorted.
Qed.


Lemma unsorted_rows_setting (args : report_args_t) (setting : setting_detail_t)
  (row : event) :
  In row (rows_of print_unsorted args setting) ->
  available setting = true /\ In row (rows_of print_sorted args setting).
Proof.
  rewrite unsorted_rows. destruct (available setting); [tauto|contradiction].
Qed.

(** X7. Whichever path writes them, the rows of an enumeration come from
    descriptors of the chain only, each of them available and in the scope
    asked for, at an offset the iterator visits, and in the render mode
    asked for: a descriptor whose is_available answers false is never
    rendered. *)
Theorem rows_are_available (calloc : nat -> bool) (human : bool) (grp : Z)
  (details : setting_details_t) (row : event) :
  In row (snd (print_settings_details calloc human grp details)) ->
  In (row_setting row) (chain_settings details)
  /\ available (row_setting row) = true
  /\ in_scope grp (make_args human grp) (row_setting row) = true
  /\ In (row_offset row) (iterator_offsets (row_setting row))
  /\ row_human row = human.
Proof.
  destruct (calloc (total_settings details)) eqn:Hmem.
  - rewrite sorted_path_rows by exact Hmem. intros Hrow.
    apply in_flat_map in Hrow. destruct Hrow as (x & Hx & Hrow).
    destruct (sorted_rows_setting _ _ _ Hrow) as (-> & Hh & Ho).
    eapply Permutation_in in Hx; [|apply qsort_perm].
    rewrite collect_is_filter in Hx. apply filter_In in Hx.
    destruct Hx as [Hx Hkeep]. apply andb_true_iff in Hkeep.
    cbn [human_readable make_args] in Hh. tauto.
  - rewrite fallback_path_rows by exact Hmem. intros Hrow.
    apply in_flat_map in Hrow. destruct Hrow as (x & Hx & Hrow).
    destruct (unsorted_rows_setting _ _ _ Hrow) as [Havail Hrow'].
    destruct (sorted_rows_setting _ _ _ Hrow') as (-> & Hh & Ho).
    apply filter_In in Hx. cbn [human_readable make_args] in Hh. tauto.
Qed.

Lemma silent_iterator (callback : setting_output_ptr) (args : report_args_t)
  (setting : setting_detail_t) :
  (forall s o a, fst (callback s o a) = true) ->
  fst (settings_iterator setting callback args) = false ->
  snd (settings_iterator setting callback args) = [].
Proof.
  intros Hcb. unfold settings_iterator. cbn [fst snd].
  destruct (iterator_offsets setting) as [|o l]; [reflexivity|].
  cbn [map existsb]. now rewrite Hcb.
Qed.

Lemma silent_iterate (callback : setting_output_ptr) (args : report_args_t)
  (l : list setting_detail_t) (reported : bool) :
  (forall s o a, fst (callback s o a) = true) ->
  fst (iterate_settings callback args l reported) = false ->
  reported = false /\ snd (iterate_settings callback args l reported) = [].
Proof.
  intros Hcb. revert reported.
  induction l as [|x l IH]; intros reported; cbn [iterate_settings].
  - cbn [fst snd]. tauto.
  - pose proof (silent_iterator callback args x Hcb) as Hx.
    destruct (settings_iterator x callback args) as [ok rows].
    specialize (IH (if ok then true else reported)).
    destruct (iterate_settings callback args l (if ok then true else reported))
      as [r rows'].
    cbn [fst snd] in *. intros ->. destruct (IH eq_refl) as [Hr ->].
    destruct ok; [discriminate|]. rewrite (Hx eq_refl). tauto.
Qed.

Lemma silent_walk (grp : Z) (args : report_args_t)
  (details : setting_details_t) (reported : bool) :
  fst (walk_unsorted grp args details reported) = false ->
  reported = false /\ snd (walk_unsorted grp args details reported) = [].
Proof.
  revert reported.
  induction details as [l | l next IH]; intros reported;
    cbn [walk_unsorted].
  - apply silent_iterate. reflexivity.
  - pose proof (silent_iterate print_unsorted args
                  (filter (in_scope grp args) l) reported
                  (fun _ _ _ => eq_refl)) as Hl.
    destruct (iterate_settings print_unsorted args
                (filter (in_scope grp args) l) reported) as [r1 rows1].
    specialize (IH r1).
    destruct (walk_unsorted grp args next r1) as [r2 rows2].
    cbn [fst snd] in *. intros ->. destruct (IH eq_refl) as [-> ->].
    destruct (Hl eq_refl) as [-> ->]. tauto.
Qed.

(** X8. When a request for setting details is answered with
    Status_SettingDisabled, no row has been written, for a single setting
    as for an enumeration and on the sorted path as on the fallback. *)
Theorem disabled_status_writes_nothing (calloc : nat -> bool) (human : bool)
  (setting_id grp : Z) (details : setting_details_t) :
  fst (report_settings_details calloc human setting_id grp details)
  = Status_SettingDisabled ->
  snd (report_settings_details calloc human setting_id grp details) = [].
Proof.
  unfold report_settings_details.
  destruct (negb (setting_id =? Setting_SettingsAll)).
  - destruct (setting_get_details details setting_id);
      [discriminate | reflexivity].
  - unfold print_settings_details, sort_settings_details.
    destruct (calloc (total_settings details)).
    + pose proof (silent_iterate print_sorted (make_args human grp)
                    (qsort (collect_settings grp (make_args human grp)
                              details))
                    (grp =? Group_All) (fun _ _ _ => eq_refl)) as Hs.
      destruct (iterate_settings print_sorted (make_args human grp)
                  (qsort (collect_settings grp (make_args human grp)
                            details))
                  (grp =? Group_All)) as [[] rows]; cbn [fst snd] in *;
        [discriminate|].
      intros _. now destruct (Hs eq_refl).
    + pose proof (silent_walk grp (make_args human grp) details
                    (grp =? Group_All)) as Hw.
      destruct (walk_unsorted grp (make_args human grp) details
                  (grp =? Group_All)) as [[] rows]; cbn [fst snd] in *;
        [discriminate|].
      intros _. now destruct (Hw eq_refl).
Qed.

End Rows.

Lemma rows_are_available_witness :
  let row := Detail true scalar_setting 0 in
  In row (snd (print_settings_details (S := example_settings)
                 (fun _ => false) true 0 example_chain))
  /\ available (row_setting row) = true
  /\ In (row_offset row)
       (iterator_offsets (Settings := example_settings) (row_setting row)).
Proof.
  intros row.
  assert (Hrow : In row (snd (print_settings_details (S := example_settings)
                                (fun _ => false) true 0 example_chain)))
    by (vm_compute; tauto).
  split; [exact Hrow|].
  destruct (rows_are_available (S := example_settings) (fun _ => false) true 0
              example_chain row Hrow) as (_ & Ha & _ & Ho & _).
  split; [exact Ha | exact Ho].
Defined.

Lemma disabled_status_writes_nothing_witness :
  fst (report_settings_details (S := example_settings) (fun _ => true) false
         65535 7 example_chain) = Status_SettingDisabled
  /\ snd (report_settings_details (S := example_settings) (fun _ => true)
            false 65535 7 example_chain) = [].
Proof.
  split; [reflexivity|].
  exact (disabled_status_writes_nothing (S := example_settings)
           (fun _ => true) false 65535 7 example_chain eq_refl).
Defined.

End Ordering.

(** ** The settings listing *)

Module ListingFacts.

Import Catalog Enumerate Listing Ordering.

Section Lines.

Context {S : Settings} {V : Values}.

Lemma chain_is_core_and_plugins (details : setting_details_t) :
  chain_settings details = core_settings details ++ plugin_settings details.
Proof.
  destruct details; cbn [chain_settings core_settings plugin_settings];
    [now rewrite app_nil_r | reflexivity].
Qed.

Lemma listing_table_is_listed (all : bool) (details : setting_details_t) :
  listing_table all details = listed all details.
Proof.
  unfold listing_table, listed. destruct all; cbn [orb andb].
  - now rewrite chain_is_core_and_plugins, filter_app.
  - apply app_nil_r.
Qed.

(** X9. When the table of pointers can be had, the settings listing goes
    through the descriptors it is to show from the lowest setting number
    up, each descriptor once: with all set these are the available
    descriptors of every registry of the chain, without it the available
    legacy descriptors of the core registry alone. *)
Theorem listing_sorted_and_complete (calloc : nat -> bool) (all : bool)
  (details : setting_details_t) :
  calloc (total_settings details) = true ->
  exists table,
    report_grbl_settings calloc all details
    = flat_map
        (fun setting => snd (settings_iterator_listing setting print_setting))
        table
    /\ StronglySorted by_id table
    /\ Permutation table (listed all details).
Proof.
  intros Hmem. exists (qsort (listing_table all details)).
  unfold report_grbl_settings. rewrite Hmem.
  split; [reflexivity|]. split; [apply qsort_sorted|].
  rewrite <- listing_table_is_listed. apply qsort_perm.
Qed.

(** X10. With report_setting installed as grbl.report.setting, a request
    for one setting writes nothing or exactly the three strings "$n=",
    the value and the line end, n being the number asked for, whichever
    descriptor setting_get_details answers with and whatever its base
    number. *)
Theorem setting_line_echoes_number (details : setting_details_t)
  (setting_id : Z) :
  stream_of (snd (report_grbl_setting details setting_id)) = []
  \/ exists value,
       stream_of (snd (report_grbl_setting details setting_id))
       = [appendbuf ["$"; uitoa setting_id; "="]; value; ASCII_EOL].
Proof.
  unfold report_grbl_setting.
  destruct (setting_get_details details setting_id) as [setting|];
    [|now left].
  cbn [snd stream_of flat_map]. unfold report_setting. cbn [snd].
  destruct (setting_get_value setting (setting_id - id setting)) as [value|];
    [|now left].
  right. exists value. rewrite app_nil_r.
  now replace (id setting + (setting_id - id setting)) with setting_id by lia.
Qed.

End Lines.

Lemma listing_sorted_and_complete_witness :
  exists table,
    report_grbl_settings (S := example_settings) (V := example_values)
      (fun _ => true) true example_chain
    = flat_map
        (fun setting =>
           snd (settings_iterator_listing (S := example_settings) setting
                  (print_setting (V := example_values))))
        table
    /\ StronglySorted by_id table
    /\ Permutation table [axis_setting; scalar_setting].
Proof.
  exact (listing_sorted_and_complete (S := example_settings)
           (V := example_values) (fun _ => true) true example_chain eq_refl).
Defined.

End ListingFacts.

(** ** More on the odometer plugin *)

Module Accounting.

Import Odometer Hooks OdometerExtra.

Section Plugin.

Context {F : Firmware}.

(** X11. The step bit of the sixth axis is never read: two pulses whose
    step bits agree on the first five axes do the same to the plugin, so a
    step of the sixth axis alone is not counted on any axis. *)
Theorem sixth_axis_bit_not_read (a b : Z) (sv : saved_t) (d : data_t) :
  (forall i, 0 <= i <= 4 -> Z.testbit a i = Z.testbit b i) ->
  stepperPulseStart a sv d = stepperPulseStart b sv d.
Proof.
  intros Hbits. unfold stepperPulseStart.
  rewrite (Hbits 0), (Hbits 1), (Hbits 2), (Hbits 3), (Hbits 4) by lia.
  reflexivity.
Qed.

Lemma nth_update (A : Type) (l : list A) (i j : nat) (x d : A) :
  (i < List.length l)%nat ->
  nth j (firstn i l ++ x :: skipn (S i) l) d
  = if (j =? i)%nat then x else nth j l d.
Proof.
  revert i j. induction l as [|y l IH]; intros i j Hi; cbn [List.length] in Hi;
    [lia|].
  destruct i as [|i]; cbn [firstn skipn app].
  - destruct j; reflexivity.
  - destruct j as [|j]; [reflexivity|]. cbn [nth].
    rewrite IH by lia. reflexivity.
Qed.

Lemma length_update (A : Type) (l : list A) (i : nat) (x : A) :
  (i < List.length l)%nat ->
  List.length (firstn i l ++ x :: skipn (S i) l) = List.length l.
Proof.
  intros Hi. rewrite length_app. cbn [List.length].
  rewrite length_firstn, length_skipn. lia.
Qed.

(** The loop of [onStateChanged], from [idx] down: what it leaves on every
    axis. *)
Lemma flush_steps_spec (idx : nat) (st : list Z) (dist : list distance_t) :
  (idx <= List.length st)%nat -> List.length dist = List.length st ->
  let '(st', dist') := flush_steps idx st dist in
  List.length st' = List.length st
  /\ List.length dist' = List.length st
  /\ forall i,
       nth i st' 0 = (if (i <? idx)%nat then 0 else nth i st 0)
       /\ nth i dist' distance_zero
          = if (i <? idx)%nat && nonzero (nth i st 0)
            then add_distance i (nth i dist distance_zero) (nth i st 0)
            else nth i dist distance_zero.
Proof.
  revert st dist. induction idx as [|k IH]; intros st dist Hidx Hlen.
  - cbn [flush_steps]. repeat split.
    + assumption.
  - cbn [flush_steps].
    destruct (nonzero (nth k st 0)) eqn:Hn.
    + specialize (IH (firstn k st ++ 0 :: skipn (S k) st)
                    (firstn k dist
                     ++ add_distance k (nth k dist distance_zero) (nth k st 0)
                     :: skipn (S k) dist)).
      rewrite !length_update in IH by lia.
      specialize (IH ltac:(lia) Hlen).
      destruct (flush_steps k _ _) as [st' dist'].
      destruct IH as (Hl1 & Hl2 & IH). repeat split; try assumption.
      * destruct (IH i) as [-> _]. rewrite nth_update by lia.
        destruct (Nat.ltb_spec i k), (Nat.ltb_spec i (S k)),
          (Nat.eqb_spec i k); try lia; reflexivity.
      * destruct (IH i) as [_ ->]. rewrite !nth_update by lia.
        destruct (Nat.ltb_spec i k), (Nat.ltb_spec i (S k)),
          (Nat.eqb_spec i k); subst; try lia; cbn [andb];
          rewrite ?Hn; try reflexivity.
    + specialize (IH st dist ltac:(lia) Hlen).
      destruct (flush_steps k st dist) as [st' dist'].
      destruct IH as (Hl1 & Hl2 & IH). repeat split; try assumption.
      * destruct (IH i) as [-> _].
        destruct (Nat.ltb_spec i k), (Nat.ltb_spec i (S k)); try lia;
          try reflexivity.
        assert (i = k) by lia. subst i.
        unfold nonzero in Hn. apply negb_false_iff, Z.eqb_eq in Hn.
        now rewrite Hn.
      * destruct (IH i) as [_ ->].
        destruct (Nat.ltb_spec i k), (Nat.ltb_spec i (S k)); try lia;
          try reflexivity.
        assert (i = k) by lia. subst i. cbn [andb]. now rewrite Hn.
Qed.

(** X12. When the machine leaves motion after steps were counted, the
    state-change handler moves what was counted to the odometers: every
    step counter is zero afterwards, the distance of an axis with counted
    steps has grown by these steps over steps_per_mm and the other
    distances are unchanged, the motor run time has grown by the ticks
    since motion started, and what is written to non-volatile storage is
    the odometer data as it then stands. *)
Theorem stop_flushes_steps (state : Report.sys_state_t) (ticks : Z)
  (sv : saved_t) (d : data_t) :
  moving state = false -> odometer_changed d = true ->
  List.length (steps d) = N_AXIS ->
  List.length (distance (odometers d)) = N_AXIS ->
  let d' := snd (onStateChanged state ticks sv d) in
  steps d' = repeat 0 N_AXIS
  /\ (forall i,
        nth i (distance (odometers d')) distance_zero
        = if nonzero (nth i (steps d) 0)
          then add_distance i (nth i (distance (odometers d)) distance_zero)
                 (nth i (steps d) 0)
          else nth i (distance (odometers d)) distance_zero)
  /\ motors (odometers d')
     = uint64 (motors (odometers d) + uint32 (ticks - state_ms d))
  /\ odometer_changed d' = false
  /\ In (MemcpyToNvs (odometers_address d) (odometers d'))
       (fst (onStateChanged state ticks sv d)).
Proof.
  intros Hstill Hchanged Hsteps Hdist. unfold onStateChanged.
  rewrite Hstill, Hchanged.
  pose proof (flush_steps_spec N_AXIS (steps d) (distance (odometers d))
                ltac:(lia) ltac:(lia)) as Hflush.
  destruct (flush_steps N_AXIS (steps d) (distance (odometers d)))
    as [st' dist'].
  destruct Hflush as (Hl1 & Hl2 & Hnth). cbn [fst snd steps odometers
    distance motors odometer_changed].
  repeat split.
  - apply nth_ext with (d := 0) (d' := 0);
      [rewrite repeat_length; lia|].
    intros i Hi. destruct (Hnth i) as [-> _]. rewrite nth_repeat.
    destruct (Nat.ltb_spec i N_AXIS); [reflexivity|lia].
  - intros i. destruct (Hnth i) as [_ ->].
    destruct (Nat.ltb_spec i N_AXIS); cbn [andb]; [reflexivity|].
    rewrite (nth_overflow (steps d)) by lia. reflexivity.
  - apply in_or_app. left. now left.
Qed.

(** X13. Whatever the handler it replaced does to the entry points, after
    the settings-changed handler has run the spindle and stepper entry
    points are the plugin's again, and the handlers the plugin then calls
    on are not its own as long as they were not before: neither of the two
    functions ends up calling itself. *)
Theorem settings_change_keeps_hooks (ep : entry_points) (sv : saved_t)
  (evs : list event) (ep' : entry_points) (sv' : saved_t) :
  spindle_set_state_ sv <> fn_onSpindleSetState ->
  stepper_pulse_start sv <> fn_stepperPulseStart ->
  onSettingsChanged ep sv = Some (evs, ep', sv') ->
  hal_spindle_set_state ep' = fn_onSpindleSetState
  /\ hal_stepper_pulse_start ep' = fn_stepperPulseStart
  /\ spindle_set_state_ sv' <> fn_onSpindleSetState
  /\ stepper_pulse_start sv' <> fn_stepperPulseStart
  /\ evs = [Invoke (settings_changed sv)].
Proof.
  intros Hsp Hst. unfold onSettingsChanged.
  destruct (call (settings_changed sv)) as [evs0|] eqn:Hcall; [|discriminate].
  intros Heq. injection Heq as <- <- <-.
  cbn [hal_spindle_set_state hal_stepper_pulse_start spindle_set_state_
       stepper_pulse_start].
  destruct (handler_eqb (hal_spindle_set_state
                           (foreign_effect (settings_changed sv) ep))
              fn_onSpindleSetState) eqn:H1;
    destruct (handler_eqb (hal_stepper_pulse_start
                             (foreign_effect (settings_changed sv) ep))
                fn_stepperPulseStart) eqn:H2;
    cbn [negb];
    repeat match goal with
      | H : handler_eqb _ _ = true |- _ => apply handler_eqb_eq in H
      end;
    repeat split; try assumption; try reflexivity;
    try (intros Habs; apply handler_eqb_eq in Habs; congruence);
    unfold call in Hcall; destruct (settings_changed sv); congruence.
Qed.

Lemma uint32_sub_uint32 (a b : Z) : uint32 (a - uint32 b) = uint32 (a - b).
Proof. unfold uint32. apply Zminus_mod_idemp_r. Qed.

(** X14. Spindle run time: when the spindle is switched on at a tick count
    that is not zero and switched off later, the spindle odometer has
    grown by the ticks between the two calls (counted modulo 2^32), the
    start tick is forgotten and the write to non-volatile storage is
    queued for the foreground process. *)
Theorem spindle_run_time_accounted (t_on t_off : Z) (sv : saved_t)
  (d d1 d2 : data_t) (evs1 evs2 : list event) :
  uint32 t_on <> 0 ->
  onSpindleSetState true t_on sv d = Some (evs1, d1) ->
  onSpindleSetState false t_off sv d1 = Some (evs2, d2) ->
  spindle (odometers d2)
  = uint64 (spindle (odometers d) + uint32 (t_off - t_on))
  /\ spindle_ms d2 = 0
  /\ motors (odometers d2) = motors (odometers d)
  /\ In (EnqueueRtCommand odometers_write) evs2.
Proof.
  intros Hon. unfold onSpindleSetState.
  destruct (call (spindle_set_state_ sv)) as [evs|]; [|discriminate].
  intros H1 H2. injection H1 as <- <-.
  cbn [spindle_ms odometers] in H2.
  unfold nonzero in H2. destruct (uint32 t_on =? 0) eqn:Hz;
    [apply Z.eqb_eq in Hz; contradiction|].
  cbn [negb] in H2. injection H2 as <- <-.
  cbn [odometers spindle spindle_ms motors].
  rewrite uint32_sub_uint32. repeat split.
  apply in_or_app. right. now left.
Qed.

End Plugin.

(** X21. The hours and minutes shown for a run time are the run time in
    whole minutes: the minutes stay below 60 and, as long as the hours fit
    32 bits, sixty times the hours plus the minutes is the number of whole
    minutes in the run time. *)
Theorem run_time_in_whole_minutes (t : Z) :
  0 <= t -> t / 3600000 < 2 ^ 32 ->
  0 <= snd (hours_minutes t) < 60
  /\ 60 * fst (hours_minutes t) + snd (hours_minutes t) = t / 60000.
Proof.
  intros Ht Hfit. unfold hours_minutes, uint32. cbn [fst snd].
  assert (Hmin : 0 <= (t / 60000) mod 60 < 60)
    by (apply Z.mod_pos_bound; lia).
  assert (Hhr : 0 <= t / 3600000) by (apply Z.div_pos; lia).
  rewrite (Z.mod_small (t / 3600000)) by lia.
  rewrite (Z.mod_small ((t / 60000) mod 60)) by lia.
  split; [exact Hmin|].
  replace 3600000 with (60000 * 60) by reflexivity.
  rewrite <- Z.div_div by lia.
  symmetry. apply Z.div_mod. lia.
Qed.

Lemma run_time_in_whole_minutes_witness :
  0 <= 5430000 /\ 5430000 / 3600000 < 2 ^ 32
  /\ hours_minutes 5430000 = (1, 30)
  /\ 60 * fst (hours_minutes 5430000) + snd (hours_minutes 5430000)
     = 5430000 / 60000.
Proof.
  assert (Ht : 0 <= 5430000) by lia.
  assert (Hfit : 5430000 / 3600000 < 2 ^ 32) by (vm_compute; reflexivity).
  split; [exact Ht|]. split; [exact Hfit|]. split; [reflexivity|].
  exact (proj2 (run_time_in_whole_minutes 5430000 Ht Hfit)).
Defined.

Lemma sixth_axis_bit_not_read_witness :
  (forall i, 0 <= i <= 4 -> Z.testbit 32 i = Z.testbit 0 i)
  /\ stepperPulseStart (F := six_axis_firmware) 32 saved_hooked data_moved
     = stepperPulseStart (F := six_axis_firmware) 0 saved_hooked data_moved.
Proof.
  assert (Hbits : forall i, 0 <= i <= 4 -> Z.testbit 32 i = Z.testbit 0 i).
  { intros i Hi.
    assert (Hcases : i = 0 \/ i = 1 \/ i = 2 \/ i = 3 \/ i = 4) by lia.
    destruct Hcases as [-> | [-> | [-> | [-> | ->]]]]; reflexivity. }
  split; [exact Hbits|].
  exact (sixth_axis_bit_not_read (F := six_axis_firmware) 32 0 saved_hooked
           data_moved Hbits).
Defined.

Lemma stop_flushes_steps_witness :
  let d' := snd (onStateChanged (F := six_axis_firmware) Report.STATE_IDLE
                   4000 saved_hooked data_moved) in
  steps d' = [0; 0; 0; 0; 0; 0]
  /\ motors (odometers d') = 63000.
Proof.
  destruct (stop_flushes_steps (F := six_axis_firmware) Report.STATE_IDLE
              4000 saved_hooked data_moved eq_refl eq_refl eq_refl eq_refl)
    as (Hsteps & _ & Hmotors & _).
  split; [exact Hsteps | exact Hmotors].
Defined.

Lemma settings_change_keeps_hooks_witness :
  exists evs ep' sv',
    onSettingsChanged (F := six_axis_firmware) entry_points_hooked
      saved_hooked = Some (evs, ep', sv')
    /\ hal_spindle_set_state
         (foreign_effect (Firmware := six_axis_firmware) (Foreign 2)
            entry_points_hooked) = Foreign 3
    /\ hal_spindle_set_state ep' = fn_onSpindleSetState
    /\ hal_stepper_pulse_start ep' = fn_stepperPulseStart.
Proof.
  eexists _, _, _. split; [reflexivity|]. split; [reflexivity|].
  destruct (settings_change_keeps_hooks (F := six_axis_firmware)
              entry_points_hooked saved_hooked _ _ _
              ltac:(discriminate) ltac:(discriminate) eq_refl)
    as (Hsp & Hst & _).
  split; [exact Hsp | exact Hst].
Defined.

Lemma spindle_run_time_accounted_witness :
  exists d1 d2 evs1 evs2,
    uint32 1500 <> 0
    /\ onSpindleSetState (F := six_axis_firmware) true 1500 saved_hooked
         data_moved = Some (evs1, d1)
    /\ onSpindleSetState (F := six_axis_firmware) false 9500 saved_hooked d1
       = Some (evs2, d2)
    /\ spindle (odometers d2) = 8000.
Proof.
  eexists _, _, _, _.
  assert (Hon : uint32 1500 <> 0) by (vm_compute; discriminate).
  split; [exact Hon|]. split; [reflexivity|]. split; [reflexivity|].
  exact (proj1 (spindle_run_time_accounted (F := six_axis_firmware) 1500 9500
                  saved_hooked data_moved _ _ _ _ Hon eq_refl eq_refl)).
Defined.

End Accounting.

(** ** Setting groups *)

Module GroupFacts.

Import Groups.

Section GroupReports.

Context {G : GroupSettings}.

Lemma group_qsort_insert_perm
  (cmp : setting_group_detail_t -> setting_group_detail_t -> Z)
  (x : setting_group_detail_t) (l : list setting_group_detail_t) :
  Permutation (qsort_insert cmp x l) (x :: l).
Proof.
  induction l as [|y l IH]; cbn [qsort_insert]; [reflexivity|].
  destruct (cmp x y <=? 0); [reflexivity|].
  rewrite IH. apply perm_swap.
Qed.

Lemma group_qsort_perm
  (cmp : setting_group_detail_t -> setting_group_detail_t -> Z)
  (l : list setting_group_detail_t) :
  Permutation (qsort cmp l) l.
Proof.
  unfold qsort. induction l as [|x l IH]; cbn [fold_right]; [reflexivity|].
  rewrite group_qsort_insert_perm. now apply perm_skip.
Qed.

Lemma filter_perm (A : Type) (p : A -> bool) (l1 l2 : list A) :
  Permutation l1 l2 -> Permutation (filter p l1) (filter p l2).
Proof.
  induction 1 as [|x l1 l2 H IH|x y l|l1 l2 l3 H1 IH1 H2 IH2];
    cbn [filter].
  - constructor.
  - destruct (p x); [now apply perm_skip | exact IH].
  - destruct (p x), (p y); try reflexivity. apply perm_swap.
  - now transitivity (filter p l2).
Qed.

Lemma print_is_line (prefix : option string) (group : setting_group_detail_t) :
  print_setting_group group prefix
  = if group_shown prefix group then group_line prefix group else [].
Proof.
  unfold print_setting_group, group_shown, group_line.
  destruct (settings_is_group_available (id group)), prefix;
    cbn [andb]; rewrite ?andb_true_r; reflexivity.
Qed.

Lemma printed_groups (prefix : option string)
  (l : list setting_group_detail_t) :
  flat_map (fun group => print_setting_group group prefix) l
  = flat_map (group_line prefix) (filter (group_shown prefix) l).
Proof.
  induction l as [|x l IH]; [reflexivity|].
  cbn [flat_map filter]. rewrite print_is_line, IH.
  destruct (group_shown prefix x); reflexivity.
Qed.

Lemma chain_groups_length (details : group_details_t) :
  List.length (chain_groups details) = total_groups details.
Proof.
  induction details as [l | l next IH]; cbn [chain_groups total_groups];
    [reflexivity|].
  now rewrite length_app, IH.
Qed.

(** X15. For a chain of at most 255 groups the group report answers
    Status_OK and writes one line for every group of the chain that is
    available (and, when a prefix is given, is not the root group), and
    for no other: in the order of the chain when the table of pointers
    cannot be had, in a rearrangement of it when it can. *)
Theorem group_report_lines (calloc : nat -> bool) (by_id : bool)
  (prefix : option string) (details : group_details_t) :
  (total_groups details <= 255)%nat ->
  fst (report_setting_group_details calloc by_id prefix details) = Status_OK
  /\ exists order,
       Permutation order
         (filter (group_shown prefix) (chain_groups details))
       /\ snd (report_setting_group_details calloc by_id prefix details)
          = flat_map (group_line prefix) order
       /\ (calloc (total_groups details) = false ->
           order = filter (group_shown prefix) (chain_groups details)).
Proof.
  intros Hfew.
  unfold report_setting_group_details, sort_setting_group_details.
  assert (Hn : Z.to_nat (uint8 (Z.of_nat (total_groups details)))
               = total_groups details).
  { unfold uint8. rewrite Z.mod_small by lia. apply Nat2Z.id. }
  rewrite Hn. destruct (calloc (total_groups details)).
  - cbn [fst snd]. split; [reflexivity|].
    rewrite <- chain_groups_length, firstn_all, printed_groups.
    eexists. split; [|split; [reflexivity | discriminate]].
    apply filter_perm, group_qsort_perm.
  - cbn [fst snd]. split; [reflexivity|].
    rewrite printed_groups. eexists.
    split; [reflexivity|]. split; reflexivity.
Qed.

Context {S : Catalog.Settings}.

Lemma same_caps_letters (a b n : string) :
  map CAPS (list_ascii_of_string a) = map CAPS (list_ascii_of_string b) ->
  same_caps a n = same_caps b n.
Proof.
  revert b n. induction a as [|c a IH]; intros [|c' b] n Heq;
    cbn [list_ascii_of_string map] in Heq; try discriminate;
    [reflexivity|].
  injection Heq as Hc Hrest. cbn [same_caps].
  destruct n as [|c2 n]; [reflexivity|].
  rewrite Hc. destruct (CAPS c' =? CAPS c2)%N; [now apply IH | reflexivity].
Qed.

Lemma same_length_letters (a b : string) :
  map CAPS (list_ascii_of_string a) = map CAPS (list_ascii_of_string b) ->
  String.length a = String.length b.
Proof.
  revert b. induction a as [|c a IH]; intros [|c' b] Heq;
    cbn [list_ascii_of_string map] in Heq; try discriminate;
    [reflexivity|].
  injection Heq as _ Hrest. cbn [String.length]. f_equal. now apply IH.
Qed.

(** X16. The group named in a help request is looked up without regard to
    the case of its letters: two arguments that differ only in the case of
    the letters a to z give the same rows, from the same group. *)
Theorem group_settings_ignore_case (calloc : nat -> bool)
  (details : Catalog.setting_details_t)
  (groups : list setting_group_detail_t) (a b : string) :
  map CAPS (list_ascii_of_string a) = map CAPS (list_ascii_of_string b) ->
  report_group_settings calloc details groups a
  = report_group_settings calloc details groups b.
Proof.
  intros Heq. induction groups as [|group rest IH];
    cbn [report_group_settings]; [reflexivity|].
  rewrite (same_length_letters a b Heq), (same_caps_letters a b _ Heq), IH.
  reflexivity.
Qed.

End GroupReports.

Lemma group_report_lines_witness :
  (total_groups example_groups <= 255)%nat
  /\ snd (report_setting_group_details (G := example_group_settings)
            (fun _ => false) false (Some " ") example_groups)
     = [" "; "Spindle"; ASCII_EOL; " "; "Axis"; ASCII_EOL;
        " "; "Odometer"; ASCII_EOL].
Proof.
  assert (Hfew : (total_groups example_groups <= 255)%nat)
    by (cbn; lia).
  split; [exact Hfew|].
  destruct (group_report_lines (G := example_group_settings) (fun _ => false)
              false (Some " ") example_groups Hfew)
    as (_ & order & _ & Hout & Horder).
  rewrite Hout, (Horder eq_refl). reflexivity.
Defined.

Lemma group_settings_ignore_case_witness :
  map CAPS (list_ascii_of_string "spindle")
  = map CAPS (list_ascii_of_string "SpinDle")
  /\ report_group_settings (G := example_group_settings)
       (S := Catalog.example_settings) (fun _ => true) Catalog.example_chain
       (chain_groups example_groups) "spindle"
     = [Catalog.Detail true Catalog.scalar_setting 0]
  /\ report_group_settings (G := example_group_settings)
       (S := Catalog.example_settings) (fun _ => true) Catalog.example_chain
       (chain_groups example_groups) "spindle"
     = report_group_settings (G := example_group_settings)
         (S := Catalog.example_settings) (fun _ => true)
         Catalog.example_chain (chain_groups example_groups) "SpinDle".
Proof.
  split; [reflexivity|]. split; [reflexivity|].
  exact (group_settings_ignore_case (G := example_group_settings)
           (S := Catalog.example_settings) (fun _ => true)
           Catalog.example_chain (chain_groups example_groups)
           "spindle" "SpinDle" eq_refl).
Defined.

End GroupFacts.
